(** * DPY-Anti-Spam, hikari backend: a shallow embedding of
    [antispam/libs/hikari.py] and the properties of its specification.

  The module is a thin adapter between the anti-spam handler and the hikari
  chat client.  Its methods are embedded one by one, under their own names:
  pure methods ([create_message], [substitute_args], [dict_to_embed], ...)
  as functions into an error type, coroutines ([punish_member],
  [check_message_can_be_propagated], [delete_member_messages], ...) in a
  state-and-exception monad whose state survives a raised exception, as a
  mutated Python object does.

  Python [str] is a sequence of Unicode code points: [pystr] is [list N].
  Calls of [logging] have no effect on any value and are left out. *)

From Stdlib Require Import ZArith NArith String Ascii DecimalString.
From stdpp Require Import gmap list.

Local Open Scope Z_scope.

(** ** Python strings *)

Module PyStr.

Abbreviation pystr := (list N).

(** A string literal of the source (ASCII only) as code points. *)
Fixpoint py (s : string) : pystr :=
  match s with
  | EmptyString => []
  | String a r => N_of_ascii a :: py r
  end.

(** [str(n)] for an [int]. *)
Definition str_of_int (z : Z) : pystr :=
  py (NilZero.string_of_int (Z.to_int z)).

(** [s.startswith(p)] *)
Fixpoint startswith (s p : pystr) : bool :=
  match p, s with
  | [], _ => true
  | _ :: _, [] => false
  | a :: p', b :: s' => (a =? b)%N && startswith s' p'
  end.

(** [s.replace(old, new)]: every occurrence of [old], found from the left
    and not overlapping, becomes [new].  [skip] counts the characters of
    the occurrence just replaced that are still to be passed over. *)
Fixpoint replace_from (old new : pystr) (skip : nat) (s : pystr) : pystr :=
  match s with
  | [] => []
  | c :: t =>
      match skip with
      | S k => replace_from old new k t
      | O =>
          if startswith s old
          then new ++ replace_from old new (length old - 1) t
          else c :: replace_from old new 0 t
      end
  end.

Definition replace (s old new : pystr) : pystr :=
  match old with
  | [] => new ++ flat_map (fun c => c :: new) s
  | _ :: _ => replace_from old new 0 s
  end.

(** [c.isspace()] for a code point: the characters Python's [str.strip()]
    removes when called without argument. *)
Definition isspace (c : N) : bool :=
  ((9 <=? c) && (c <=? 13) || (28 <=? c) && (c <=? 32)
   || (c =? 133) || (c =? 160) || (c =? 5760)
   || (8192 <=? c) && (c <=? 8202)
   || (c =? 8232) || (c =? 8233) || (c =? 8239) || (c =? 8287)
   || (c =? 12288))%N.

Fixpoint lstrip (s : pystr) : pystr :=
  match s with
  | [] => []
  | c :: t => if isspace c then lstrip t else s
  end.

(** [s.strip()] *)
Definition strip (s : pystr) : pystr := rev (lstrip (rev (lstrip s))).

End PyStr.

Import PyStr.

(** ** Exceptions and results *)

(** The five failures of a REST call that the module imports from hikari
    and handles. *)
Inductive http_error :=
| UnauthorizedError
| ForbiddenError
| NotFoundError
| RateLimitTooLongError
| InternalServerError.

(** The exceptions the module raises itself, lets through from hikari, or
    gets from the interpreter ([AttributeError] on an attribute of [None],
    [KeyError] on a missing dictionary key, [TypeError] on a value of the
    wrong type, [SyntaxError] and [ValueError] out of [ast.literal_eval]). *)
Inductive exn :=
| PropagateFailure (status : pystr)
| LogicError
| MissingGuildPermissions (msg : pystr)
| HTTP (e : http_error)
| AttributeError
| KeyError
| TypeError
| SyntaxError
| ValueError.

Inductive result (A : Type) :=
| Ok (a : A)
| Raise (e : exn).
Arguments Ok {A} a.
Arguments Raise {A} e.

Definition rbind {A B} (r : result A) (f : A -> result B) : result B :=
  match r with
  | Ok a => f a
  | Raise e => Raise e
  end.

#[global] Instance result_bind : MBind result := fun A B f r => rbind r f.
#[global] Instance result_ret : MRet result := @Ok.
#[global] Instance result_fmap : FMap result :=
  fun A B f r => rbind r (fun a => Ok (f a)).

(** ** Data model *)

(** [hikari.users.User], the fields the module reads. *)
Record User := {
  user_id : Z;
  username : pystr;
  mention : pystr;
  is_bot : bool;
  avatar_url : pystr
}.

(** The JSON payload of an [embeds.Embed]: an object in which every part
    is optional. *)
Record EmbedFooter := { footer_text : option pystr }.
Record EmbedAuthor := { author_name : option pystr }.
Record EmbedField := { field_name : option pystr; field_value : option pystr }.
Record SerializedEmbed := {
  e_title : option pystr;
  e_description : option pystr;
  e_footer : option EmbedFooter;
  e_author : option EmbedAuthor;
  e_fields : option (list EmbedField)
}.

(** An element of [message.embeds]: an [embeds.Embed], known by its
    payload, or anything else. *)
Inductive embed_item :=
| AnEmbed (e : SerializedEmbed)
| NotAnEmbed.

(** [hikari.messages.Message] *)
Record HMessage := {
  msg_id : Z;
  msg_channel_id : Z;
  msg_guild_id : option Z;
  msg_author : User;
  msg_content : option pystr;
  msg_embeds : list embed_item;
  msg_created_at_iso : pystr
}.

(** [antispam.dataclasses.Message]; [is_duplicate] is [False] when the
    constructor is not given it. *)
Module Message.
Record t := mk {
  id : Z;
  channel_id : Z;
  guild_id : option Z;
  author_id : Z;
  content : pystr;
  is_duplicate : bool
}.
End Message.

(** ** Template engine: [string.Template.safe_substitute] *)

Module Template.

(** A value of the substitution mapping, and [str()] of it. *)
Inductive scalar :=
| SStr (s : pystr)
| SInt (z : Z).

Definition str (v : scalar) : pystr :=
  match v with
  | SStr s => s
  | SInt z => str_of_int z
  end.

Definition delimiter : N := 36.

(** [idpattern]: an ASCII letter or underscore, then ASCII letters, digits
    and underscores, in either case. *)
Definition is_id_start (c : N) : bool :=
  ((c =? 95) || (97 <=? c) && (c <=? 122) || (65 <=? c) && (c <=? 90))%N.

Definition is_id_char (c : N) : bool :=
  (is_id_start c || (48 <=? c) && (c <=? 57))%N.

Fixpoint take_id (s : pystr) : pystr :=
  match s with
  | [] => []
  | c :: t => if is_id_char c then c :: take_id t else []
  end.

(** The group that matched after a delimiter. *)
Inductive group :=
| Escaped
| Named (name : pystr)
| Braced (name : pystr)
| Invalid.

(** The alternatives of [Template.pattern] tried in order on the text [t]
    that follows a delimiter: the group that matches, and how many
    characters of [t] the match takes. *)
Definition match_at (t : pystr) : group * nat :=
  match t with
  | [] => (Invalid, O)
  | c :: r =>
      if (c =? delimiter)%N then (Escaped, 1%nat)
      else if is_id_start c then (Named (take_id t), length (take_id t))
      else if (c =? 123)%N then
        match r with
        | c' :: _ =>
            if is_id_start c' then
              match drop (length (take_id r)) r with
              | close :: _ =>
                  if (close =? 125)%N
                  then (Braced (take_id r), S (S (length (take_id r))))
                  else (Invalid, O)
              | [] => (Invalid, O)
              end
            else (Invalid, O)
        | [] => (Invalid, O)
        end
      else (Invalid, O)
  end.

(** [convert] of [safe_substitute]; [whole] is [mo.group()]. *)
Definition convert (mapping : gmap (list N) scalar) (g : group) (whole : pystr)
  : pystr :=
  match g with
  | Named name | Braced name =>
      match mapping !! name with
      | Some v => str v
      | None => whole
      end
  | Escaped => [delimiter]
  | Invalid => whole
  end.

(** [pattern.sub(convert, template)], scanning from the left; [skip] counts
    the characters of the last match still to be passed over. *)
Fixpoint sub_from (mapping : gmap (list N) scalar) (skip : nat) (s : pystr)
  : pystr :=
  match s with
  | [] => []
  | c :: t =>
      match skip with
      | S k => sub_from mapping k t
      | O =>
          if (c =? delimiter)%N then
            let '(g, n) := match_at t in
            convert mapping g (c :: take n t) ++ sub_from mapping n t
          else c :: sub_from mapping O t
      end
  end.

Definition safe_substitute (mapping : gmap (list N) scalar) (template : pystr)
  : pystr :=
  sub_from mapping O template.

(** [pattern.finditer(template)]: the groups of the matches, in order. *)
Fixpoint groups_from (skip : nat) (s : pystr) : list group :=
  match s with
  | [] => []
  | c :: t =>
      match skip with
      | S k => groups_from k t
      | O =>
          if (c =? delimiter)%N then
            let '(g, n) := match_at t in g :: groups_from n t
          else groups_from O t
      end
  end.

Definition groups (template : pystr) : list group := groups_from O template.

End Template.


(** ** The handler, the bot and its cache *)

(** [hikari.Permissions] is a flag enumeration over [int]; the module
    starts from [Permissions.NONE] and joins the permissions of the roles
    with [|].  A value is a bit set, [|] is bitwise or, and a value is true
    when it is not zero.  The flags are attributes of the class:
    [KICK_MEMBERS] is bit 1 and [BAN_MEMBERS] is bit 2, as Discord numbers
    them.  An attribute lookup [perms.KICK_MEMBERS] on a value [perms]
    therefore finds the class attribute, the flag [KICK_MEMBERS] itself,
    whatever the bits of [perms] are; whether [perms] holds a flag is
    [perms & flag], here [has]. *)
Module Permissions.

Definition NONE : Z := 0.
Definition KICK_MEMBERS : Z := Z.shiftl 1 1.
Definition BAN_MEMBERS : Z := Z.shiftl 1 2.

Definition or (a b : Z) : Z := Z.lor a b.
Definition truth (p : Z) : bool := negb (p =? 0).

(** [perms.KICK_MEMBERS] and [perms.BAN_MEMBERS] for a value [perms]. *)
Definition getattr_KICK_MEMBERS (perms : Z) : Z := KICK_MEMBERS.
Definition getattr_BAN_MEMBERS (perms : Z) : Z := BAN_MEMBERS.

(** Whether the bit set [perms] holds every bit of [flag]. *)
Definition has (perms flag : Z) : bool := Z.land perms flag =? flag.

End Permissions.

(** [hikari.guilds.Role] *)
Record Role := {
  role_name : pystr;
  permissions : Z
}.

(** [hikari.guilds.Member] *)
Record HMember := {
  member_user : User;
  role_ids : list Z
}.

(** [hikari.guilds.Guild], as the bot's cache holds it. *)
Record HGuild := {
  hguild_id : Z;
  guild_name : pystr;
  owner_id : Z;
  icon_url : pystr;
  get_member : Z -> option HMember;
  get_my_member : option HMember
}.

(** [hikari.GuildTextChannel] *)
Record Channel := {
  chan_id : Z;
  chan_name : pystr
}.

(** A Python value as [ast.literal_eval] builds it and a configured message
    holds it; dictionaries keep the order of insertion and have string
    keys. *)
#[local] Unset Elimination Schemes.
Inductive pyobj :=
| PNone
| PBool (b : bool)
| PInt (z : Z)
| PStr (s : pystr)
| PList (l : list pyobj)
| PDict (d : list (list N * pyobj)).
#[local] Set Elimination Schemes.

(** [handler.options], the options the module reads.  An ignore set holds
    ids ([int], left) and names ([str], right). *)
Record Options := {
  ignore_bots : bool;
  ignored_members : gset Z;
  ignored_channels : gset (Z + list N);
  ignored_roles : gset (Z + list N);
  ignored_guilds : gset Z;
  delete_zero_width_chars : bool;
  member_failed_kick_message : pyobj;
  member_failed_ban_message : pyobj
}.

(** [handler]: its options, [handler.bot] with its cache, and the clock
    that [datetime.datetime.now().strftime] reads. *)
Record Handler := {
  options : Options;
  get_me : option User;
  cache_get_guild : Z -> option HGuild;
  now_strftime : pystr -> pystr
}.

(** [bot.cache.get_guild(guild_id)]; there is no guild for [None]. *)
Definition get_guild (handler : Handler) (guild_id : option Z) : option HGuild :=
  match guild_id with
  | Some g => cache_get_guild handler g
  | None => None
  end.

(** ** Entity normalizer *)

Definition nl : pystr := [10%N].

(** A subscript [d[key]] of a JSON object: [KeyError] when absent. *)
Definition subscript {A} (o : option A) : result A :=
  match o with
  | Some a => Ok a
  | None => Raise KeyError
  end.

(** [entity_factory.serialize_embed] returns a tuple of two items: the
    payload, a dictionary, and the resources to upload, a list that the
    module never reads. *)
Inductive serialized_item :=
| Payload (embed : SerializedEmbed)
| Uploads.

Definition serialize_embed (embed : SerializedEmbed) : list serialized_item :=
  [Payload embed; Uploads].

(** [key == item] for a [str] and an item of that tuple: a [str] equals
    no dictionary and no list. *)
Definition str_eq_item (key : pystr) (item : serialized_item) : bool :=
  match item with
  | Payload _ => false
  | Uploads => false
  end.

(** [key in t] for a tuple [t]: some item equals [key]. *)
Definition tuple_in (key : pystr) (t : list serialized_item) : bool :=
  existsb (str_eq_item key) t.

(** [t[key]] for a tuple and a [str]: the indices of a tuple are integers,
    [TypeError]. *)
Definition tuple_getitem {A} (t : list serialized_item) (key : pystr)
  : result A :=
  Raise TypeError.

(** The loop over [embed["fields"]]. *)
Fixpoint fields_to_string (fs : list EmbedField) (acc : pystr) : result pystr :=
  match fs with
  | [] => Ok acc
  | f :: fs' =>
      name ← subscript (field_name f);
      value ← subscript (field_value f);
      fields_to_string fs' (acc ++ name ++ nl ++ value ++ nl)
  end.

(** [embed_to_string]: after the first statement [embed] is the tuple, and
    it is the tuple that the tests and the subscripts read. *)
Definition embed_to_string (embed : SerializedEmbed) : result pystr :=
  let content := [] in
  let embed := serialize_embed embed in
  content ←
    (if tuple_in (py "title") embed then
       title ← tuple_getitem embed (py "title");
       Ok (content ++ title ++ nl)
     else Ok content);
  content ←
    (if tuple_in (py "description") embed then
       description ← tuple_getitem embed (py "description");
       Ok (content ++ description ++ nl)
     else Ok content);
  content ←
    (if tuple_in (py "footer") embed then
       footer ← tuple_getitem embed (py "footer");
       match footer_text footer with
       | Some text => Ok (content ++ text ++ nl)
       | None => Ok content
       end
     else Ok content);
  content ←
    (if tuple_in (py "author") embed then
       author ← tuple_getitem embed (py "author");
       name ← subscript (author_name author);
       Ok (content ++ name ++ nl)
     else Ok content);
  if tuple_in (py "fields") embed then
    fields ← tuple_getitem embed (py "fields");
    fields_to_string fields content
  else Ok content.

(** Truth value of [message.content and message.content.strip()]. *)
Definition has_text (c : option pystr) : bool :=
  match c with
  | None => false
  | Some s =>
      match s with
      | [] => false
      | _ :: _ => match strip s with [] => false | _ :: _ => true end
      end
  end.

(** The chain of [replace] calls of [create_message], as written: each
    pattern is the five ASCII characters of the source literal. *)
Definition delete_zero_width (content : pystr) : pystr :=
  replace
    (replace
       (replace
          (replace
             (replace (replace content (py "u200B") []) (py "u200C") [])
             (py "u200D") [])
          (py "u200E") [])
       (py "u200F") [])
    (py "uFEFF") [].

Definition create_message (handler : Handler) (message : HMessage)
  : result Message.t :=
  content ←
    (if negb (has_text (msg_content message)) then
       match msg_embeds message with
       | [] => Raise LogicError
       | AnEmbed embed :: _ => embed_to_string embed
       | NotAnEmbed :: _ => Raise LogicError
       end
     else Ok (default [] (msg_content message)));
  let content :=
    if delete_zero_width_chars (options handler)
    then delete_zero_width content else content in
  Ok {| Message.id := msg_id message;
        Message.channel_id := msg_channel_id message;
        Message.guild_id := msg_guild_id message;
        Message.author_id := user_id (msg_author message);
        Message.content := content;
        Message.is_duplicate := false |}.

(** An attribute or method of [o]: [AttributeError] when [o] is [None]. *)
Definition deref {A} (o : option A) : result A :=
  match o with
  | Some a => Ok a
  | None => Raise AttributeError
  end.

(** [str(x)] of an optional [int]. *)
Definition str_of_opt_int (z : option Z) : Template.scalar :=
  match z with
  | Some z => Template.SInt z
  | None => Template.SStr (py "None")
  end.

(** The mapping [substitute_args] builds. *)
Definition substitution_context (handler : Handler) (guild : HGuild)
  (me : HMember) (original_message : HMessage) (warn_count kick_count : Z)
  : gmap (list N) Template.scalar :=
  let author := msg_author original_message in
  list_to_map
    [ (py "MENTIONUSER", Template.SStr (mention author));
      (py "USERNAME", Template.SStr (username author));
      (py "USERID", Template.SInt (user_id author));
      (py "BOTNAME", Template.SStr (username (member_user me)));
      (py "BOTID", Template.SInt (user_id (member_user me)));
      (py "GUILDID", str_of_opt_int (msg_guild_id original_message));
      (py "GUILDNAME", Template.SStr (guild_name guild));
      (py "TIMESTAMPNOW",
        Template.SStr (now_strftime handler (py "%I:%M:%S %p, %d/%m/%Y")));
      (py "TIMESTAMPTODAY",
        Template.SStr (now_strftime handler (py "%d/%m/%Y")));
      (py "WARNCOUNT", Template.SInt warn_count);
      (py "KICKCOUNT", Template.SInt kick_count);
      (py "USERAVATAR", Template.SStr (avatar_url author));
      (py "BOTAVATAR", Template.SStr (avatar_url (member_user me)));
      (py "GUILDICON", Template.SStr (icon_url guild)) ].

(** [substitute_args]; [message] is whatever the caller found in the
    configured value, and [Template] takes only a [str]. *)
Definition substitute_args (handler : Handler) (message : pyobj)
  (original_message : HMessage) (warn_count kick_count : Z) : result pystr :=
  guild ← deref (get_guild handler (msg_guild_id original_message));
  me ← deref (get_my_member guild);
  match message with
  | PStr template =>
      Ok (Template.safe_substitute
            (substitution_context handler guild me original_message
               warn_count kick_count)
            template)
  | _ => Raise TypeError
  end.

(** ** Python containers *)

Fixpoint dict_get (key : pystr) (d : list (list N * pyobj)) : option pyobj :=
  match d with
  | [] => None
  | (k, v) :: d' => if bool_decide (k = key) then Some v else dict_get key d'
  end.

(** [d[key] = v]: in place when the key is there, at the end otherwise. *)
Fixpoint dict_set (key : pystr) (v : pyobj) (d : list (list N * pyobj))
  : list (list N * pyobj) :=
  match d with
  | [] => [(key, v)]
  | (k, w) :: d' =>
      if bool_decide (k = key) then (k, v) :: d' else (k, w) :: dict_set key v d'
  end.

(** [key in s] for two strings: [key] occurs in [s]. *)
Fixpoint occurs (key s : pystr) : bool :=
  startswith s key || match s with [] => false | _ :: t => occurs key t end.

Definition is_str (key : pystr) (x : pyobj) : bool :=
  match x with
  | PStr s => bool_decide (s = key)
  | _ => false
  end.

(** [key in container] for a string [key]. *)
Definition py_in (key : pystr) (container : pyobj) : result bool :=
  match container with
  | PDict d => Ok (bool_decide (is_Some (dict_get key d)))
  | PList l => Ok (existsb (is_str key) l)
  | PStr s => Ok (occurs key s)
  | PNone | PBool _ | PInt _ => Raise TypeError
  end.

(** [container[key]] for a string [key]. *)
Definition py_getitem (container : pyobj) (key : pystr) : result pyobj :=
  match container with
  | PDict d => subscript (dict_get key d)
  | _ => Raise TypeError
  end.

(** [container[key] = v] for a string [key]: the container afterwards. *)
Definition py_setitem (container : pyobj) (key : pystr) (v : pyobj)
  : result pyobj :=
  match container with
  | PDict d => Ok (PDict (dict_set key v d))
  | _ => Raise TypeError
  end.

(** The items a [for] loop over [container] visits. *)
Definition py_iter (container : pyobj) : result (list pyobj) :=
  match container with
  | PList l => Ok l
  | PDict d => Ok (map (fun kv => PStr (fst kv)) d)
  | PStr s => Ok (map (fun c => PStr [c]) s)
  | PNone | PBool _ | PInt _ => Raise TypeError
  end.

(** ** Template engine: rich content *)

(** What a rendered template is: a [str], or the [embeds.Embed] that
    [entity_factory.deserialize_embed] makes of a dictionary, kept as that
    dictionary. *)
Inductive payload :=
| Text (s : pystr)
| Embed (data : pyobj).

Section TemplateEngine.

Variable handler : Handler.
Variable message : HMessage.
Variables warn_count kick_count : Z.

Definition allowed_avatars : list pystr :=
  [py "$USERAVATAR"; py "$BOTAVATAR"; py "$GUILDICON"].

(** [d[key] = self.substitute_args(d[key], message, warn_count, kick_count)] *)
Definition substitute_item (d : pyobj) (key : pystr) : result pyobj :=
  v ← py_getitem d key;
  s ← substitute_args handler v message warn_count kick_count;
  py_setitem d key (PStr s).

(** [if key in d: d[key] = self.substitute_args(d[key], ...)] *)
Definition substitute_if_present (d : pyobj) (key : pystr) : result pyobj :=
  present ← py_in key d;
  if (present : bool) then substitute_item d key else Ok d.

(** The [icon_url] of a footer or an author: substituted only when it is
    one of [allowed_avatars]. *)
Definition substitute_icon_url (d : pyobj) : result pyobj :=
  present ← py_in (py "icon_url") d;
  if (present : bool) then
    icon ← py_getitem d (py "icon_url");
    if existsb (fun a => is_str a icon) allowed_avatars
    then substitute_item d (py "icon_url")
    else Ok d
  else Ok d.

(** The body of the loop over [data["fields"]], on one field. *)
Definition substitute_field (field : pyobj) : result pyobj :=
  v ← py_getitem field (py "name");
  name ← substitute_args handler v message warn_count kick_count;
  v ← py_getitem field (py "value");
  value ← substitute_args handler v message warn_count kick_count;
  field ← py_setitem field (py "name") (PStr name);
  field ← py_setitem field (py "value") (PStr value);
  present ← py_in (py "inline") field;
  if (present : bool) then Ok field
  else py_setitem field (py "inline") (PBool true).

Fixpoint substitute_fields (fields : list pyobj) : result (list pyobj) :=
  match fields with
  | [] => Ok []
  | field :: rest =>
      field ← substitute_field field;
      rest ← substitute_fields rest;
      Ok (field :: rest)
  end.

(** [dict_to_embed]: the dictionary is updated step by step and handed to
    [deserialize_embed], which belongs to hikari: [Embed data] stands for
    that call on the dictionary [data].  What hikari does with it (it
    refuses a colour out of range, for one) is outside this model, and so
    is the sharing of the dictionary with the caller, who sees the
    updates. *)
Definition dict_to_embed (data : pyobj) : result payload :=
  data ← substitute_if_present data (py "title");
  data ← substitute_if_present data (py "description");
  has_footer ← py_in (py "footer") data;
  data ←
    (if (has_footer : bool) then
       footer ← py_getitem data (py "footer");
       footer ← substitute_if_present footer (py "text");
       footer ← substitute_icon_url footer;
       py_setitem data (py "footer") footer
     else Ok data);
  has_author ← py_in (py "author") data;
  data ←
    (if (has_author : bool) then
       author ← py_getitem data (py "author");
       author ← substitute_item author (py "name");
       author ← substitute_icon_url author;
       py_setitem data (py "author") author
     else Ok data);
  has_fields ← py_in (py "fields") data;
  data ←
    (if (has_fields : bool) then
       fields ← py_getitem data (py "fields");
       items ← py_iter fields;
       items ← substitute_fields items;
       match fields with
       | PList _ => py_setitem data (py "fields") (PList items)
       | _ => Ok data
       end
     else Ok data);
  has_timestamp ← py_in (py "timestamp") data;
  data ←
    (if (has_timestamp : bool)
     then py_setitem data (py "timestamp") (PStr (msg_created_at_iso message))
     else Ok data);
  has_colour ← py_in (py "colour") data;
  data ←
    (if (has_colour : bool) then
       colour ← py_getitem data (py "colour");
       py_setitem data (py "color") colour
     else Ok data);
  data ← py_setitem data (py "type") (PStr (py "rich"));
  Ok (Embed data).

Definition transform_message (item : pyobj) : result payload :=
  match item with
  | PStr _ =>
      s ← substitute_args handler item message warn_count kick_count;
      Ok (Text s)
  | _ => dict_to_embed item
  end.

(** [visualizer]; [literal_eval] is [ast.literal_eval] of the Python
    library. *)
Definition visualizer (literal_eval : pystr -> result pyobj) (content : pystr)
  : result payload :=
  item ← (if startswith content (py "{") then literal_eval content
          else Ok (PStr content));
  transform_message item.

End TemplateEngine.

(** ** The anti-spam records *)

(** [antispam.dataclasses.Member] *)
Module Member.
Record t := mk {
  id : Z;
  warn_count : Z;
  kick_count : Z;
  _in_guild : bool;
  messages : list Message.t
}.
End Member.

(** [antispam.dataclasses.Guild] *)
Module Guild.
Record t := mk {
  id : Z;
  log_channel_id : option Z
}.
End Guild.

(** [antispam.dataclasses.propagate_data.PropagateData];
    [has_perms_to_make_guild] holds the value the source gives it, a
    [Permissions]. *)
Module PropagateData.
Record t := mk {
  guild_id : option Z;
  member_name : pystr;
  member_id : Z;
  has_perms_to_make_guild : Z
}.
End PropagateData.

(** ** The chat platform and the coroutine monad *)

(** The outcome of a REST call. *)
Inductive remote (A : Type) :=
| Done (a : A)
| Failed (e : http_error).
Arguments Done {A} a.
Arguments Failed {A} e.

(** Where [send] goes: the private channel of a user, or a channel. *)
Inductive target :=
| ToUser (user : Z)
| ToChannel (channel : Z).

(** What a coroutine did, in order: each call that leaves the module, with
    its outcome.  A sent or fetched message is known by its id. *)
Inductive event :=
| FetchChannel (channel : Z) (r : remote Channel)
| FetchRoles (member : Z) (r : remote (list Role))
| Send (to : target) (body : payload) (r : remote Z)
| Delete (message : Z) (r : remote unit)
| Sleep (seconds : Z)
| Kick (guild user : Z) (r : remote unit)
| Ban (guild user : Z) (r : remote unit)
| FetchMessage (channel message : Z) (r : remote Z)
| SetMember (member : Member.t).

(** The platform answers each call as it likes, knowing all that happened
    before. *)
Record Platform := {
  rest_fetch_channel : list event -> Z -> remote Channel;
  member_fetch_roles : list event -> Z -> remote (list Role);
  target_send : list event -> target -> payload -> remote Z;
  message_delete : list event -> Z -> remote unit;
  guild_kick : list event -> Z -> Z -> remote unit;
  guild_ban : list event -> Z -> Z -> remote unit;
  channel_fetch_message : list event -> Z -> Z -> remote Z
}.

(** The state of a coroutine: the object it mutates, and the trace.  It
    outlives an exception. *)
Record state (S : Type) := mkstate {
  store : S;
  trace : list event
}.
Arguments mkstate {S} store trace.
Arguments store {S} s.
Arguments trace {S} s.

Definition M (S A : Type) : Type := state S -> result A * state S.

Definition ret {S A} (a : A) : M S A := fun st => (Ok a, st).

Definition raise {S A} (e : exn) : M S A := fun st => (Raise e, st).

Definition bind {S A B} (c : M S A) (f : A -> M S B) : M S B :=
  fun st =>
    match c st with
    | (Ok a, st') => f a st'
    | (Raise e, st') => (Raise e, st')
    end.

#[global] Instance M_bind {S} : MBind (M S) := fun A B f c => bind c f.
#[global] Instance M_ret {S} : MRet (M S) := fun A a => ret a.

(** A pure step that may raise. *)
Definition lift {S A} (r : result A) : M S A := fun st => (r, st).

(** [try: body / except <handles>: handler] *)
Definition try_except {S A} (body : M S A) (handles : exn -> bool)
  (handler : M S A) : M S A :=
  fun st =>
    match body st with
    | (Ok a, st') => (Ok a, st')
    | (Raise e, st') => if handles e then handler st' else (Raise e, st')
    end.

(** [try: body / except <handles>: handler / else: orelse] *)
Definition try_except_else {S A B} (body : M S A) (handles : exn -> bool)
  (handler : M S B) (orelse : A -> M S B) : M S B :=
  fun st =>
    match body st with
    | (Ok a, st') => orelse a st'
    | (Raise e, st') => if handles e then handler st' else (Raise e, st')
    end.

(** An awaited call: the platform answers on the trace so far, and the call
    joins the trace with its answer. *)
Definition await {S A} (ask : list event -> remote A) (ev : remote A -> event)
  : M S A :=
  fun st =>
    let r := ask (trace st) in
    (match r with Done a => Ok a | Failed e => Raise (HTTP e) end,
     mkstate (store st) (trace st ++ [ev r])).

(** [await asyncio.sleep(seconds)] *)
Definition sleep {S} (seconds : Z) : M S unit :=
  fun st => (Ok tt, mkstate (store st) (trace st ++ [Sleep seconds])).

Definition get_store {S} : M S S := fun st => (Ok (store st), st).

Definition modify_store {S} (f : S -> S) : M S unit :=
  fun st => (Ok tt, mkstate (f (store st)) (trace st)).

(** [await self.handler.cache.set_member(member)]: the cache gets the
    member as it is now. *)
Definition cache_set_member {S} (member : Member.t) : M S unit :=
  fun st => (Ok tt, mkstate (store st) (trace st ++ [SetMember member])).

Definition is_AttributeError (e : exn) : bool :=
  match e with AttributeError => true | _ => false end.

Definition is_InternalServerError (e : exn) : bool :=
  match e with HTTP InternalServerError => true | _ => false end.

Definition is_NotFoundError (e : exn) : bool :=
  match e with HTTP NotFoundError => true | _ => false end.

Definition is_NotFound_or_Forbidden (e : exn) : bool :=
  match e with HTTP NotFoundError | HTTP ForbiddenError => true | _ => false end.

(** The [except] clause of [send_guild_log]. *)
Definition is_log_failure (e : exn) : bool :=
  match e with HTTP _ => true | _ => false end.

(** Truth value of an optional [int]: [None] and [0] are false. *)
Definition truthy (z : option Z) : bool :=
  match z with
  | Some n => negb (n =? 0)
  | None => false
  end.

(** ** The coroutines of [Hikari] *)

(** The argument of [check_message_can_be_propagated]: a
    [messages.Message], or any other object. *)
Inductive pyarg :=
| AMessage (m : HMessage)
| NotAMessage.

(** An entry of a member's role list: a role id, or a role name. *)
Definition str_of_item (item : Z + list N) : pystr :=
  match item with
  | inl z => str_of_int z
  | inr s => s
  end.

(** What [punish_member] mutates: its [member] argument, and its local
    variable [sent_message]. *)
Record punish_frame := mkframe {
  member : Member.t;
  sent_message : option Z
}.

Definition set_in_guild (f : punish_frame) : punish_frame :=
  let m := member f in
  mkframe
    (Member.mk (Member.id m) (Member.warn_count m) (Member.kick_count m) true
       (Member.messages m))
    (sent_message f).

Definition decrement_kick_count (f : punish_frame) : punish_frame :=
  let m := member f in
  mkframe
    (Member.mk (Member.id m) (Member.warn_count m) (Member.kick_count m - 1)
       (Member._in_guild m) (Member.messages m))
    (sent_message f).

Definition set_sent_message (m : option Z) (f : punish_frame) : punish_frame :=
  mkframe (member f) m.

Section Coroutines.

Variable handler : Handler.
Variable pf : Platform.

(** [send_message_to_]; [target] is where the message goes. *)
Definition send_message_to_ {S} (to : target) (message : payload)
  (delete_after_time : option Z) : M S unit :=
  m ← await (fun h => target_send pf h to message) (Send to message);
  if truthy delete_after_time then
    _ ← sleep (default 0 delete_after_time);
    await (fun h => message_delete pf h m) (Delete m)
  else mret tt.

Definition get_guild_id (message : HMessage) : option Z := msg_guild_id message.

Definition get_channel_id (message : HMessage) : Z := msg_channel_id message.

(** [get_channel] *)
Definition get_channel {S} (message : HMessage) : M S Channel :=
  await (fun h => rest_fetch_channel pf h (msg_channel_id message))
    (FetchChannel (msg_channel_id message)).

(** [send_guild_log] *)
Definition send_guild_log {S} (guild : Guild.t) (message : payload)
  (delete_after_time : option Z) (original_channel : Channel) : M S unit :=
  try_except
    (channel ←
       (if negb (truthy (Guild.log_channel_id guild)) then mret original_channel
        else
          let channel := default 0 (Guild.log_channel_id guild) in
          await (fun h => rest_fetch_channel pf h channel) (FetchChannel channel));
     m ← await (fun h => target_send pf h (ToChannel (chan_id channel)) message)
           (Send (ToChannel (chan_id channel)) message);
     if truthy delete_after_time then
       _ ← sleep (default 0 delete_after_time);
       await (fun h => message_delete pf h m) (Delete m)
     else mret tt)
    is_log_failure
    (mret tt).

(** [_get_perms]: the union of the permissions of the member's roles. *)
Definition _get_perms {S} (member : option HMember) : M S Z :=
  member ← lift (deref member);
  roles ← await (fun h => member_fetch_roles pf h (user_id (member_user member)))
            (FetchRoles (user_id (member_user member)));
  mret (foldl (fun perms role => Permissions.or perms (permissions role))
          Permissions.NONE roles).

Definition status_not_message : pystr :=
  py "Expected message of type messages.Message".
Definition status_dm : pystr := py "Ignoring messages from dm's".
Definition status_myself : pystr := py "Ignoring messages from myself (the bot)".
Definition status_no_member : pystr :=
  py "Idk how to fetch members, so this is returning since cache lookup failed. Please open a github issue.".
Definition status_bot : pystr := py "Ignoring messages from bots".
Definition status_member (author : Z) : pystr :=
  py "Ignoring this member: " ++ str_of_int author.
Definition status_channel (channel : Z) : pystr :=
  py "Ignoring this channel: " ++ str_of_int channel.
Definition status_role (item : Z + list N) : pystr :=
  py "Ignoring this role: " ++ str_of_item item.
Definition status_guild (guild : option Z) : pystr :=
  py "Ignoring this guild: " ++ Template.str (str_of_opt_int guild).

(** The loop over [user_roles]: the first ignored item raises. *)
Fixpoint check_roles {S} (user_roles : list (Z + list N)) : M S unit :=
  match user_roles with
  | [] => mret tt
  | item :: rest =>
      if bool_decide (item ∈ ignored_roles (options handler))
      then raise (PropagateFailure (status_role item))
      else check_roles rest
  end.

(** [guild_id in ignored_guilds]; [None] is no element of a set of ids. *)
Definition guild_ignored (guild_id : option Z) : bool :=
  match guild_id with
  | Some g => bool_decide (g ∈ ignored_guilds (options handler))
  | None => false
  end.

(** Python's [a and b] on two [Permissions]. *)
Definition py_and (a b : Z) : Z := if Permissions.truth a then b else a.

(** [check_message_can_be_propagated] *)
Definition check_message_can_be_propagated (message : pyarg)
  : M unit PropagateData.t :=
  match message with
  | NotAMessage => raise (PropagateFailure status_not_message)
  | AMessage message =>
      let author := msg_author message in
      if negb (truthy (msg_guild_id message))
      then raise (PropagateFailure status_dm)
      else
        me ← lift (deref (get_me handler));
        if bool_decide (user_id author = user_id me)
        then raise (PropagateFailure status_myself)
        else
          guild ← lift (deref (get_guild handler (msg_guild_id message)));
          match get_member guild (user_id author) with
          | None => raise (PropagateFailure status_no_member)
          | Some member =>
              if ignore_bots (options handler) && is_bot author
              then raise (PropagateFailure status_bot)
              else if bool_decide
                        (user_id author ∈ ignored_members (options handler))
              then raise (PropagateFailure (status_member (user_id author)))
              else
                channel ←
                  await (fun h => rest_fetch_channel pf h (msg_channel_id message))
                    (FetchChannel (msg_channel_id message));
                if bool_decide
                     (inl (msg_channel_id message)
                        ∈ ignored_channels (options handler))
                   || bool_decide
                        (inr (chan_name channel)
                           ∈ ignored_channels (options handler))
                then raise (PropagateFailure
                              (status_channel (msg_channel_id message)))
                else
                  _ ← try_except
                        (roles ←
                           await (fun h => member_fetch_roles pf h
                                             (user_id (member_user member)))
                             (FetchRoles (user_id (member_user member)));
                         check_roles
                           (map inl (role_ids member)
                              ++ map (fun role => inr (role_name role)) roles))
                        is_AttributeError
                        (mret tt);
                  if guild_ignored (msg_guild_id message)
                  then raise (PropagateFailure
                                (status_guild (msg_guild_id message)))
                  else
                    perms ← _get_perms (get_my_member guild);
                    let has_perms :=
                      py_and (Permissions.getattr_KICK_MEMBERS perms)
                        (Permissions.getattr_BAN_MEMBERS perms) in
                    mret (PropagateData.mk (msg_guild_id message)
                            (username author) (user_id author) has_perms)
          end
  end.

Definition kick_or_ban (is_kick : bool) : pystr :=
  if is_kick then py "kick" else py "ban".

Definition need_perms_message (is_kick : bool) (guild : HGuild) : pystr :=
  py "I need " ++ kick_or_ban is_kick ++ py " perms to punish someone in "
    ++ guild_name guild.

Definition owner_message (author : User) (guild : HGuild) : pystr :=
  py "I cannot punish " ++ username author ++ py "("
    ++ str_of_int (user_id author) ++ py ") because they own this guild. ("
    ++ guild_name guild ++ py ")".

Definition notification_failed_notice (author : User) (is_kick : bool) : pystr :=
  py "Sending a message to " ++ mention author ++ py " about their "
    ++ kick_or_ban is_kick ++ py " failed.".

Definition action_failed_notice (is_kick : bool) (member : Z) : pystr :=
  py "An error occurred trying to " ++ kick_or_ban is_kick ++ py ": <@"
    ++ str_of_int member ++ py ">".

(** The three statements of a denial in [punish_member]. *)
Definition deny {A} (msg : pystr) : M punish_frame A :=
  _ ← modify_store set_in_guild;
  _ ← modify_store decrement_kick_count;
  raise (MissingGuildPermissions msg).

(** [punish_member]; its argument [member] is the member of the frame the
    coroutine starts in. *)
Definition punish_member (original_message : HMessage) (internal_guild : Guild.t) (user_message guild_message : payload)
  (is_kick : bool) (user_delete_after channel_delete_after : option Z)
  : M punish_frame unit :=
  let guild := get_guild handler (msg_guild_id original_message) in
  let author := msg_author original_message in
  channel ←
    await (fun h => rest_fetch_channel pf h (msg_channel_id original_message))
      (FetchChannel (msg_channel_id original_message));
  (* Check we have perms to punish *)
  guild ← lift (deref guild);
  perms ← _get_perms (get_my_member guild);
  f ← get_store;
  if negb (Permissions.truth (Permissions.getattr_KICK_MEMBERS perms)) && is_kick
  then deny (need_perms_message true guild)
  else if negb (Permissions.truth (Permissions.getattr_BAN_MEMBERS perms))
          && negb is_kick
  then deny (need_perms_message false guild)
  else if bool_decide (owner_id guild = Member.id (member f))
  then deny (owner_message author guild)
  else
    _ ← modify_store (set_sent_message None);
    _ ← try_except
          (m ← await (fun h => target_send pf h (ToUser (user_id author))
                                 user_message)
                 (Send (ToUser (user_id author)) user_message);
           _ ← modify_store (set_sent_message (Some m));
           if truthy user_delete_after then
             _ ← sleep (default 0 user_delete_after);
             await (fun h => message_delete pf h m) (Delete m)
           else mret tt)
          is_InternalServerError
          (send_guild_log internal_guild
             (Text (notification_failed_notice author is_kick))
             channel_delete_after channel);
    (* Even if we can't tell them they are being punished
       we still need to punish them, so try that *)
    _ ← try_except_else
          (if is_kick
           then await (fun h => guild_kick pf h (hguild_id guild) (user_id author))
                  (Kick (hguild_id guild) (user_id author))
           else await (fun h => guild_ban pf h (hguild_id guild) (user_id author))
                  (Ban (hguild_id guild) (user_id author)))
          is_InternalServerError
          (_ ← modify_store set_in_guild;
           _ ← modify_store decrement_kick_count;
           f ← get_store;
           _ ← send_guild_log internal_guild
                 (Text (action_failed_notice is_kick (Member.id (member f))))
                 channel_delete_after channel;
           match sent_message f with
           | Some sent =>
               user_failed_message ←
                 lift (transform_message handler original_message
                         (Member.warn_count (member f))
                         (Member.kick_count (member f))
                         (if is_kick
                          then member_failed_kick_message (options handler)
                          else member_failed_ban_message (options handler)));
               _ ← send_guild_log internal_guild user_failed_message
                     channel_delete_after channel;
               await (fun h => message_delete pf h sent) (Delete sent)
           | None => mret tt
           end)
          (fun _ =>
             send_guild_log internal_guild guild_message channel_delete_after
               channel);
    _ ← modify_store set_in_guild;
    f ← get_store;
    cache_set_member (member f).

(** [delete_message] *)
Definition delete_message {S} (message : Z) : M S unit :=
  try_except
    (await (fun h => message_delete pf h message) (Delete message))
    is_NotFound_or_Forbidden
    (mret tt).

(** The loop of [delete_member_messages]; the store is its dictionary
    [channels]. *)
Fixpoint delete_messages (messages : list Message.t) : M (gmap Z Channel) unit :=
  match messages with
  | [] => mret tt
  | message :: rest =>
      _ ← (if Message.is_duplicate message then
             channels ← get_store;
             channel ←
               match channels !! Message.channel_id message with
               | None =>
                   channel ←
                     await (fun h => rest_fetch_channel pf h
                                       (Message.channel_id message))
                       (FetchChannel (Message.channel_id message));
                   _ ← modify_store (insert (Message.channel_id message) channel);
                   mret channel
               | Some channel => mret channel
               end;
             try_except
               (actual_message ←
                  await (fun h => channel_fetch_message pf h (chan_id channel)
                                    (Message.id message))
                    (FetchMessage (chan_id channel) (Message.id message));
                delete_message actual_message)
               is_NotFoundError
               (mret tt)
           else mret tt);
      delete_messages rest
  end.

(** [delete_member_messages] *)
Definition delete_member_messages (member : Member.t) : M (gmap Z Channel) unit :=
  _ ← modify_store (fun _ => ∅);
  delete_messages (Member.messages member).

End Coroutines.

(** ** A reader of literals

    [ast.literal_eval] belongs to the Python library; [visualizer] takes it
    as an argument.  [Literal.literal_eval] reads the literals a configured
    embed is written with: dictionaries with string keys, lists, quoted
    strings without escapes, decimal integers, [True], [False] and [None].
    On these it gives the value Python gives, and [SyntaxError] where the
    text breaks off inside a bracket or a string.  Text outside this
    grammar is rejected as well, though Python reads more. *)

Module Literal.

Inductive token :=
| TLBrace | TRBrace | TLBracket | TRBracket | TComma | TColon
| TString (s : pystr)
| TInt (z : Z)
| TName (s : pystr).

(** What the lexer is in the middle of. *)
Inductive mode :=
| Between
| InString (quote : N) (acc : pystr)
| InInt (leading_zero : bool) (acc : Z)
| InName (acc : pystr).

Definition is_digit (c : N) : bool := ((48 <=? c) && (c <=? 57))%N.

Definition punctuation (c : N) : option token :=
  if (c =? 123)%N then Some TLBrace
  else if (c =? 125)%N then Some TRBrace
  else if (c =? 91)%N then Some TLBracket
  else if (c =? 93)%N then Some TRBracket
  else if (c =? 44)%N then Some TComma
  else if (c =? 58)%N then Some TColon
  else None.

(** A character read between two tokens. *)
Definition start (c : N) : option (list token * mode) :=
  match punctuation c with
  | Some t => Some ([t], Between)
  | None =>
      if (c =? 32)%N || (c =? 9)%N then Some ([], Between)
      else if (c =? 34)%N || (c =? 39)%N then Some ([], InString c [])
      else if is_digit c
      then Some ([], InInt (c =? 48)%N (Z.of_N c - 48))
      else if Template.is_id_start c then Some ([], InName [c])
      else None
  end.

Fixpoint lex (m : mode) (s : pystr) : option (list token) :=
  match s with
  | [] =>
      match m with
      | Between => Some []
      | InString _ _ => None
      | InInt _ z => Some [TInt z]
      | InName n => Some [TName n]
      end
  | c :: t =>
      match m with
      | Between =>
          '(ts, m') ← start c;
          rest ← lex m' t;
          Some (ts ++ rest)
      | InString q acc =>
          if (c =? q)%N then rest ← lex Between t; Some (TString acc :: rest)
          else if (c =? 92)%N || (c =? 10)%N then None
          else lex (InString q (acc ++ [c])) t
      | InInt zero z =>
          if is_digit c
          then if zero then None else lex (InInt false (10 * z + (Z.of_N c - 48))) t
          else if Template.is_id_start c then None
          else
            '(ts, m') ← start c;
            rest ← lex m' t;
            Some (TInt z :: ts ++ rest)
      | InName n =>
          if Template.is_id_char c then lex (InName (n ++ [c])) t
          else
            '(ts, m') ← start c;
            rest ← lex m' t;
            Some (TName n :: ts ++ rest)
      end
  end.

Definition constant (name : pystr) : option pyobj :=
  if bool_decide (name = py "True") then Some (PBool true)
  else if bool_decide (name = py "False") then Some (PBool false)
  else if bool_decide (name = py "None") then Some PNone
  else None.

(** One value off the front of the tokens, and the tokens left.  [items]
    and [pairs] read on after an opening bracket. *)
Fixpoint value (fuel : nat) (ts : list token) : option (pyobj * list token) :=
  match fuel with
  | O => None
  | S fuel =>
      match ts with
      | TString s :: r => Some (PStr s, r)
      | TInt z :: r => Some (PInt z, r)
      | TName n :: r => v ← constant n; Some (v, r)
      | TLBracket :: TRBracket :: r => Some (PList [], r)
      | TLBracket :: r => items fuel r []
      | TLBrace :: TRBrace :: r => Some (PDict [], r)
      | TLBrace :: r => pairs fuel r []
      | _ => None
      end
  end
with items (fuel : nat) (ts : list token) (acc : list pyobj)
  : option (pyobj * list token) :=
  match fuel with
  | O => None
  | S fuel =>
      '(v, r) ← value fuel ts;
      match r with
      | TRBracket :: r' => Some (PList (acc ++ [v]), r')
      | TComma :: TRBracket :: r' => Some (PList (acc ++ [v]), r')
      | TComma :: r' => items fuel r' (acc ++ [v])
      | _ => None
      end
  end
with pairs (fuel : nat) (ts : list token) (acc : list (list N * pyobj))
  : option (pyobj * list token) :=
  match fuel with
  | O => None
  | S fuel =>
      match ts with
      | TString k :: TColon :: r =>
          '(v, r) ← value fuel r;
          match r with
          | TRBrace :: r' => Some (PDict (dict_set k v acc), r')
          | TComma :: TRBrace :: r' => Some (PDict (dict_set k v acc), r')
          | TComma :: r' => pairs fuel r' (dict_set k v acc)
          | _ => None
          end
      | _ => None
      end
  end.

Definition literal_eval (s : pystr) : result pyobj :=
  match lex Between s with
  | Some ts =>
      match value (S (length ts)) ts with
      | Some (v, []) => Ok v
      | _ => Raise SyntaxError
      end
  | None => Raise SyntaxError
  end.

End Literal.

(** ** Sample data: a guild, its bot, a member, and platforms *)

Module Sample.

Definition author : User :=
  {| user_id := 12345; username := py "Mocked Member";
     mention := py "<@12345>"; is_bot := false; avatar_url := py "None" |}.

Definition bot : User :=
  {| user_id := 98987; username := py "Bot"; mention := py "<@98987>";
     is_bot := true; avatar_url := py "None" |}.

Definition author_member : HMember :=
  {| member_user := author; role_ids := [252525] |}.

Definition bot_member : HMember :=
  {| member_user := bot; role_ids := [252525] |}.

(** A guild that user [owner] owns. *)
Definition guild (owner : Z) : HGuild :=
  {| hguild_id := 3; guild_name := py "Guild"; owner_id := owner;
     icon_url := py "None";
     get_member := fun i =>
       if i =? 12345 then Some author_member
       else if i =? 98987 then Some bot_member else None;
     get_my_member := Some bot_member |}.

(** Options with the given ignore sets for members and channels. *)
Definition opts (members : gset Z) (channels : gset (Z + list N)) : Options :=
  {| ignore_bots := true;
     ignored_members := members;
     ignored_channels := channels;
     ignored_roles := ∅;
     ignored_guilds := ∅;
     delete_zero_width_chars := true;
     member_failed_kick_message := PStr (py "I failed to kick $USERNAME");
     member_failed_ban_message :=
       PDict [(py "title", PStr (py "Failed to ban $USERNAME"))] |}.

Definition handler_with (o : Options) (owner : Z) : Handler :=
  {| options := o;
     get_me := Some bot;
     cache_get_guild := fun g => if g =? 3 then Some (guild owner) else None;
     now_strftime := fun _ => py "01/01/2022" |}.

(** Nothing is ignored, and user 777 owns the guild. *)
Definition handler : Handler := handler_with (opts ∅ ∅) 777.

(** A message of [author] in channel 2 of guild 3. *)
Definition message (text : pystr) : HMessage :=
  {| msg_id := 1; msg_channel_id := 2; msg_guild_id := Some 3;
     msg_author := author; msg_content := Some text; msg_embeds := [];
     msg_created_at_iso := py "2022-01-01T00:00:00+00:00" |}.

(** A platform on which the bot's roles carry [perms], a message to a user
    ends as [dm], a kick or a ban as [act], a deletion as [del], and a
    message is found when [live] says so. *)
Definition platform (perms : Z) (dm : remote Z) (act del : remote unit)
  (live : Z -> bool) : Platform :=
  {| rest_fetch_channel := fun _ c =>
       Done {| chan_id := c; chan_name := py "general" |};
     member_fetch_roles := fun _ _ =>
       Done [{| role_name := py "test role 2"; permissions := perms |}];
     target_send := fun _ to _ =>
       match to with
       | ToUser _ => dm
       | ToChannel _ => Done 901
       end;
     message_delete := fun _ _ => del;
     guild_kick := fun _ _ _ => act;
     guild_ban := fun _ _ _ => act;
     channel_fetch_message := fun _ _ i =>
       if live i then Done i else Failed NotFoundError |}.

(** The member record of [author], as the scoring step leaves it before a
    punishment: [kick_count] already counts the punishment to come. *)
Definition member (messages : list Message.t) : Member.t :=
  Member.mk 12345 3 2 false messages.

Definition internal_guild : Guild.t := Guild.mk 3 None.

Definition flagged (i : Z) (duplicate : bool) : Message.t :=
  Message.mk i 2 (Some 3) 12345 (py "spam") duplicate.

End Sample.

(** The frame and the trace a call of [punish_member] starts with. *)
Definition punish_start (m : Member.t) : state punish_frame :=
  mkstate (mkframe m None) [].

(** ** Vocabulary of the properties *)

(** The zero-width characters U+200B to U+200F and U+FEFF. *)
Definition zero_width : list N := [8203; 8204; 8205; 8206; 8207; 65279]%N.

(** The token table of [substitute_args]. *)
Definition recognized_tokens : list pystr :=
  [ py "MENTIONUSER"; py "USERNAME"; py "USERID"; py "BOTNAME"; py "BOTID";
    py "GUILDID"; py "GUILDNAME"; py "TIMESTAMPNOW"; py "TIMESTAMPTODAY";
    py "WARNCOUNT"; py "KICKCOUNT"; py "USERAVATAR"; py "BOTAVATAR";
    py "GUILDICON" ].

(** A match of the template pattern that names no recognized token: a
    placeholder with another name, or a delimiter that starts nothing.  The
    escape [$$] is none. *)
Definition unknown_token (g : Template.group) : Prop :=
  match g with
  | Template.Named name | Template.Braced name => name ∉ recognized_tokens
  | Template.Invalid => True
  | Template.Escaped => False
  end.

(** A match that [convert] gives back as it stands under [mapping]. *)
Definition verbatim (mapping : gmap (list N) Template.scalar)
  (g : Template.group) : Prop :=
  match g with
  | Template.Named name | Template.Braced name => mapping !! name = None
  | Template.Invalid => True
  | Template.Escaped => False
  end.

(** The member records handed to [set_member], in order. *)
Definition set_member_writes (events : list event) : list Member.t :=
  omap (fun ev => match ev with SetMember m => Some m | _ => None end) events.

(** A member after the revert of a punishment that did not happen. *)
Definition reverted (m : Member.t) : Member.t :=
  Member.mk (Member.id m) (Member.warn_count m) (Member.kick_count m - 1) true
    (Member.messages m).

(** A computation that never calls [set_member], however it ends. *)
Definition quiet {S A} (c : M S A) : Prop :=
  forall st, exists new,
    trace (snd (c st)) = trace st ++ new /\ set_member_writes new = [].

(** A computation that calls [set_member] once, last and with
    [_in_guild] true, when it returns, and never when it raises. *)
Definition persists_on_return (c : M punish_frame unit) : Prop :=
  forall st, exists new,
    trace (snd (c st)) = trace st ++ new
    /\ match fst (c st) with
       | Ok _ =>
           exists m before,
             new = before ++ [SetMember m]
             /\ set_member_writes before = []
             /\ m = member (store (snd (c st)))
             /\ Member._in_guild m = true
       | Raise _ => set_member_writes new = []
       end.

(** The event of the punitive call, with its outcome. *)
Definition action_event (is_kick : bool) (guild user : Z) (r : remote unit)
  : event :=
  if is_kick then Kick guild user r else Ban guild user r.

(** The events of a private notification delivered as message [sent]:
    the send and, when a delay is given, the sleep and the deletion. *)
Definition notified (user : Z) (body : payload) (sent : Z)
  (delete_after : option Z) : list event :=
  Send (ToUser user) body (Done sent)
    :: (if truthy delete_after
        then [Sleep (default 0 delete_after); Delete sent (Done tt)]
        else []).

(** The bodies of the messages sent to channels, in order. *)
Definition channel_sends (events : list event) : list payload :=
  omap (fun ev =>
          match ev with
          | Send (ToChannel _) body _ => Some body
          | _ => None
          end) events.

(** The ids of the messages a sweep asked the platform for, the messages
    it found there, and the messages it called [delete] on, in order. *)
Definition fetch_requests (events : list event) : list Z :=
  omap (fun ev => match ev with FetchMessage _ i _ => Some i | _ => None end)
    events.

Definition found (events : list event) : list Z :=
  omap (fun ev =>
          match ev with
          | FetchMessage _ _ (Done m) => Some m
          | _ => None
          end) events.

Definition delete_requests (events : list event) : list Z :=
  omap (fun ev => match ev with Delete m _ => Some m | _ => None end) events.

(** The messages deleted on the platform. *)
Definition deleted (events : list event) : list Z :=
  omap (fun ev => match ev with Delete m (Done _) => Some m | _ => None end)
    events.

(** The ids of the messages of a member that are flagged as duplicates. *)
Definition duplicate_ids (member : Member.t) : list Z :=
  map Message.id (List.filter Message.is_duplicate (Member.messages member)).

(** The error with which a call ends a sweep, if it does: a failed fetch
    of a channel; a failed fetch of a message, unless the message is not
    found; a failed deletion, unless the message is not found or the
    deletion is forbidden. *)
Definition fatal (ev : event) : option http_error :=
  match ev with
  | FetchChannel _ (Failed e) => Some e
  | FetchMessage _ _ (Failed NotFoundError) => None
  | FetchMessage _ _ (Failed e) => Some e
  | Delete _ (Failed NotFoundError) => None
  | Delete _ (Failed ForbiddenError) => None
  | Delete _ (Failed e) => Some e
  | _ => None
  end.

(** A call of a sweep with an answer that the platform [pf] gave. *)
Definition answered_by (pf : Platform) (ev : event) : Prop :=
  match ev with
  | FetchChannel c r => exists h, rest_fetch_channel pf h c = r
  | FetchMessage c i r => exists h, channel_fetch_message pf h c i = r
  | Delete m r => exists h, message_delete pf h m = r
  | _ => False
  end.

(** How a sweep that made the calls [new] over messages with the flagged
    ids [flagged] ended: it returned after asking for all of them, no
    call having failed fatally, or it raised the error of its last call,
    the only fatal one. *)
Definition sweep_outcome (r : result unit) (new : list event)
  (flagged : list Z) : Prop :=
  match r with
  | Ok _ =>
      fetch_requests new = flagged /\ Forall (fun ev => fatal ev = None) new
  | Raise e =>
      exists before ev h,
        new = before ++ [ev] /\ fatal ev = Some h /\ e = HTTP h
        /\ Forall (fun ev => fatal ev = None) before
  end.

(** ** Vocabulary of further properties *)

(** A text body that counts as absent: [None], or whitespace only. *)
Definition blank (c : option pystr) : Prop :=
  match c with
  | None => True
  | Some s => Forall (fun c => isspace c = true) s
  end.

(** The blocks of [dict_to_embed], one per part of the embed, each from
    the dictionary before it to the dictionary after it. *)
Section EmbedSteps.

Variable handler : Handler.
Variable message : HMessage.
Variables warn_count kick_count : Z.

Definition footer_step (data : pyobj) : result pyobj :=
  has_footer ← py_in (py "footer") data;
  if (has_footer : bool) then
    footer ← py_getitem data (py "footer");
    footer ← substitute_if_present handler message warn_count kick_count
               footer (py "text");
    footer ← substitute_icon_url handler message warn_count kick_count footer;
    py_setitem data (py "footer") footer
  else Ok data.

Definition author_step (data : pyobj) : result pyobj :=
  has_author ← py_in (py "author") data;
  if (has_author : bool) then
    author ← py_getitem data (py "author");
    author ← substitute_item handler message warn_count kick_count
               author (py "name");
    author ← substitute_icon_url handler message warn_count kick_count author;
    py_setitem data (py "author") author
  else Ok data.

Definition fields_step (data : pyobj) : result pyobj :=
  has_fields ← py_in (py "fields") data;
  if (has_fields : bool) then
    fields ← py_getitem data (py "fields");
    items ← py_iter fields;
    items ← substitute_fields handler message warn_count kick_count items;
    match fields with
    | PList _ => py_setitem data (py "fields") (PList items)
    | _ => Ok data
    end
  else Ok data.

Definition timestamp_step (data : pyobj) : result pyobj :=
  has_timestamp ← py_in (py "timestamp") data;
  if (has_timestamp : bool)
  then py_setitem data (py "timestamp") (PStr (msg_created_at_iso message))
  else Ok data.

Definition colour_step (data : pyobj) : result pyobj :=
  has_colour ← py_in (py "colour") data;
  if (has_colour : bool) then
    colour ← py_getitem data (py "colour");
    py_setitem data (py "color") colour
  else Ok data.

Definition type_step (data : pyobj) : result pyobj :=
  py_setitem data (py "type") (PStr (py "rich")).

(** The blocks in the order of the source. *)
Definition embed_steps : list (pyobj -> result pyobj) :=
  [ fun d => substitute_if_present handler message warn_count kick_count d
               (py "title");
    fun d => substitute_if_present handler message warn_count kick_count d
               (py "description");
    footer_step; author_step; fields_step; timestamp_step; colour_step;
    type_step ].

End EmbedSteps.

(** One block after the other, as long as none raises. *)
Fixpoint run_steps (steps : list (pyobj -> result pyobj)) (data : pyobj)
  : result pyobj :=
  match steps with
  | [] => Ok data
  | step :: rest => data ← step data; run_steps rest data
  end.

(** The keys that [dict_to_embed] writes. *)
Definition engine_keys : list pystr :=
  [ py "title"; py "description"; py "footer"; py "author"; py "fields";
    py "timestamp"; py "color"; py "type" ].

(** A block that leaves the value under [key] as it is, in a dictionary. *)
Definition keeps (key : pystr) (step : pyobj -> result pyobj) : Prop :=
  forall l d', step (PDict l) = Ok d' ->
    exists l', d' = PDict l' /\ dict_get key l' = dict_get key l.

(** A block that, on a dictionary, writes under [key] or nothing. *)
Definition sets_only (key : pystr) (step : pyobj -> result pyobj) : Prop :=
  forall l d', step (PDict l) = Ok d' ->
    exists l', d' = PDict l' /\ (l' = l \/ exists v, l' = dict_set key v l).

(** A field of the embed after rendering, against the field it was: a
    dictionary again, with the "inline" it had, or [True] when it had
    none. *)
Definition field_rendered (field field' : pyobj) : Prop :=
  exists fl fl',
    field = PDict fl /\ field' = PDict fl'
    /\ dict_get (py "inline") fl'
       = Some (default (PBool true) (dict_get (py "inline") fl)).

(** An [icon_url] that is none of the three placeholders. *)
Definition foreign_icon (icon : pyobj) : Prop :=
  existsb (fun a => is_str a icon) allowed_avatars = false.

(** A computation all of whose calls are of the kind [P], however it
    ends. *)
Definition emits {S A} (P : event -> Prop) (c : M S A) : Prop :=
  forall st, exists new,
    trace (snd (c st)) = trace st ++ new /\ Forall P new.

(** A call that only reads from the platform. *)
Definition is_fetch (ev : event) : Prop :=
  match ev with
  | FetchChannel _ _ | FetchRoles _ _ => True
  | _ => False
  end.

(** The calls open to a punishment of [author] that is a kick
    ([is_kick]) or a ban: the other action is not among them, nor an
    action against or a private message to anyone else. *)
Definition punish_event (is_kick : bool) (author : Z) (ev : event) : Prop :=
  match ev with
  | Kick _ user _ => is_kick = true /\ user = author
  | Ban _ user _ => is_kick = false /\ user = author
  | Send (ToUser user) _ _ => user = author
  | FetchMessage _ _ _ => False
  | _ => True
  end.

(** A message that gets past the first five checks of
    [check_message_can_be_propagated]: it is of a guild, not of the bot
    [me], its author is the member [member] of the guild [guild], is no
    ignored bot and no ignored member. *)
Definition reaches_channel_check (handler : Handler) (message : HMessage)
  (me : User) (guild : HGuild) (member : HMember) : Prop :=
  truthy (msg_guild_id message) = true
  /\ get_me handler = Some me
  /\ user_id (msg_author message) ≠ user_id me
  /\ get_guild handler (msg_guild_id message) = Some guild
  /\ get_member guild (user_id (msg_author message)) = Some member
  /\ ignore_bots (options handler) && is_bot (msg_author message) = false
  /\ user_id (msg_author message) ∉ ignored_members (options handler).

(** A channel that the options ignore, by its id or by its name. *)
Definition channel_ignored (handler : Handler) (id : Z) (channel : Channel)
  : Prop :=
  inl id ∈ ignored_channels (options handler)
  \/ inr (chan_name channel) ∈ ignored_channels (options handler).

(** The roles of a member as the check reads them: the ids first, then
    the names. *)
Definition user_roles (member : HMember) (roles : list Role)
  : list (Z + list N) :=
  map inl (role_ids member) ++ map (fun role => inr (role_name role)) roles.

(** ** Further sample data *)

Module Scenario.

(** Options that ignore the roles [roles] and nothing else. *)
Definition opts_roles (roles : gset (Z + list N)) : Options :=
  {| ignore_bots := true;
     ignored_members := ∅;
     ignored_channels := ∅;
     ignored_roles := roles;
     ignored_guilds := ∅;
     delete_zero_width_chars := true;
     member_failed_kick_message := PStr (py "I failed to kick $USERNAME");
     member_failed_ban_message :=
       PDict [(py "title", PStr (py "Failed to ban $USERNAME"))] |}.

(** A platform that answers [roles] when asked for the roles of the
    sample author, and a role with [perms] for anybody else. *)
Definition platform_roles (perms : Z) (roles : remote (list Role)) : Platform :=
  {| rest_fetch_channel := fun _ c =>
       Done {| chan_id := c; chan_name := py "general" |};
     member_fetch_roles := fun _ who =>
       if who =? 12345 then roles
       else Done [{| role_name := py "bot role"; permissions := perms |}];
     target_send := fun _ _ _ => Done 901;
     message_delete := fun _ _ => Done tt;
     guild_kick := fun _ _ _ => Done tt;
     guild_ban := fun _ _ _ => Done tt;
     channel_fetch_message := fun _ _ i => Done i |}.

(** A platform on which the channels [lost] cannot be fetched; everything
    else succeeds. *)
Definition platform_channels (lost : Z -> bool) : Platform :=
  {| rest_fetch_channel := fun _ c =>
       if lost c then Failed NotFoundError
       else Done {| chan_id := c; chan_name := py "general" |};
     member_fetch_roles := fun _ _ =>
       Done [{| role_name := py "test role 2"; permissions := 6 |}];
     target_send := fun _ _ _ => Done 901;
     message_delete := fun _ _ => Done tt;
     guild_kick := fun _ _ _ => Done tt;
     guild_ban := fun _ _ _ => Done tt;
     channel_fetch_message := fun _ _ i => Done i |}.

End Scenario.

(** A member after a punishment that went through: marked as in the guild,
    the counters as they were. *)
Definition kept_in_guild (m : Member.t) : Member.t :=
  Member.mk (Member.id m) (Member.warn_count m) (Member.kick_count m) true
    (Member.messages m).

(** The ids of the channels a coroutine asked the platform for, in order. *)
Definition channel_fetches (events : list event) : list Z :=
  omap (fun ev => match ev with FetchChannel c _ => Some c | _ => None end)
    events.

(** * Properties *)

(** Settles a closed decidable proposition by evaluating its decision. *)
Ltac by_decision :=
  match goal with
  | |- ?P => exact (bool_decide_unpack P I)
  end.

(** ** Entity normalizer *)

Lemma replace_from_absent (c0 : N) (old' new s : pystr) :
  c0 ∉ s -> replace_from (c0 :: old') new 0 s = s.
Proof.
  induction s as [|c t IH]; intros Hs; [reflexivity|].
  apply not_elem_of_cons in Hs as [Hc Ht].
  cbn [replace_from startswith].
  destruct (N.eqb_spec c0 c) as [->|_]; [contradiction|].
  cbn [andb]. by rewrite IH.
Qed.

(** None of the six patterns occurs in a text without the letter [u]. *)
Lemma delete_zero_width_without_u (s : pystr) :
  117%N ∉ s -> delete_zero_width s = s.
Proof.
  intros Hs. unfold delete_zero_width, replace. cbn [py N_of_ascii].
  by rewrite !(replace_from_absent _ _ _ _ Hs).
Qed.

(** A text of zero-width characters only comes back whole. *)
Lemma zero_width_survives (s : pystr) :
  Forall (fun c => c ∈ zero_width) s -> delete_zero_width s = s.
Proof.
  intros Hs. apply delete_zero_width_without_u. intros Hin.
  rewrite Forall_forall in Hs. specialize (Hs _ Hin).
  exact (bool_decide_pack (117%N ∈ zero_width) Hs).
Qed.

(** C1 (code_bug): with [delete_zero_width_chars] on, [create_message]
    returns the text "a", U+200B, "b" with its zero-width space U+200B still
    in it: the patterns it removes are the ASCII texts "u200B" ... "uFEFF",
    not the characters. *)
Theorem create_message_keeps_zero_width :
  delete_zero_width_chars (options Sample.handler) = true
  /\ Message.content
       <$> create_message Sample.handler (Sample.message [97; 8203; 98]%N)
     = Ok [97; 8203; 98]%N
  /\ 8203%N ∈ zero_width.
Proof.
  split; [reflexivity|]. split; [reflexivity|].
  by_decision.
Qed.

(** ** Template engine *)

Section SafeSubstitute.

Variable mapping : gmap (list N) Template.scalar.

Lemma convert_verbatim (g : Template.group) (whole : pystr) :
  verbatim mapping g -> Template.convert mapping g whole = whole.
Proof.
  destruct g as [|name|name|]; cbn; intros H;
    [contradiction|by rewrite H|by rewrite H|reflexivity].
Qed.

(** When every match is given back as it stands, so is the text: the
    matches and the text between them make up the template. *)
Lemma sub_from_verbatim (s : pystr) :
  forall skip : nat,
    Forall (verbatim mapping) (Template.groups_from skip s) ->
    Template.sub_from mapping skip s = drop skip s.
Proof.
  induction s as [|c t IH]; intros skip H; [by rewrite drop_nil|].
  destruct skip as [|k]; cbn [Template.sub_from Template.groups_from drop] in *.
  - destruct (c =? Template.delimiter)%N.
    + destruct (Template.match_at t) as [g n].
      apply Forall_cons in H as [Hg Ht].
      rewrite (convert_verbatim _ _ Hg), (IH _ Ht).
      cbn [app]. by rewrite take_drop.
    + by rewrite (IH 0%nat H).
  - by apply IH.
Qed.

End SafeSubstitute.

(** The keys of the mapping are the recognized tokens. *)
Lemma substitution_context_unknown handler guild me msg (w k : Z) (name : pystr) :
  name ∉ recognized_tokens ->
  substitution_context handler guild me msg w k !! name = None.
Proof.
  intros H. unfold substitution_context.
  by apply not_elem_of_list_to_map_1.
Qed.

(** A template whose matches all name no recognized token renders as
    itself. *)
Lemma substitute_args_verbatim
  (handler : Handler) (msg : HMessage) (w k : Z) (template : pystr)
  (guild : HGuild) (me : HMember) :
  get_guild handler (msg_guild_id msg) = Some guild ->
  get_my_member guild = Some me ->
  Forall unknown_token (Template.groups template) ->
  substitute_args handler (PStr template) msg w k = Ok template.
Proof.
  intros Hguild Hme Hunknown.
  unfold substitute_args. rewrite Hguild. cbn. rewrite Hme. cbn.
  f_equal. unfold Template.safe_substitute.
  rewrite sub_from_verbatim; [reflexivity|].
  eapply Forall_impl; [exact Hunknown|].
  intros [|name|name|] Hg; cbn in *; try done;
    by apply substitution_context_unknown.
Qed.



(** *** What the pattern finds *)

Lemma groups_from_no_delimiter (s : pystr) :
  forall skip : nat, Template.delimiter ∉ s -> Template.groups_from skip s = [].
Proof.
  induction s as [|c t IH]; intros skip Hs; [reflexivity|].
  apply not_elem_of_cons in Hs as [Hc Ht].
  destruct skip; cbn [Template.groups_from]; [|by apply IH].
  destruct (N.eqb_spec c Template.delimiter) as [->|_]; [done|by apply IH].
Qed.

Lemma groups_from_skip (a b : pystr) :
  Template.groups_from (length a) (a ++ b) = Template.groups_from 0 b.
Proof.
  induction a as [|c a IH]; [reflexivity|]. exact IH.
Qed.

Lemma groups_after_text (pre s : pystr) :
  Template.delimiter ∉ pre ->
  Template.groups_from 0 (pre ++ s) = Template.groups_from 0 s.
Proof.
  induction pre as [|c pre IH]; intros Hpre; [reflexivity|].
  apply not_elem_of_cons in Hpre as [Hc Hpre].
  cbn [app Template.groups_from].
  destruct (N.eqb_spec c Template.delimiter) as [->|_]; [done|by apply IH].
Qed.

(** An identifier is taken whole when the text after it does not go on
    with a letter, a digit or an underscore. *)
Lemma take_id_whole (name post : pystr) :
  Forall (fun c => Template.is_id_char c = true) name ->
  head (Template.is_id_char <$> post) ≠ Some true ->
  Template.take_id (name ++ post) = name.
Proof.
  intros Hname Hpost. induction Hname as [|c name Hc _ IH]; cbn.
  - destruct post as [|c post]; [reflexivity|]. cbn in *.
    destruct (Template.is_id_char c); [done|reflexivity].
  - by rewrite Hc, IH.
Qed.

(** The one match of a text that holds a single placeholder [$name]. *)
Lemma groups_single_name (pre post : pystr) (c : N) (name : pystr) :
  Template.delimiter ∉ pre ->
  Template.delimiter ∉ post ->
  Template.is_id_start c = true ->
  Forall (fun c => Template.is_id_char c = true) name ->
  head (Template.is_id_char <$> post) ≠ Some true ->
  Template.groups (pre ++ Template.delimiter :: (c :: name) ++ post)
  = [Template.Named (c :: name)].
Proof.
  intros Hpre Hpost Hc Hname Hnext. unfold Template.groups.
  rewrite (groups_after_text _ _ Hpre). cbn [Template.groups_from].
  rewrite N.eqb_refl.
  assert (Hid : Template.take_id ((c :: name) ++ post) = c :: name).
  { apply take_id_whole; [|exact Hnext]. constructor; [|exact Hname].
    unfold Template.is_id_char. by rewrite Hc. }
  unfold Template.match_at. cbn [app].
  destruct (N.eqb_spec c Template.delimiter) as [->|_]; [discriminate Hc|].
  rewrite Hc. change (c :: name ++ post) with ((c :: name) ++ post).
  rewrite Hid, groups_from_skip, (groups_from_no_delimiter _ _ Hpost).
  reflexivity.
Qed.

(** A text with one placeholder whose name is no recognized token, like
    "Hello $NOPE!", renders as itself. *)
Lemma substitute_args_unknown_name
  (handler : Handler) (msg : HMessage) (w k : Z) (guild : HGuild)
  (me : HMember) (pre post : pystr) (c : N) (name : pystr) :
  get_guild handler (msg_guild_id msg) = Some guild ->
  get_my_member guild = Some me ->
  Template.delimiter ∉ pre ->
  Template.delimiter ∉ post ->
  Template.is_id_start c = true ->
  Forall (fun c => Template.is_id_char c = true) name ->
  head (Template.is_id_char <$> post) ≠ Some true ->
  c :: name ∉ recognized_tokens ->
  substitute_args handler
    (PStr (pre ++ Template.delimiter :: (c :: name) ++ post)) msg w k
  = Ok (pre ++ Template.delimiter :: (c :: name) ++ post).
Proof.
  intros Hguild Hme Hpre Hpost Hc Hname Hnext Hunknown.
  apply (substitute_args_verbatim handler msg w k _ guild me Hguild Hme).
  rewrite (groups_single_name pre post c name Hpre Hpost Hc Hname Hnext).
  by constructor.
Qed.

(** A recognized token is replaced, so the condition on the name cannot
    be dropped. *)
Lemma substitute_args_known_name :
  substitute_args Sample.handler (PStr (py "Hello $USERNAME!"))
    (Sample.message []) 1 2
  = Ok (py "Hello Mocked Member!").
Proof. reflexivity. Qed.

(** ** Eligibility filter *)

(** Unfolds the operations of the coroutine monad. *)
Ltac unfold_monad :=
  unfold mbind, M_bind, mret, M_ret, bind, ret, raise, lift, try_except,
    try_except_else, await, sleep, get_store, modify_store, cache_set_member
    in *.

(** C7: a message of an ignored member that gets as far as the member
    check is rejected for its author, whether or not its channel is ignored
    as well; the channel is never fetched, the state is as before. *)
Theorem ignored_member_before_ignored_channel
  (handler : Handler) (pf : Platform) (message : HMessage) (st : state unit)
  (me : User) (guild : HGuild) (member : HMember) :
  user_id (msg_author message) ∈ ignored_members (options handler) ->
  truthy (msg_guild_id message) = true ->
  get_me handler = Some me ->
  user_id (msg_author message) ≠ user_id me ->
  get_guild handler (msg_guild_id message) = Some guild ->
  get_member guild (user_id (msg_author message)) = Some member ->
  ignore_bots (options handler) && is_bot (msg_author message) = false ->
  check_message_can_be_propagated handler pf (AMessage message) st
    = (Raise (PropagateFailure (status_member (user_id (msg_author message)))),
       st)
  /\ status_member (user_id (msg_author message))
       ≠ status_channel (msg_channel_id message).
Proof.
  intros Hignored Hguild_id Hme Hnot_me Hguild Hmember Hbots. split.
  - unfold check_message_can_be_propagated. rewrite Hguild_id. cbn [negb].
    unfold_monad. rewrite Hme. cbn [deref].
    rewrite (bool_decide_eq_false_2 _ Hnot_me), Hguild. cbn [deref].
    rewrite Hmember, Hbots, (bool_decide_eq_true_2 _ Hignored).
    reflexivity.
  - unfold status_member, status_channel. cbn. discriminate.
Qed.

(** The scenario of the specification: the author and the channel are both
    ignored, and the rejection names the author. *)
Lemma ignored_member_and_channel_sample :
  let handler := Sample.handler_with (Sample.opts {[12345]} {[inl 2]}) 777 in
  let pf := Sample.platform 6 (Done 900) (Done tt) (Done tt) (fun _ => true) in
  inl 2 ∈ ignored_channels (options handler)
  /\ check_message_can_be_propagated handler pf
       (AMessage (Sample.message (py "hello"))) (mkstate tt [])
     = (Raise (PropagateFailure (py "Ignoring this member: 12345")),
        mkstate tt [])
  /\ py "Ignoring this member: 12345" ≠ py "Ignoring this channel: 2".
Proof.
  split.
  - by_decision.
  - apply (ignored_member_before_ignored_channel
             (Sample.handler_with (Sample.opts {[12345]} {[inl 2]}) 777)
             (Sample.platform 6 (Done 900) (Done tt) (Done tt) (fun _ => true))
             (Sample.message (py "hello")) (mkstate tt [])
             Sample.bot (Sample.guild 777) Sample.author_member).
    + by_decision.
    + reflexivity.
    + reflexivity.
    + discriminate.
    + reflexivity.
    + reflexivity.
    + reflexivity.
Defined.

(** [perms.KICK_MEMBERS and perms.BAN_MEMBERS] is the flag [BAN_MEMBERS],
    whatever [perms] is. *)
Lemma has_perms_constant (perms : Z) :
  py_and (Permissions.getattr_KICK_MEMBERS perms)
    (Permissions.getattr_BAN_MEMBERS perms) = Permissions.BAN_MEMBERS.
Proof. reflexivity. Qed.

(** Whatever the platform answers, a [PropagateData] that comes back has a
    true [has_perms_to_make_guild]. *)
Lemma has_perms_always_true
  (handler : Handler) (pf : Platform) (message : pyarg) (st st' : state unit)
  (data : PropagateData.t) :
  check_message_can_be_propagated handler pf message st = (Ok data, st') ->
  Permissions.truth (PropagateData.has_perms_to_make_guild data) = true.
Proof.
  unfold check_message_can_be_propagated, _get_perms. unfold_monad.
  intros H.
  repeat match type of H with
         | (Raise _, _) = (Ok _, _) => discriminate H
         | (Ok _, _) = (Ok _, _) => injection H as <- <-
         | context [match ?x with _ => _ end] => destruct x eqn:?; cbn in H
         | context [if ?x then _ else _] => destruct x eqn:?; cbn in H
         end.
  all: reflexivity.
Qed.

(** C2 (code_bug): the bot's only role carries no permission, so its
    effective permissions hold neither the kick nor the ban capability, and
    the message passes every check; the [PropagateData] that comes back
    has a true [has_perms_to_make_guild], the flag [BAN_MEMBERS] itself. *)
Theorem has_perms_without_permissions :
  let pf :=
    Sample.platform Permissions.NONE (Done 900) (Done tt) (Done tt)
      (fun _ => true) in
  let run :=
    check_message_can_be_propagated Sample.handler pf
      (AMessage (Sample.message (py "hello"))) (mkstate tt []) in
  fst (_get_perms pf (Some Sample.bot_member) (mkstate tt []))
    = Ok Permissions.NONE
  /\ Permissions.has Permissions.NONE Permissions.KICK_MEMBERS = false
  /\ Permissions.has Permissions.NONE Permissions.BAN_MEMBERS = false
  /\ fst run
     = Ok (PropagateData.mk (Some 3) (py "Mocked Member") 12345
             Permissions.BAN_MEMBERS)
  /\ Permissions.truth Permissions.BAN_MEMBERS = true.
Proof. repeat split. Qed.

(** ** Punishment executor *)

Arguments py : simpl never.
Arguments str_of_int : simpl never.
Arguments need_perms_message : simpl never.
Arguments owner_message : simpl never.
Arguments notification_failed_notice : simpl never.
Arguments action_failed_notice : simpl never.
Arguments transform_message : simpl never.

(** The capability tests of [punish_member] read the flags themselves, and
    a flag is true. *)
Lemma getattr_KICK_MEMBERS_true (perms : Z) :
  Permissions.truth (Permissions.getattr_KICK_MEMBERS perms) = true.
Proof. reflexivity. Qed.

Lemma getattr_BAN_MEMBERS_true (perms : Z) :
  Permissions.truth (Permissions.getattr_BAN_MEMBERS perms) = true.
Proof. reflexivity. Qed.

(** C10: when the attempt is authorized and sending the private
    notification fails with an error other than the internal server error,
    [punish_member] ends with that error: after the two fetches and the
    failed send nothing else is called (no kick, no ban, no message to the
    guild log, no [set_member]), and the member is as it was. *)
Theorem notification_failure_propagates
  (handler : Handler) (pf : Platform) (msg : HMessage) (internal_guild : Guild.t)
  (user_message guild_message : payload) (is_kick : bool)
  (user_delete_after channel_delete_after : option Z)
  (st : state punish_frame) (channel : Channel) (guild : HGuild) (me : HMember)
  (roles : list Role) (e : http_error) :
  let author := user_id (msg_author msg) in
  let fetched :=
    trace st ++ [FetchChannel (msg_channel_id msg) (Done channel)] in
  let authorized := fetched ++ [FetchRoles (user_id (member_user me)) (Done roles)] in
  rest_fetch_channel pf (trace st) (msg_channel_id msg) = Done channel ->
  get_guild handler (msg_guild_id msg) = Some guild ->
  get_my_member guild = Some me ->
  member_fetch_roles pf fetched (user_id (member_user me)) = Done roles ->
  owner_id guild ≠ Member.id (member (store st)) ->
  target_send pf authorized (ToUser author) user_message = Failed e ->
  e ≠ InternalServerError ->
  punish_member handler pf msg internal_guild user_message guild_message
    is_kick user_delete_after channel_delete_after st
  = (Raise (HTTP e),
     mkstate (mkframe (member (store st)) None)
       (authorized ++ [Send (ToUser author) user_message (Failed e)])).
Proof.
  intros author fetched authorized Hchannel Hguild Hme Hroles Howner Hsend He.
  subst author fetched authorized.
  unfold punish_member, _get_perms, deny. unfold_monad. cbn.
  rewrite Hchannel, Hguild. cbn. rewrite Hme. cbn.
  rewrite Hroles. cbn.
  rewrite getattr_KICK_MEMBERS_true, getattr_BAN_MEMBERS_true.
  rewrite (bool_decide_eq_false_2 _ Howner). cbn.
  rewrite Hsend. cbn.
  destruct e; try reflexivity; contradiction.
Qed.

(** The scenario of the claim: the member has closed their direct
    messages, the send is forbidden, and the ban is never tried. *)
Lemma notification_forbidden_sample :
  punish_member Sample.handler
    (Sample.platform 6 (Failed ForbiddenError) (Done tt) (Done tt)
       (fun _ => true))
    (Sample.message (py "spam")) Sample.internal_guild (Text (py "bye"))
    (Text (py "banned")) false None None (punish_start (Sample.member []))
  = (Raise (HTTP ForbiddenError),
     mkstate (mkframe (Sample.member []) None)
       [ FetchChannel 2 (Done {| chan_id := 2; chan_name := py "general" |});
         FetchRoles 98987
           (Done [{| role_name := py "test role 2"; permissions := 6 |}]);
         Send (ToUser 12345) (Text (py "bye")) (Failed ForbiddenError) ]).
Proof.
  apply (notification_failure_propagates Sample.handler
           (Sample.platform 6 (Failed ForbiddenError) (Done tt) (Done tt)
              (fun _ => true))
           (Sample.message (py "spam")) Sample.internal_guild
           (Text (py "bye")) (Text (py "banned")) false None None
           (punish_start (Sample.member []))
           {| chan_id := 2; chan_name := py "general" |}
           (Sample.guild 777) Sample.bot_member
           [{| role_name := py "test role 2"; permissions := 6 |}]
           ForbiddenError).
  - reflexivity.
  - reflexivity.
  - reflexivity.
  - reflexivity.
  - discriminate.
  - reflexivity.
  - discriminate.
Defined.

(** C5 (code_bug): the bot's only role carries no permission and the
    target does not own the guild; the ban attempt is not denied: the
    notification is sent, the ban is called, and [kick_count] stays 2. *)
Theorem ban_without_ban_permission_proceeds :
  let pf :=
    Sample.platform Permissions.NONE (Done 900) (Done tt) (Done tt)
      (fun _ => true) in
  fst (_get_perms pf (Some Sample.bot_member) (mkstate tt []))
    = Ok Permissions.NONE
  /\ Permissions.has Permissions.NONE Permissions.BAN_MEMBERS = false
  /\ owner_id (Sample.guild 777) ≠ Member.id (Sample.member [])
  /\ punish_member Sample.handler pf (Sample.message (py "spam"))
       Sample.internal_guild (Text (py "bye")) (Text (py "banned")) false
       None None (punish_start (Sample.member []))
     = (Ok tt,
        mkstate (mkframe (Member.mk 12345 3 2 true []) (Some 900))
          [ FetchChannel 2 (Done {| chan_id := 2; chan_name := py "general" |});
            FetchRoles 98987
              (Done [{| role_name := py "test role 2"; permissions := 0 |}]);
            Send (ToUser 12345) (Text (py "bye")) (Done 900);
            Ban 3 12345 (Done tt);
            Send (ToChannel 2) (Text (py "banned")) (Done 901);
            SetMember (Member.mk 12345 3 2 true []) ]).
Proof. repeat split. discriminate. Qed.

(** The capability denials of [punish_member] are out of reach: whatever
    the bot's roles, each capability test is false. *)
Lemma capability_tests_false (perms : Z) (is_kick : bool) :
  negb (Permissions.truth (Permissions.getattr_KICK_MEMBERS perms)) && is_kick
    = false
  /\ negb (Permissions.truth (Permissions.getattr_BAN_MEMBERS perms))
       && negb is_kick = false.
Proof. split; reflexivity. Qed.

(** *** [set_member] is the last step of a completed attempt *)

Section Quiet.

Context {S : Type}.

Lemma quiet_ret {A} (a : A) : quiet (mret a : M S A).
Proof. intros st. exists []. by rewrite app_nil_r. Qed.

Lemma quiet_raise {A} (e : exn) : quiet (raise e : M S A).
Proof. intros st. exists []. by rewrite app_nil_r. Qed.

Lemma quiet_lift {A} (r : result A) : quiet (lift r : M S A).
Proof. intros st. exists []. by rewrite app_nil_r. Qed.

Lemma quiet_get_store : quiet (get_store : M S S).
Proof. intros st. exists []. by rewrite app_nil_r. Qed.

Lemma quiet_modify_store (f : S -> S) : quiet (modify_store f).
Proof. intros st. exists []. by rewrite app_nil_r. Qed.

Lemma quiet_sleep (n : Z) : quiet (sleep n : M S unit).
Proof. intros st. by exists [Sleep n]. Qed.

Lemma quiet_await {A} (ask : list event -> remote A) (ev : remote A -> event) :
  (forall r, set_member_writes [ev r] = []) -> quiet (await ask ev : M S A).
Proof. intros Hev st. exists [ev (ask (trace st))]. by split; [|apply Hev]. Qed.

Lemma quiet_bind {A B} (c : M S A) (f : A -> M S B) :
  quiet c -> (forall a, quiet (f a)) -> quiet (c ≫= f).
Proof.
  intros Hc Hf st. unfold mbind, M_bind, bind.
  destruct (Hc st) as (new & Htrace & Hnew).
  destruct (c st) as [[a|e] st1]; cbn in *.
  - destruct (Hf a st1) as (new' & Htrace' & Hnew').
    exists (new ++ new'). rewrite Htrace', Htrace, app_assoc. split; [done|].
    unfold set_member_writes in *. by rewrite omap_app, Hnew, Hnew'.
  - by exists new.
Qed.

Lemma quiet_try_except {A} (body handler : M S A) (handles : exn -> bool) :
  quiet body -> quiet handler -> quiet (try_except body handles handler).
Proof.
  intros Hbody Hhandler st. unfold try_except.
  destruct (Hbody st) as (new & Htrace & Hnew).
  destruct (body st) as [[a|e] st1]; cbn in *; [by exists new|].
  destruct (handles e); [|by exists new].
  destruct (Hhandler st1) as (new' & Htrace' & Hnew').
  exists (new ++ new'). rewrite Htrace', Htrace, app_assoc. split; [done|].
  unfold set_member_writes in *. by rewrite omap_app, Hnew, Hnew'.
Qed.

Lemma quiet_try_except_else {A B} (body : M S A) (handler : M S B)
  (handles : exn -> bool) (orelse : A -> M S B) :
  quiet body -> quiet handler -> (forall a, quiet (orelse a)) ->
  quiet (try_except_else body handles handler orelse).
Proof.
  intros Hbody Hhandler Helse st. unfold try_except_else.
  destruct (Hbody st) as (new & Htrace & Hnew).
  destruct (body st) as [[a|e] st1]; cbn in *.
  - destruct (Helse a st1) as (new' & Htrace' & Hnew').
    exists (new ++ new'). rewrite Htrace', Htrace, app_assoc. split; [done|].
    unfold set_member_writes in *. by rewrite omap_app, Hnew, Hnew'.
  - destruct (handles e); [|by exists new].
    destruct (Hhandler st1) as (new' & Htrace' & Hnew').
    exists (new ++ new'). rewrite Htrace', Htrace, app_assoc. split; [done|].
    unfold set_member_writes in *. by rewrite omap_app, Hnew, Hnew'.
Qed.

End Quiet.

(** Closes a goal [quiet c] along the structure of [c]. *)
Ltac quiet_steps :=
  repeat first
    [ apply quiet_bind; [|intros ?]
    | apply quiet_try_except
    | apply quiet_try_except_else; [| |intros ?]
    | apply quiet_await; intros ?; reflexivity
    | apply quiet_ret | apply quiet_raise | apply quiet_lift
    | apply quiet_get_store | apply quiet_modify_store | apply quiet_sleep
    | match goal with
      | |- quiet (if ?b then _ else _) => destruct b
      | |- quiet (match ?x with _ => _ end) => destruct x
      end ].

Lemma quiet_send_guild_log {S} pf guild message delete_after channel :
  quiet (send_guild_log pf guild message delete_after channel : M S unit).
Proof. unfold send_guild_log. quiet_steps. Qed.

Lemma quiet__get_perms {S} pf member : quiet (_get_perms pf member : M S Z).
Proof. unfold _get_perms. quiet_steps. Qed.

Lemma quiet_deny {A} (msg : pystr) : quiet (deny msg : M punish_frame A).
Proof. unfold deny. quiet_steps. Qed.

Lemma persists_bind {A} (c : M punish_frame A) (f : A -> M punish_frame unit) :
  quiet c -> (forall a, persists_on_return (f a)) ->
  persists_on_return (c ≫= f).
Proof.
  intros Hc Hf st. unfold mbind, M_bind, bind.
  destruct (Hc st) as (new & Htrace & Hnew).
  destruct (c st) as [[a|e] st1]; cbn in *; [|by exists new].
  destruct (Hf a st1) as (new' & Htrace' & Hend).
  exists (new ++ new'). rewrite Htrace', Htrace, app_assoc. split; [done|].
  destruct (fst (f a st1)).
  - destruct Hend as (m & before & -> & Hbefore & Hm).
    exists m, (new ++ before). rewrite app_assoc. split; [done|].
    split; [|done].
    unfold set_member_writes in *. by rewrite omap_app, Hnew, Hbefore.
  - unfold set_member_writes in *. by rewrite omap_app, Hnew, Hend.
Qed.

Lemma persists_deny (msg : pystr) : persists_on_return (deny msg).
Proof.
  intros st. exists []. rewrite app_nil_r. by split.
Qed.

(** The last two statements of [punish_member]. *)
Lemma persists_final :
  persists_on_return
    (_ ← modify_store set_in_guild;
     f ← get_store;
     cache_set_member (member f)).
Proof.
  intros st. exists [SetMember (member (set_in_guild (store st)))].
  split; [reflexivity|]. cbn.
  exists (member (set_in_guild (store st))), []. by repeat split.
Qed.

(** C3 (corrected): [punish_member] hands the member to [set_member]
    exactly once, as its last step and with [_in_guild] true, on every
    attempt that returns (the punishment succeeded, or it failed with an
    internal server error and the failure was handled); on every attempt
    that ends in an exception, the denial [MissingGuildPermissions] among
    them, [set_member] is not called. *)
Theorem set_member_once_on_return
  (handler : Handler) (pf : Platform) (msg : HMessage) (internal_guild : Guild.t)
  (user_message guild_message : payload) (is_kick : bool)
  (user_delete_after channel_delete_after : option Z)
  (st : state punish_frame) :
  let run :=
    punish_member handler pf msg internal_guild user_message guild_message
      is_kick user_delete_after channel_delete_after st in
  exists new,
    trace (snd run) = trace st ++ new
    /\ match fst run with
       | Ok _ =>
           set_member_writes new = [member (store (snd run))]
           /\ last new = Some (SetMember (member (store (snd run))))
           /\ Member._in_guild (member (store (snd run))) = true
       | Raise _ => set_member_writes new = []
       end.
Proof.
  assert (H : persists_on_return
                (punish_member handler pf msg internal_guild user_message
                   guild_message is_kick user_delete_after
                   channel_delete_after)).
  { unfold punish_member.
    apply persists_bind; [quiet_steps|intros channel].
    apply persists_bind; [quiet_steps|intros guild].
    apply persists_bind; [apply quiet__get_perms|intros perms].
    apply persists_bind; [quiet_steps|intros f].
    repeat match goal with
           | |- persists_on_return (if ?b then _ else _) =>
               destruct b; [apply persists_deny|]
           end.
    apply persists_bind; [quiet_steps|intros _].
    apply persists_bind;
      [quiet_steps; apply quiet_send_guild_log|intros _].
    apply persists_bind; [|intros _; apply persists_final].
    apply quiet_try_except_else.
    - quiet_steps.
    - apply quiet_bind; [quiet_steps|intros _].
      apply quiet_bind; [quiet_steps|intros _].
      apply quiet_bind; [quiet_steps|intros f'].
      apply quiet_bind; [apply quiet_send_guild_log|intros _].
      destruct (sent_message f'); [|quiet_steps].
      apply quiet_bind; [quiet_steps|intros rendered].
      apply quiet_bind; [apply quiet_send_guild_log|intros _].
      quiet_steps.
    - intros _. apply quiet_send_guild_log. }
  intros run. destruct (H st) as (new & Htrace & Hend).
  exists new. split; [exact Htrace|]. fold run in Hend.
  destruct (fst run); [|exact Hend].
  destruct Hend as (m & before & -> & Hbefore & -> & Hin).
  split; [|split; [apply last_snoc|exact Hin]].
  unfold set_member_writes in *. by rewrite omap_app, Hbefore.
Qed.

(** The denial that can happen: the target owns the guild.  The member is
    reverted in place and the exception leaves [punish_member] before
    anything is sent, done or stored. *)
Lemma owner_denied
  (handler : Handler) (pf : Platform) (msg : HMessage) (internal_guild : Guild.t)
  (user_message guild_message : payload) (is_kick : bool)
  (user_delete_after channel_delete_after : option Z)
  (st : state punish_frame) (channel : Channel) (guild : HGuild) (me : HMember)
  (roles : list Role) :
  let fetched :=
    trace st ++ [FetchChannel (msg_channel_id msg) (Done channel)] in
  rest_fetch_channel pf (trace st) (msg_channel_id msg) = Done channel ->
  get_guild handler (msg_guild_id msg) = Some guild ->
  get_my_member guild = Some me ->
  member_fetch_roles pf fetched (user_id (member_user me)) = Done roles ->
  owner_id guild = Member.id (member (store st)) ->
  punish_member handler pf msg internal_guild user_message guild_message
    is_kick user_delete_after channel_delete_after st
  = (Raise (MissingGuildPermissions (owner_message (msg_author msg) guild)),
     mkstate (mkframe (reverted (member (store st))) (sent_message (store st)))
       (fetched ++ [FetchRoles (user_id (member_user me)) (Done roles)])).
Proof.
  intros fetched Hchannel Hguild Hme Hroles Howner. subst fetched.
  unfold punish_member, _get_perms, deny. unfold_monad. cbn.
  rewrite Hchannel, Hguild. cbn. rewrite Hme. cbn. rewrite Hroles. cbn.
  rewrite getattr_KICK_MEMBERS_true, getattr_BAN_MEMBERS_true.
  rewrite (bool_decide_eq_true_2 _ Howner). reflexivity.
Qed.

(** C3, counterexample: the target owns the guild, the attempt is denied,
    and [set_member] is not called at all. *)
Lemma denied_without_set_member :
  let run :=
    punish_member (Sample.handler_with (Sample.opts ∅ ∅) 12345)
      (Sample.platform 6 (Done 900) (Done tt) (Done tt) (fun _ => true))
      (Sample.message (py "spam")) Sample.internal_guild (Text (py "bye"))
      (Text (py "banned")) false None None (punish_start (Sample.member [])) in
  fst run
    = Raise (MissingGuildPermissions
               (py "I cannot punish Mocked Member(12345) because they own this guild. (Guild)"))
  /\ set_member_writes (trace (snd run)) = []
  /\ member (store (snd run)) = Member.mk 12345 3 1 true [].
Proof. repeat split. Qed.

(** *** A punishment that fails after the notification *)

Arguments send_guild_log : simpl never.

(** [send_guild_log] always returns and leaves the store alone; it sends
    its message once when the log channel resolves, and nothing otherwise. *)
Lemma send_guild_log_spec {S} pf guild message delete_after channel
  (st : state S) :
  exists new,
    send_guild_log pf guild message delete_after channel st
      = (Ok tt, mkstate (store st) (trace st ++ new))
    /\ channel_sends new
       = if negb (truthy (Guild.log_channel_id guild)) then [message]
         else match rest_fetch_channel pf (trace st)
                      (default 0 (Guild.log_channel_id guild)) with
              | Done _ => [message]
              | Failed _ => []
              end.
Proof.
  unfold send_guild_log. unfold_monad.
  destruct (negb (truthy (Guild.log_channel_id guild))); cbn;
    [|destruct (rest_fetch_channel _ _ _); cbn];
    try destruct (target_send _ _ _ _); cbn;
    try destruct (truthy delete_after); cbn;
    try destruct (message_delete _ _ _) as [[]|]; cbn;
    eexists; (split; [rewrite <- ?app_assoc; reflexivity|reflexivity]).
Qed.

Lemma send_guild_log_returns {S} pf guild message delete_after channel
  (st : state S) :
  send_guild_log pf guild message delete_after channel st
  = (Ok tt,
     mkstate (store st)
       (trace (snd (send_guild_log pf guild message delete_after channel st)))).
Proof.
  destruct (send_guild_log_spec pf guild message delete_after channel st)
    as (new & -> & _).
  reflexivity.
Qed.

(** Replaces the innermost run of [send_guild_log] by its outcome: it
    returned, with the store it found and some trace. *)
Ltac resolve_guild_log :=
  match goal with
  | |- context [send_guild_log ?pf ?g ?m ?d ?c ?s] =>
      lazymatch s with
      | context [send_guild_log] => fail
      | _ =>
          let H := fresh "Hlog" in
          pose proof (send_guild_log_returns pf g m d c s) as H;
          destruct (send_guild_log pf g m d c s) as [? [? ?]];
          cbn in H; injection H as -> ->; cbn
      end
  end.




(** ** Cleanup sweeper *)

Lemma sweep_outcome_asked (r : result unit) (pre new : list event)
  (i : Z) (flagged : list Z) :
  fetch_requests pre = [i] ->
  Forall (fun ev => fatal ev = None) pre ->
  sweep_outcome r new flagged ->
  sweep_outcome r (pre ++ new) (i :: flagged).
Proof.
  intros Hasked Hpre Hout. destruct r as [[]|e]; cbn in *.
  - destruct Hout as [Hall Hnone]. split.
    + unfold fetch_requests in *. by rewrite omap_app, Hasked, Hall.
    + by apply Forall_app.
  - destruct Hout as (before & ev & h & -> & Hfatal & -> & Hnone).
    exists (pre ++ before), ev, h. split_and!; try done.
    + by rewrite app_assoc.
    + by apply Forall_app.
Qed.

(** The calls so far, when the sweep goes on: each is answered by the
    platform, and none is fatal. *)
Ltac sweep_calls :=
  repeat (apply Forall_cons; split; [first [reflexivity | eexists; eassumption]|]);
  by apply Forall_nil.

(** The sweep ends at this message, with the error of the last call. *)
Ltac sweep_raises :=
  eexists _, _; cbn;
  split_and!;
  [ rewrite <- ?app_assoc; reflexivity
  | sweep_calls
  | first [apply prefix_nil | apply prefix_cons, prefix_nil]
  | reflexivity
  | first
      [ exists []; eexists _, _; split_and!;
        [reflexivity|reflexivity|reflexivity|sweep_calls]
      | eexists [_]; eexists _, _; split_and!;
        [reflexivity|reflexivity|reflexivity|sweep_calls]
      | eexists [_; _]; eexists _, _; split_and!;
        [reflexivity|reflexivity|reflexivity|sweep_calls] ] ].

(** The sweep goes on with the messages left. *)
Ltac sweep_continues IH :=
  match goal with
  | |- context [delete_messages ?pf ?rest ?s] =>
      destruct (IH s) as (new & channels & Hsnd & Hans & Hprefix & Hdel & Hout);
      cbn [trace store] in *;
      eexists _, channels;
      split_and!;
      [ rewrite Hsnd, <- !app_assoc; cbn [app]; reflexivity
      | repeat (apply Forall_cons; split; [eexists; eassumption|]); exact Hans
      | unfold fetch_requests; cbn; by apply prefix_cons
      | unfold delete_requests, found in *; cbn; by rewrite Hdel
      | first
          [ apply (sweep_outcome_asked _ [_] new)
          | apply (sweep_outcome_asked _ [_; _] new)
          | apply (sweep_outcome_asked _ [_; _; _] new) ];
        [reflexivity|sweep_calls|exact Hout] ]
  end.

(** The loop of the sweep, from any state and on any platform. *)
Lemma delete_messages_run (pf : Platform) (messages : list Message.t) :
  forall st : state (gmap Z Channel),
  exists new channels,
    snd (delete_messages pf messages st) = mkstate channels (trace st ++ new)
    /\ Forall (answered_by pf) new
    /\ fetch_requests new
         `prefix_of` map Message.id (List.filter Message.is_duplicate messages)
    /\ delete_requests new = found new
    /\ sweep_outcome (fst (delete_messages pf messages st)) new
         (map Message.id (List.filter Message.is_duplicate messages)).
Proof.
  induction messages as [|message rest IH]; intros st.
  - exists [], (store st). rewrite app_nil_r. destruct st. cbn.
    split_and!; first [done | by constructor].
  - cbn [delete_messages List.filter]. unfold_monad.
    destruct (Message.is_duplicate message); cbn; [|apply IH].
    destruct (store st !! Message.channel_id message) as [channel|] eqn:Hcached;
      [|destruct (rest_fetch_channel pf (trace st) (Message.channel_id message))
          as [channel|e0] eqn:Hchannel];
      cbn.
    3: sweep_raises.
    all: match goal with
         | |- context [channel_fetch_message ?p ?h ?c ?i] =>
             destruct (channel_fetch_message p h c i) as [actual|e] eqn:Hfetch
         end;
      cbn; unfold delete_message; unfold_monad; cbn;
      try match goal with
          | |- context [message_delete ?p ?h ?m] =>
              destruct (message_delete p h m) as [[]|e'] eqn:Hdelete
          end;
      cbn; try destruct e; try destruct e'; cbn;
      first [sweep_continues IH | sweep_raises].
Qed.

(** A call that the platform answered is not fatal on a platform whose
    channels resolve, whose failed fetches of a message are not-found and
    whose failed deletions are not-found or forbidden. *)
Lemma answered_not_fatal (pf : Platform) (ev : event) :
  (forall h c, exists channel, rest_fetch_channel pf h c = Done channel) ->
  (forall h c i e,
     channel_fetch_message pf h c i = Failed e -> e = NotFoundError) ->
  (forall h m e,
     message_delete pf h m = Failed e ->
     e = NotFoundError \/ e = ForbiddenError) ->
  answered_by pf ev -> fatal ev = None.
Proof.
  intros Hchannels Hfetch Hdelete Hev.
  destruct ev as [c [|e]|? ?|? ? ?|m [|e]|?|? ? ?|? ? ?|c i [|e]|?];
    try reflexivity; cbn in Hev; destruct Hev as [h Hev].
  - destruct (Hchannels h c) as [channel Hdone]. congruence.
  - by destruct (Hdelete _ _ _ Hev) as [-> | ->].
  - by rewrite (Hfetch _ _ _ _ Hev).
Qed.

(** Where every deletion succeeds, the messages deleted are the messages
    on which [delete] was called. *)
Lemma deleted_all (pf : Platform) (events : list event) :
  (forall h m, message_delete pf h m = Done tt) ->
  Forall (answered_by pf) events ->
  deleted events = delete_requests events.
Proof.
  intros Hdelete Hans. induction Hans as [|ev events Hev _ IH]; [done|].
  unfold deleted, delete_requests in *.
  destruct ev as [| | |m r| | | | |]; cbn; try exact IH.
  destruct Hev as [h Hev]. rewrite Hdelete in Hev. subst r. cbn.
  by rewrite IH.
Qed.

(** C9 (corrected): on any platform the sweep asks for the messages
    flagged as duplicates, in their order, and calls [delete] on every
    message it finds and on nothing else.  A message that is not found,
    at the fetch or at the deletion, and a deletion that is forbidden, end
    neither the sweep nor the call: the sweep returns exactly after
    asking for every flagged message, and it raises only the error of
    its last call, which is a channel that could not be fetched, a fetch of
    a message that failed otherwise than not-found, or a deletion that
    failed otherwise than not-found or forbidden.  So on a platform that
    never fails in one of these three ways the sweep returns after the
    whole sequence, and where every deletion succeeds the messages deleted
    are the messages found. *)
Theorem sweep_skips_missing_messages
  (pf : Platform) (member : Member.t) (st : state (gmap Z Channel)) :
  exists new channels,
    snd (delete_member_messages pf member st)
      = mkstate channels (trace st ++ new)
    /\ fetch_requests new `prefix_of` duplicate_ids member
    /\ delete_requests new = found new
    /\ sweep_outcome (fst (delete_member_messages pf member st)) new
         (duplicate_ids member)
    /\ ((forall h c, exists channel, rest_fetch_channel pf h c = Done channel) ->
        (forall h c i e,
           channel_fetch_message pf h c i = Failed e -> e = NotFoundError) ->
        (forall h m e,
           message_delete pf h m = Failed e ->
           e = NotFoundError \/ e = ForbiddenError) ->
        fst (delete_member_messages pf member st) = Ok tt)
    /\ ((forall h m, message_delete pf h m = Done tt) ->
        deleted new = found new).
Proof.
  unfold delete_member_messages, duplicate_ids. unfold_monad. cbn.
  destruct (delete_messages_run pf (Member.messages member)
              (mkstate ∅ (trace st)))
    as (new & channels & Hsnd & Hans & Hprefix & Hdel & Hout).
  exists new, channels. split_and!; try done.
  - intros Hchannels Hfetch Hdelete.
    destruct (fst (delete_messages pf (Member.messages member)
                     (mkstate ∅ (trace st)))) as [[]|e]; [done|].
    destruct Hout as (before & ev & h & -> & Hfatal & _ & _).
    apply Forall_app in Hans as [_ Hev]. apply Forall_inv in Hev.
    rewrite (answered_not_fatal pf ev Hchannels Hfetch Hdelete Hev) in Hfatal.
    discriminate Hfatal.
  - intros Hdelete. by rewrite (deleted_all pf new Hdelete Hans).
Qed.

(** The scenario of the specification: three flagged messages, the second
    of which is gone from the platform.  The sweep returns, and the first
    and the third message are deleted. *)
Lemma sweep_second_missing_sample :
  let pf :=
    Sample.platform 6 (Done 900) (Done tt) (Done tt) (fun i => negb (i =? 2)) in
  let member :=
    Sample.member
      [Sample.flagged 1 true; Sample.flagged 2 true; Sample.flagged 3 true] in
  let run := delete_member_messages pf member (mkstate ∅ []) in
  fst run = Ok tt
  /\ fetch_requests (trace (snd run)) = [1; 2; 3]
  /\ deleted (trace (snd run)) = [1; 3].
Proof.
  intros pf member run. split; [|split; reflexivity].
  destruct (sweep_skips_missing_messages pf member (mkstate ∅ []))
    as (new & channels & _ & _ & _ & _ & Hreturns & _).
  apply Hreturns.
  - intros h c. eexists. reflexivity.
  - intros h c i e. cbn. destruct (negb (i =? 2)); intros H.
    + discriminate H.
    + injection H as <-. reflexivity.
  - intros h m e H. discriminate H.
Defined.

(** The same sweep, step by step: the channel is fetched once, the three
    messages are asked for, and the first and the third are deleted. *)
Lemma sweep_second_missing_run :
  let pf :=
    Sample.platform 6 (Done 900) (Done tt) (Done tt) (fun i => negb (i =? 2)) in
  let member :=
    Sample.member
      [Sample.flagged 1 true; Sample.flagged 2 true; Sample.flagged 3 true] in
  let run := delete_member_messages pf member (mkstate ∅ []) in
  fst run = Ok tt
  /\ trace (snd run)
     = [ FetchChannel 2 (Done {| chan_id := 2; chan_name := py "general" |});
         FetchMessage 2 1 (Done 1); Delete 1 (Done tt);
         FetchMessage 2 2 (Failed NotFoundError);
         FetchMessage 2 3 (Done 3); Delete 3 (Done tt) ]
  /\ deleted (trace (snd run)) = [1; 3].
Proof. repeat split. Qed.

(** C9, counterexample: three flagged messages, all of them live; the
    channel of the second cannot be fetched.  The fetch of a channel is
    outside the [try]: the sweep ends with that error, and the third
    message is neither asked for nor deleted. *)
Lemma sweep_stops_on_lost_channel :
  let pf :=
    {| rest_fetch_channel := fun _ c =>
         if c =? 7 then Failed NotFoundError
         else Done {| chan_id := c; chan_name := py "general" |};
       member_fetch_roles := fun _ _ => Done [];
       target_send := fun _ _ _ => Done 901;
       message_delete := fun _ _ => Done tt;
       guild_kick := fun _ _ _ => Done tt;
       guild_ban := fun _ _ _ => Done tt;
       channel_fetch_message := fun _ _ i => Done i |} in
  let member :=
    Sample.member
      [Sample.flagged 1 true;
       Message.mk 2 7 (Some 3) 12345 (py "spam") true;
       Sample.flagged 3 true] in
  let run := delete_member_messages pf member (mkstate ∅ []) in
  duplicate_ids member = [1; 2; 3]
  /\ fst run = Raise (HTTP NotFoundError)
  /\ trace (snd run)
     = [ FetchChannel 2 (Done {| chan_id := 2; chan_name := py "general" |});
         FetchMessage 2 1 (Done 1); Delete 1 (Done tt);
         FetchChannel 7 (Failed NotFoundError) ]
  /\ fetch_requests (trace (snd run)) = [1]
  /\ deleted (trace (snd run)) = [1].
Proof. repeat split. Qed.

(** A failure of another kind at the fetch of a message is not skipped
    either: a fetch that is forbidden ends the sweep with that error, and
    the messages after it are not asked for. *)
Lemma sweep_stops_on_forbidden_fetch :
  let pf :=
    {| rest_fetch_channel := fun _ c =>
         Done {| chan_id := c; chan_name := py "general" |};
       member_fetch_roles := fun _ _ => Done [];
       target_send := fun _ _ _ => Done 901;
       message_delete := fun _ _ => Done tt;
       guild_kick := fun _ _ _ => Done tt;
       guild_ban := fun _ _ _ => Done tt;
       channel_fetch_message := fun _ _ i =>
         if i =? 2 then Failed ForbiddenError else Done i |} in
  let member :=
    Sample.member
      [Sample.flagged 1 true; Sample.flagged 2 true; Sample.flagged 3 true] in
  let run := delete_member_messages pf member (mkstate ∅ []) in
  fst run = Raise (HTTP ForbiddenError)
  /\ fetch_requests (trace (snd run)) = [1; 2]
  /\ deleted (trace (snd run)) = [1].
Proof. repeat split. Qed.

(** ** Template engine: [visualizer] *)

Lemma dict_get_set (key : pystr) (v : pyobj) (d : list (list N * pyobj)) :
  dict_get key (dict_set key v d) = Some v.
Proof.
  induction d as [|[k w] d IH]; cbn.
  - by rewrite bool_decide_eq_true_2.
  - destruct (bool_decide (k = key)) eqn:Hk; cbn; by rewrite Hk.
Qed.

(** What [dict_to_embed] returns is tagged as rich content. *)
Lemma dict_to_embed_rich handler msg (w k : Z) (data : pyobj) (p : payload) :
  dict_to_embed handler msg w k data = Ok p ->
  exists d, p = Embed (PDict d) /\ dict_get (py "type") d = Some (PStr (py "rich")).
Proof.
  unfold dict_to_embed. unfold mbind, result_bind, rbind. intros H.
  repeat match type of H with
         | match ?c with Ok _ => _ | Raise _ => _ end = Ok _ =>
             destruct c as [?|?] eqn:?; [|discriminate H]
         end.
  injection H as <-.
  match goal with
  | Hset : py_setitem ?x _ _ = Ok _ |- _ =>
      destruct x; try discriminate Hset; injection Hset as <-
  end.
  eexists. split; [reflexivity|]. apply dict_get_set.
Qed.

(** C6 (corrected): a value that does not begin with "{" is rendered by
    plain substitution; a value that begins with "{" is read by
    [ast.literal_eval], and the dictionary read is rendered as rich
    content, tagged "rich"; when [ast.literal_eval] raises, that very
    exception, the parser's own, leaves [visualizer]. *)
Theorem visualizer_cases
  (handler : Handler) (msg : HMessage) (w k : Z)
  (literal_eval : pystr -> result pyobj) (content : pystr) :
  (startswith content (py "{") = false ->
   visualizer handler msg w k literal_eval content
     = (s ← substitute_args handler (PStr content) msg w k; Ok (Text s)))
  /\ (startswith content (py "{") = true ->
      forall d, literal_eval content = Ok (PDict d) ->
        visualizer handler msg w k literal_eval content
          = dict_to_embed handler msg w k (PDict d)
        /\ forall p, dict_to_embed handler msg w k (PDict d) = Ok p ->
             exists d', p = Embed (PDict d')
                        /\ dict_get (py "type") d' = Some (PStr (py "rich")))
  /\ (startswith content (py "{") = true ->
      forall e, literal_eval content = Raise e ->
        visualizer handler msg w k literal_eval content = Raise e).
Proof.
  unfold visualizer. split; [|split].
  - intros ->. reflexivity.
  - intros -> d ->. split; [reflexivity|]. apply dict_to_embed_rich.
  - intros -> e ->. reflexivity.
Qed.

(** The three cases on samples: a plain text, a dictionary, and an
    opening brace alone. *)
Lemma visualizer_samples :
  visualizer Sample.handler (Sample.message []) 1 2 Literal.literal_eval
    (py "Hello $USERNAME, warn $WARNCOUNT")
    = Ok (Text (py "Hello Mocked Member, warn 1"))
  /\ visualizer Sample.handler (Sample.message []) 1 2 Literal.literal_eval
       (py "{'title': 'Hi $USERNAME', 'colour': 65280}")
     = Ok (Embed (PDict [(py "title", PStr (py "Hi Mocked Member"));
                         (py "colour", PInt 65280);
                         (py "color", PInt 65280);
                         (py "type", PStr (py "rich"))]))
  /\ visualizer Sample.handler (Sample.message []) 1 2 Literal.literal_eval
       (py "{")
     = Raise SyntaxError.
Proof.
  split; [|split].
  - apply (proj1 (visualizer_cases Sample.handler (Sample.message []) 1 2
                    Literal.literal_eval
                    (py "Hello $USERNAME, warn $WARNCOUNT"))).
    reflexivity.
  - apply (proj1 (proj1 (proj2 (visualizer_cases Sample.handler
                                  (Sample.message []) 1 2 Literal.literal_eval
                                  (py "{'title': 'Hi $USERNAME', 'colour': 65280}")))
                    eq_refl
                    [(py "title", PStr (py "Hi $USERNAME"));
                     (py "colour", PInt 65280)]
                    eq_refl)).
  - apply (proj2 (proj2 (visualizer_cases Sample.handler (Sample.message [])
                           1 2 Literal.literal_eval (py "{")))
             eq_refl SyntaxError eq_refl).
Defined.

(** C6, counterexample: the malformed value "{" makes [visualizer] fail
    with [SyntaxError], the exception of the parser, which the module
    neither catches nor wraps. *)
Lemma visualizer_malformed_raises_SyntaxError :
  Literal.literal_eval (py "{") = Raise SyntaxError
  /\ visualizer Sample.handler (Sample.message []) 1 2 Literal.literal_eval
       (py "{")
     = Raise SyntaxError.
Proof. split; reflexivity. Qed.

(** * Further properties *)

(** ** Entity normalizer, beyond the claims *)

Arguments nl : simpl never.

Lemma lstrip_all_space (s : pystr) :
  Forall (fun c => isspace c = true) s -> lstrip s = [].
Proof. induction 1 as [|c s Hc _ IH]; cbn; [done|by rewrite Hc]. Qed.

Lemma lstrip_keeps_text (s : pystr) :
  Exists (fun c => isspace c = false) s ->
  Exists (fun c => isspace c = false) (lstrip s).
Proof.
  induction s as [|c s IH]; intros H; [by apply Exists_nil in H|].
  cbn. destruct (isspace c) eqn:Hc.
  - apply IH. apply Exists_cons in H as [H|H]; [congruence|done].
  - by apply Exists_cons_hd.
Qed.

Lemma has_text_blank (c : option pystr) : blank c -> has_text c = false.
Proof.
  destruct c as [s|]; [|done]. cbn. intros H.
  destruct s; [done|]. unfold strip. by rewrite (lstrip_all_space _ H).
Qed.

Lemma has_text_visible (s : pystr) :
  Exists (fun c => isspace c = false) s -> has_text (Some s) = true.
Proof.
  intros H. cbn. destruct s as [|c s]; [by apply Exists_nil in H|].
  assert (Hstrip : Exists (fun c => isspace c = false) (strip (c :: s))).
  { unfold strip. apply List.Exists_rev, lstrip_keeps_text, List.Exists_rev.
    by apply lstrip_keeps_text. }
  destruct (strip (c :: s)); [by apply Exists_nil in Hstrip|done].
Qed.

(** X1: a message without text (none, empty, or whitespace only) that
    has no embed, or whose first embed is no [Embed], is refused with
    [LogicError], whatever the options. *)
Theorem create_message_blank_raises (handler : Handler) (message : HMessage) :
  blank (msg_content message) ->
  head (msg_embeds message) = None \/ head (msg_embeds message) = Some NotAnEmbed ->
  create_message handler message = Raise LogicError.
Proof.
  intros Hblank Hembeds. unfold create_message.
  rewrite (has_text_blank _ Hblank). cbn.
  destruct (msg_embeds message) as [|[e|] rest]; cbn in *;
    destruct Hembeds as [H|H]; try discriminate H; reflexivity.
Qed.

Lemma create_message_blank_sample :
  create_message Sample.handler
    {| msg_id := 1; msg_channel_id := 2; msg_guild_id := Some 3;
       msg_author := Sample.author; msg_content := Some (py "  ");
       msg_embeds := []; msg_created_at_iso := [] |}
  = Raise LogicError.
Proof.
  apply create_message_blank_raises.
  - repeat constructor.
  - left. reflexivity.
Defined.

(** X2: a message whose text has a character that is no whitespace is
    normalized to that text, untouched (blanks around it included), with
    the ids of the message and of its author; its embeds play no part.
    This holds with [delete_zero_width_chars] off, and with it on for a
    text without the letter "u". *)
Theorem create_message_text_kept
  (handler : Handler) (message : HMessage) (text : pystr) :
  msg_content message = Some text ->
  Exists (fun c => isspace c = false) text ->
  delete_zero_width_chars (options handler) = false \/ 117%N ∉ text ->
  create_message handler message
  = Ok (Message.mk (msg_id message) (msg_channel_id message)
          (msg_guild_id message) (user_id (msg_author message)) text false).
Proof.
  intros Hcontent Hvisible Hzw. unfold create_message.
  rewrite Hcontent, (has_text_visible _ Hvisible). cbn.
  destruct Hzw as [-> | Hu]; [reflexivity|].
  rewrite (delete_zero_width_without_u _ Hu).
  by destruct (delete_zero_width_chars (options handler)).
Qed.

Lemma create_message_text_sample :
  create_message Sample.handler (Sample.message (py " hello "))
  = Ok (Message.mk 1 2 (Some 3) 12345 (py " hello ") false).
Proof.
  apply (create_message_text_kept Sample.handler (Sample.message (py " hello "))
           (py " hello ")).
  - reflexivity.
  - apply Exists_cons_tl, Exists_cons_hd. reflexivity.
  - right. by_decision.
Defined.

(** No [str] is in the tuple that [serialize_embed] returns. *)
Lemma tuple_in_serialized (key : pystr) (e : SerializedEmbed) :
  tuple_in key (serialize_embed e) = false.
Proof. reflexivity. Qed.

(** X3: [embed_to_string] reads the tuple that [serialize_embed] returns
    as if it were the payload: none of the five keys is an item of the
    tuple, so no part of the embed is read, and the flattening of every
    embed, whatever its title, description, footer, author and fields, is
    the empty text; an author without a name or a field without a value
    raises nothing. *)
Theorem embed_to_string_empty (e : SerializedEmbed) :
  (forall key, tuple_in key (serialize_embed e) = false)
  /\ embed_to_string e = Ok [].
Proof.
  split; [intros key; apply tuple_in_serialized|].
  unfold embed_to_string. by rewrite !tuple_in_serialized.
Qed.

Lemma embed_to_string_nothing (e : SerializedEmbed) : embed_to_string e = Ok [].
Proof. unfold embed_to_string. by rewrite !tuple_in_serialized. Qed.

(** X4: a message without text whose first embed is an [Embed] is
    normalized to a message with the empty text as content, whatever the
    embed holds and whatever the options; the embeds after the first are
    not read, and no [LogicError] is raised. *)
Theorem create_message_embed_fallback
  (handler : Handler) (message : HMessage) (e : SerializedEmbed)
  (others : list embed_item) :
  blank (msg_content message) ->
  msg_embeds message = AnEmbed e :: others ->
  create_message handler message
  = Ok (Message.mk (msg_id message) (msg_channel_id message)
          (msg_guild_id message) (user_id (msg_author message)) [] false).
Proof.
  intros Hblank Hembeds. unfold create_message.
  rewrite (has_text_blank _ Hblank), Hembeds. cbn [negb].
  rewrite embed_to_string_nothing. cbn.
  by destruct (delete_zero_width_chars (options handler)).
Qed.

Lemma create_message_embed_sample :
  create_message Sample.handler
    {| msg_id := 1; msg_channel_id := 2; msg_guild_id := Some 3;
       msg_author := Sample.author; msg_content := None;
       msg_embeds :=
         [AnEmbed {| e_title := Some (py "Title"); e_description := None;
                     e_footer := Some {| footer_text := Some (py "foot") |};
                     e_author := None;
                     e_fields := Some [{| field_name := Some (py "n");
                                          field_value := Some (py "v") |}] |};
          NotAnEmbed];
       msg_created_at_iso := [] |}
  = Ok (Message.mk 1 2 (Some 3) 12345 [] false).
Proof.
  apply (create_message_embed_fallback Sample.handler
           {| msg_id := 1; msg_channel_id := 2; msg_guild_id := Some 3;
              msg_author := Sample.author; msg_content := None;
              msg_embeds :=
                [AnEmbed {| e_title := Some (py "Title");
                            e_description := None;
                            e_footer := Some {| footer_text := Some (py "foot") |};
                            e_author := None;
                            e_fields :=
                              Some [{| field_name := Some (py "n");
                                       field_value := Some (py "v") |}] |};
                 NotAnEmbed];
              msg_created_at_iso := [] |}
           {| e_title := Some (py "Title"); e_description := None;
              e_footer := Some {| footer_text := Some (py "foot") |};
              e_author := None;
              e_fields := Some [{| field_name := Some (py "n");
                                   field_value := Some (py "v") |}] |}
           [NotAnEmbed]).
  - exact I.
  - reflexivity.
Defined.

(** ** Template engine, beyond the claims *)

Section Substitution.

Variable mapping : gmap (list N) Template.scalar.

Lemma sub_from_skip (a b : pystr) :
  Template.sub_from mapping (length a) (a ++ b) = Template.sub_from mapping 0 b.
Proof. induction a as [|c a IH]; [reflexivity|exact IH]. Qed.

Lemma sub_after_text (pre s : pystr) :
  Template.delimiter ∉ pre ->
  Template.sub_from mapping 0 (pre ++ s) = pre ++ Template.sub_from mapping 0 s.
Proof.
  induction pre as [|c pre IH]; intros Hpre; [reflexivity|].
  apply not_elem_of_cons in Hpre as [Hc Hpre].
  cbn [app Template.sub_from].
  destruct (N.eqb_spec c Template.delimiter) as [->|_]; [done|by rewrite IH].
Qed.

Lemma sub_plain_text (s : pystr) :
  Template.delimiter ∉ s -> Template.sub_from mapping 0 s = s.
Proof.
  intros Hs. rewrite <- (app_nil_r s) at 1.
  rewrite (sub_after_text _ _ Hs). cbn. by rewrite app_nil_r.
Qed.

(** [$name] with a name of the mapping. *)
Lemma safe_substitute_named (pre post : pystr) (c : N) (name : pystr)
  (v : Template.scalar) :
  Template.delimiter ∉ pre ->
  Template.delimiter ∉ post ->
  Template.is_id_start c = true ->
  Forall (fun c => Template.is_id_char c = true) name ->
  head (Template.is_id_char <$> post) ≠ Some true ->
  mapping !! (c :: name) = Some v ->
  Template.safe_substitute mapping
    (pre ++ Template.delimiter :: (c :: name) ++ post)
  = pre ++ Template.str v ++ post.
Proof.
  intros Hpre Hpost Hc Hname Hnext Hv. unfold Template.safe_substitute.
  rewrite (sub_after_text _ _ Hpre). f_equal.
  cbn [Template.sub_from]. rewrite N.eqb_refl.
  assert (Hid : Template.take_id ((c :: name) ++ post) = c :: name).
  { apply take_id_whole; [|exact Hnext]. constructor; [|exact Hname].
    unfold Template.is_id_char. by rewrite Hc. }
  unfold Template.match_at. cbn [app].
  destruct (N.eqb_spec c Template.delimiter) as [->|_]; [discriminate Hc|].
  rewrite Hc. change (c :: name ++ post) with ((c :: name) ++ post).
  rewrite Hid. unfold Template.convert. rewrite Hv.
  by rewrite sub_from_skip, (sub_plain_text _ Hpost).
Qed.

Lemma match_at_braced (post : pystr) (c : N) (name : pystr) :
  Template.is_id_start c = true ->
  Forall (fun c => Template.is_id_char c = true) name ->
  Template.match_at (123%N :: (c :: name) ++ 125%N :: post)
  = (Template.Braced (c :: name), S (S (length (c :: name)))).
Proof.
  intros Hc Hname.
  assert (Hid : Template.take_id ((c :: name) ++ 125%N :: post) = c :: name).
  { apply take_id_whole; [|cbn; discriminate]. constructor; [|exact Hname].
    unfold Template.is_id_char. by rewrite Hc. }
  unfold Template.match_at.
  change ((123 =? Template.delimiter)%N) with false.
  change (Template.is_id_start 123) with false.
  change ((123 =? 123)%N) with true. cbn iota.
  change ((c :: name) ++ 125%N :: post) with (c :: (name ++ 125%N :: post)).
  cbn iota. rewrite Hc.
  change (c :: (name ++ 125%N :: post)) with ((c :: name) ++ 125%N :: post).
  rewrite Hid, drop_app_length. reflexivity.
Qed.

(** [${name}] with a name of the mapping; what follows the closing brace
    is free. *)
Lemma safe_substitute_braced (pre post : pystr) (c : N) (name : pystr)
  (v : Template.scalar) :
  Template.delimiter ∉ pre ->
  Template.delimiter ∉ post ->
  Template.is_id_start c = true ->
  Forall (fun c => Template.is_id_char c = true) name ->
  mapping !! (c :: name) = Some v ->
  Template.safe_substitute mapping
    (pre ++ Template.delimiter :: 123%N :: (c :: name) ++ 125%N :: post)
  = pre ++ Template.str v ++ post.
Proof.
  intros Hpre Hpost Hc Hname Hv. unfold Template.safe_substitute.
  rewrite (sub_after_text _ _ Hpre). f_equal.
  cbn [Template.sub_from]. rewrite N.eqb_refl.
  rewrite (match_at_braced post c name Hc Hname).
  unfold Template.convert. rewrite Hv. f_equal.
  change (Template.sub_from mapping (S (S (length (c :: name))))
            (123%N :: (c :: name) ++ 125%N :: post))
    with (Template.sub_from mapping (S (length (c :: name)))
            ((c :: name) ++ 125%N :: post)).
  replace ((c :: name) ++ 125%N :: post)
    with (((c :: name) ++ [125%N]) ++ post) by by rewrite <- app_assoc.
  replace (S (length (c :: name))) with (length ((c :: name) ++ [125%N]))
    by (rewrite length_app; cbn; lia).
  by rewrite sub_from_skip, (sub_plain_text _ Hpost).
Qed.

(** [$$] *)
Lemma safe_substitute_escaped (pre post : pystr) :
  Template.delimiter ∉ pre ->
  Template.delimiter ∉ post ->
  Template.safe_substitute mapping
    (pre ++ Template.delimiter :: Template.delimiter :: post)
  = pre ++ Template.delimiter :: post.
Proof.
  intros Hpre Hpost. unfold Template.safe_substitute.
  rewrite (sub_after_text _ _ Hpre). f_equal.
  cbn. by rewrite (sub_plain_text _ Hpost).
Qed.

End Substitution.

(** X5: a placeholder [$name] whose name is in the token table is
    replaced by the value of the table (an id or a count in decimal); the
    text around it stays.  The name ends where the letters, digits and
    underscores end. *)
Theorem substitute_args_known_token
  (handler : Handler) (msg : HMessage) (w k : Z) (guild : HGuild)
  (me : HMember) (pre post : pystr) (c : N) (name : pystr)
  (v : Template.scalar) :
  get_guild handler (msg_guild_id msg) = Some guild ->
  get_my_member guild = Some me ->
  Template.delimiter ∉ pre ->
  Template.delimiter ∉ post ->
  Template.is_id_start c = true ->
  Forall (fun c => Template.is_id_char c = true) name ->
  head (Template.is_id_char <$> post) ≠ Some true ->
  substitution_context handler guild me msg w k !! (c :: name) = Some v ->
  substitute_args handler
    (PStr (pre ++ Template.delimiter :: (c :: name) ++ post)) msg w k
  = Ok (pre ++ Template.str v ++ post).
Proof.
  intros Hguild Hme Hpre Hpost Hc Hname Hnext Hv.
  unfold substitute_args. rewrite Hguild. cbn. rewrite Hme. cbn. f_equal.
  by apply safe_substitute_named.
Qed.

Lemma substitute_args_WARNCOUNT :
  substitute_args Sample.handler (PStr (py "You have $WARNCOUNT warnings"))
    (Sample.message []) 3 2
  = Ok (py "You have 3 warnings").
Proof.
  apply (substitute_args_known_token Sample.handler (Sample.message []) 3 2
           (Sample.guild 777) Sample.bot_member (py "You have ")
           (py " warnings") 87%N (py "ARNCOUNT") (Template.SInt 3)).
  - reflexivity.
  - reflexivity.
  - by_decision.
  - by_decision.
  - reflexivity.
  - repeat constructor.
  - discriminate.
  - reflexivity.
Defined.

(** X6: a braced placeholder [${name}] with a name of the token table is
    replaced as well, and may be followed at once by letters or digits. *)
Theorem substitute_args_braced_token
  (handler : Handler) (msg : HMessage) (w k : Z) (guild : HGuild)
  (me : HMember) (pre post : pystr) (c : N) (name : pystr)
  (v : Template.scalar) :
  get_guild handler (msg_guild_id msg) = Some guild ->
  get_my_member guild = Some me ->
  Template.delimiter ∉ pre ->
  Template.delimiter ∉ post ->
  Template.is_id_start c = true ->
  Forall (fun c => Template.is_id_char c = true) name ->
  substitution_context handler guild me msg w k !! (c :: name) = Some v ->
  substitute_args handler
    (PStr (pre ++ Template.delimiter :: 123%N :: (c :: name) ++ 125%N :: post))
    msg w k
  = Ok (pre ++ Template.str v ++ post).
Proof.
  intros Hguild Hme Hpre Hpost Hc Hname Hv.
  unfold substitute_args. rewrite Hguild. cbn. rewrite Hme. cbn. f_equal.
  by apply safe_substitute_braced.
Qed.

Lemma substitute_args_braced_KICKCOUNT :
  substitute_args Sample.handler (PStr (py "kick no. ${KICKCOUNT}x"))
    (Sample.message []) 3 2
  = Ok (py "kick no. 2x").
Proof.
  apply (substitute_args_braced_token Sample.handler (Sample.message []) 3 2
           (Sample.guild 777) Sample.bot_member (py "kick no. ") (py "x")
           75%N (py "ICKCOUNT") (Template.SInt 2)).
  - reflexivity.
  - reflexivity.
  - by_decision.
  - by_decision.
  - reflexivity.
  - repeat constructor.
  - reflexivity.
Defined.

(** X7: the escape [$$] renders as one [$]: a text with an escape does
    not come back as it went in. *)
Theorem substitute_args_escape
  (handler : Handler) (msg : HMessage) (w k : Z) (guild : HGuild)
  (me : HMember) (pre post : pystr) :
  get_guild handler (msg_guild_id msg) = Some guild ->
  get_my_member guild = Some me ->
  Template.delimiter ∉ pre ->
  Template.delimiter ∉ post ->
  substitute_args handler
    (PStr (pre ++ Template.delimiter :: Template.delimiter :: post)) msg w k
  = Ok (pre ++ Template.delimiter :: post).
Proof.
  intros Hguild Hme Hpre Hpost.
  unfold substitute_args. rewrite Hguild. cbn. rewrite Hme. cbn. f_equal.
  by apply safe_substitute_escaped.
Qed.

Lemma substitute_args_escape_sample :
  substitute_args Sample.handler (PStr (py "costs 5$$ each"))
    (Sample.message []) 3 2
  = Ok (py "costs 5$ each").
Proof.
  apply (substitute_args_escape Sample.handler (Sample.message []) 3 2
           (Sample.guild 777) Sample.bot_member (py "costs 5") (py " each")).
  - reflexivity.
  - reflexivity.
  - by_decision.
  - by_decision.
Defined.

(** X8: without the guild in the bot's cache, or without the bot among
    the members of the guild, nothing renders: [AttributeError], whatever
    the template, be it free of placeholders or no text at all. *)
Theorem substitute_args_unresolved
  (handler : Handler) (msg : HMessage) (w k : Z) (message : pyobj) :
  get_guild handler (msg_guild_id msg) ≫= get_my_member = None ->
  substitute_args handler message msg w k = Raise AttributeError.
Proof.
  unfold substitute_args.
  destruct (get_guild handler (msg_guild_id msg)) as [guild|]; cbn;
    [|reflexivity].
  by intros ->.
Qed.

Lemma substitute_args_unresolved_sample :
  substitute_args Sample.handler (PStr (py "plain text"))
    {| msg_id := 1; msg_channel_id := 2; msg_guild_id := Some 4;
       msg_author := Sample.author; msg_content := None; msg_embeds := [];
       msg_created_at_iso := [] |} 1 2
  = Raise AttributeError.
Proof.
  apply substitute_args_unresolved. reflexivity.
Defined.

(** ** Rich content, beyond the claims *)

(** [dict_to_embed] is its blocks in sequence. *)
Lemma dict_to_embed_steps handler message (w k : Z) (data : pyobj) :
  dict_to_embed handler message w k data
  = (data ← run_steps (embed_steps handler message w k) data; Ok (Embed data)).
Proof.
  unfold dict_to_embed, embed_steps, run_steps, footer_step, author_step,
    fields_step, timestamp_step, colour_step, type_step.
  unfold mbind, result_bind, rbind.
  repeat match goal with
         | |- match ?x with Ok _ => _ | Raise _ => _ end = _ =>
             destruct x; [|reflexivity]
         end.
  reflexivity.
Qed.

Lemma dict_get_set_ne (key k : pystr) (v : pyobj) (d : list (list N * pyobj)) :
  key ≠ k -> dict_get key (dict_set k v d) = dict_get key d.
Proof.
  intros Hne. induction d as [|[k0 w] d IH]; cbn.
  - by rewrite bool_decide_eq_false_2.
  - destruct (bool_decide (k0 = k)) eqn:Hk; cbn; [|by rewrite IH].
    apply bool_decide_eq_true_1 in Hk as ->.
    by rewrite !bool_decide_eq_false_2.
Qed.

Lemma sets_only_keeps (key k : pystr) (step : pyobj -> result pyobj) :
  key ≠ k -> sets_only k step -> keeps key step.
Proof.
  intros Hne Hstep l d' H.
  destruct (Hstep l d' H) as (l' & -> & [-> | [v ->]]); eexists;
    (split; [reflexivity|]); [done|by apply dict_get_set_ne].
Qed.

(** Takes a block that returned apart, one bind after the other. *)
Ltac open_step H :=
  unfold mbind, result_bind, rbind in H;
  repeat match type of H with
         | match ?x with Ok _ => _ | Raise _ => _ end = Ok _ =>
             destruct x eqn:?; [|discriminate H]
         | (if ?b then _ else _) = Ok _ => destruct b eqn:?
         | match ?x with PList _ => _ | _ => _ end = Ok _ => destruct x eqn:?
         end.

Ltac close_sets_only H :=
  first
    [ injection H as <-; eexists; split; [reflexivity|by left]
    | cbn in H; injection H as <-; eexists; split;
      [reflexivity|right; by eexists] ].

Section EmbedBlocks.

Variable handler : Handler.
Variable message : HMessage.
Variables w k : Z.

Lemma sets_only_substitute_if_present (key : pystr) :
  sets_only key
    (fun d => substitute_if_present handler message w k d key).
Proof.
  intros l d' H. unfold substitute_if_present, substitute_item in H.
  open_step H; close_sets_only H.
Qed.

Lemma sets_only_footer_step :
  sets_only (py "footer") (footer_step handler message w k).
Proof.
  intros l d' H. unfold footer_step in H. open_step H; close_sets_only H.
Qed.

Lemma sets_only_author_step :
  sets_only (py "author") (author_step handler message w k).
Proof.
  intros l d' H. unfold author_step in H. open_step H; close_sets_only H.
Qed.

Lemma sets_only_fields_step :
  sets_only (py "fields") (fields_step handler message w k).
Proof.
  intros l d' H. unfold fields_step in H. open_step H; close_sets_only H.
Qed.

Lemma sets_only_timestamp_step :
  sets_only (py "timestamp") (timestamp_step message).
Proof.
  intros l d' H. unfold timestamp_step in H. open_step H; close_sets_only H.
Qed.

Lemma sets_only_colour_step : sets_only (py "color") colour_step.
Proof.
  intros l d' H. unfold colour_step in H. open_step H; close_sets_only H.
Qed.

Lemma sets_only_type_step : sets_only (py "type") type_step.
Proof.
  intros l d' H. unfold type_step in H. close_sets_only H.
Qed.

(** Each block writes under its own key. *)
Lemma embed_steps_keys :
  Forall2 sets_only engine_keys (embed_steps handler message w k).
Proof.
  unfold engine_keys, embed_steps.
  repeat constructor;
    auto using sets_only_substitute_if_present, sets_only_footer_step,
      sets_only_author_step, sets_only_fields_step, sets_only_timestamp_step,
      sets_only_colour_step, sets_only_type_step.
Qed.

End EmbedBlocks.

(** A run of blocks that all keep [key] keeps it. *)
Lemma run_steps_keeps (key : pystr) (steps : list (pyobj -> result pyobj)) :
  Forall (keeps key) steps -> keeps key (run_steps steps).
Proof.
  induction 1 as [|step steps Hstep _ IH]; intros l d' H; cbn in H.
  - injection H as <-. by eexists.
  - unfold mbind, result_bind, rbind in H.
    destruct (step (PDict l)) as [d1|] eqn:H1; [|discriminate H].
    destruct (Hstep _ _ H1) as (l1 & -> & <-). by apply IH.
Qed.

Lemma run_steps_app (a b : list (pyobj -> result pyobj)) (data : pyobj) :
  run_steps (a ++ b) data = (d ← run_steps a data; run_steps b d).
Proof.
  revert data. induction a as [|step a IH]; intros data; cbn; [done|].
  unfold mbind, result_bind, rbind in *.
  destruct (step data); [apply IH|done].
Qed.

(** A run of blocks, each writing under its key only, leaves every other
    key as it was. *)
Lemma run_steps_sets_only (keys : list pystr)
  (steps : list (pyobj -> result pyobj)) :
  Forall2 sets_only keys steps ->
  forall l d, run_steps steps (PDict l) = Ok d ->
    exists l', d = PDict l'
               /\ forall key, key ∉ keys -> dict_get key l' = dict_get key l.
Proof.
  induction 1 as [|key0 step keys steps Hstep _ IH]; intros l d H; cbn in H.
  - injection H as <-. by eexists.
  - unfold mbind, result_bind, rbind in H.
    destruct (step (PDict l)) as [d1|] eqn:H1; [|discriminate H].
    destruct (Hstep _ _ H1) as (l1 & -> & Hl1).
    destruct (IH _ _ H) as (l' & -> & Hl').
    exists l'. split; [done|]. intros key [Hne Hkey]%not_elem_of_cons.
    rewrite (Hl' _ Hkey).
    destruct Hl1 as [-> | [v ->]]; [done|by apply dict_get_set_ne].
Qed.

(** X9: what [dict_to_embed] makes of a dictionary is a dictionary again,
    and every key other than the eight it writes ("title", "description",
    "footer", "author", "fields", "timestamp", "color", "type") has the
    value it came with: "url", "image", "colour" and the like pass
    through. *)
Theorem dict_to_embed_foreign_keys
  (handler : Handler) (message : HMessage) (w k : Z)
  (l : list (list N * pyobj)) (p : payload) :
  dict_to_embed handler message w k (PDict l) = Ok p ->
  exists l', p = Embed (PDict l')
             /\ forall key, key ∉ engine_keys -> dict_get key l' = dict_get key l.
Proof.
  rewrite dict_to_embed_steps. unfold mbind, result_bind, rbind.
  destruct (run_steps _ _) as [d|] eqn:Hrun; [|discriminate].
  intros [= <-].
  destruct (run_steps_sets_only _ _ (embed_steps_keys handler message w k)
              _ _ Hrun) as (l' & -> & Hl').
  by exists l'.
Qed.

Lemma dict_to_embed_foreign_keys_sample :
  exists l',
    Embed (PDict [(py "title", PStr (py "Hi Mocked Member"));
                  (py "url", PStr (py "https://example.org/$USERNAME"));
                  (py "type", PStr (py "rich"))])
    = Embed (PDict l')
    /\ forall key, key ∉ engine_keys ->
         dict_get key l'
         = dict_get key [(py "title", PStr (py "Hi $USERNAME"));
                         (py "url", PStr (py "https://example.org/$USERNAME"))].
Proof.
  apply (dict_to_embed_foreign_keys Sample.handler (Sample.message []) 1 2
           [(py "title", PStr (py "Hi $USERNAME"));
            (py "url", PStr (py "https://example.org/$USERNAME"))]
           (Embed (PDict [(py "title", PStr (py "Hi Mocked Member"));
                          (py "url", PStr (py "https://example.org/$USERNAME"));
                          (py "type", PStr (py "rich"))]))).
  reflexivity.
Defined.

(** The run of [dict_to_embed] around its block number [n]: the blocks
    before it leave alone what is not theirs, and so do the blocks after
    it. *)
Lemma dict_to_embed_block (n : nat) (step : pyobj -> result pyobj)
  (handler : Handler) (message : HMessage) (w k : Z)
  (l : list (list N * pyobj)) (p : payload) :
  embed_steps handler message w k !! n = Some step ->
  dict_to_embed handler message w k (PDict l) = Ok p ->
  exists l1 l2 l',
    (forall key, key ∉ take n engine_keys -> dict_get key l1 = dict_get key l)
    /\ step (PDict l1) = Ok (PDict l2)
    /\ p = Embed (PDict l')
    /\ (forall key, key ∉ drop (S n) engine_keys ->
          dict_get key l' = dict_get key l2).
Proof.
  intros Hstep. rewrite dict_to_embed_steps.
  pose proof (embed_steps_keys handler message w k) as Hkeys.
  assert (Hkey : exists key, engine_keys !! n = Some key
                             /\ sets_only key step).
  { destruct (Forall2_lookup_r _ _ _ _ _ Hkeys Hstep) as (key & ? & ?).
    by exists key. }
  destruct Hkey as (key & Hkey & Hsets).
  rewrite <- (take_drop_middle _ _ _ Hstep), run_steps_app.
  unfold mbind, result_bind, rbind. cbn [run_steps].
  unfold mbind, result_bind, rbind.
  destruct (run_steps (take n _) _) as [d1|] eqn:H1; [|discriminate].
  destruct (run_steps_sets_only _ _ (Forall2_take _ _ _ n Hkeys) _ _ H1)
    as (l1 & -> & Hl1).
  destruct (step (PDict l1)) as [d2|] eqn:H2; [|discriminate].
  destruct (Hsets _ _ H2) as (l2 & -> & _).
  destruct (run_steps (drop (S n) _) _) as [d3|] eqn:H3; [|discriminate].
  destruct (run_steps_sets_only _ _ (Forall2_drop _ _ _ (S n) Hkeys) _ _ H3)
    as (l' & -> & Hl').
  intros [= <-]. by exists l1, l2, l'.
Qed.

(** X10: "colour" is an alias of "color": when the dictionary has a
    "colour", the embed gets it as its "color", over any "color" that was
    there; without a "colour", "color" is as it came. *)
Theorem dict_to_embed_colour
  (handler : Handler) (message : HMessage) (w k : Z)
  (l : list (list N * pyobj)) (p : payload) :
  dict_to_embed handler message w k (PDict l) = Ok p ->
  exists l', p = Embed (PDict l')
             /\ dict_get (py "color") l'
                = match dict_get (py "colour") l with
                  | Some colour => Some colour
                  | None => dict_get (py "color") l
                  end.
Proof.
  intros H.
  destruct (dict_to_embed_block 6 colour_step handler message w k l p
              eq_refl H) as (l1 & l2 & l' & Hl1 & Hstep & -> & Hl').
  exists l'. split; [done|].
  rewrite (Hl' (py "color")) by by_decision.
  rewrite <- (Hl1 (py "colour")), <- (Hl1 (py "color")) by by_decision.
  unfold colour_step in Hstep. cbn in Hstep.
  destruct (dict_get (py "colour") l1) as [colour|]; cbn in Hstep;
    injection Hstep as <-; [apply dict_get_set|done].
Qed.

Lemma dict_to_embed_colour_sample :
  exists l',
    Embed (PDict [(py "colour", PInt 65280); (py "color", PInt 65280);
                  (py "type", PStr (py "rich"))])
    = Embed (PDict l')
    /\ dict_get (py "color") l'
       = match dict_get (py "colour")
                 [(py "colour", PInt 65280); (py "color", PInt 1)] with
         | Some colour => Some colour
         | None => dict_get (py "color")
                     [(py "colour", PInt 65280); (py "color", PInt 1)]
         end.
Proof.
  apply (dict_to_embed_colour Sample.handler (Sample.message []) 1 2
           [(py "colour", PInt 65280); (py "color", PInt 1)]
           (Embed (PDict [(py "colour", PInt 65280); (py "color", PInt 65280);
                          (py "type", PStr (py "rich"))]))).
  reflexivity.
Defined.

(** X11: a "timestamp", whatever its value, is replaced by the creation
    time of the message in ISO format; a dictionary without the key gets
    none. *)
Theorem dict_to_embed_timestamp
  (handler : Handler) (message : HMessage) (w k : Z)
  (l : list (list N * pyobj)) (p : payload) :
  dict_to_embed handler message w k (PDict l) = Ok p ->
  exists l', p = Embed (PDict l')
             /\ dict_get (py "timestamp") l'
                = (fun _ => PStr (msg_created_at_iso message))
                    <$> dict_get (py "timestamp") l.
Proof.
  intros H.
  destruct (dict_to_embed_block 5 (timestamp_step message) handler message
              w k l p eq_refl H) as (l1 & l2 & l' & Hl1 & Hstep & -> & Hl').
  exists l'. split; [done|].
  rewrite (Hl' (py "timestamp")) by by_decision.
  rewrite <- (Hl1 (py "timestamp")) by by_decision.
  unfold timestamp_step in Hstep. cbn in Hstep.
  destruct (dict_get (py "timestamp") l1) as [old|] eqn:Hold; cbn in Hstep;
    injection Hstep as <-; [apply dict_get_set|done].
Qed.

Lemma dict_to_embed_timestamp_sample :
  exists l',
    Embed (PDict [(py "timestamp", PStr (py "2022-01-01T00:00:00+00:00"));
                  (py "type", PStr (py "rich"))])
    = Embed (PDict l')
    /\ dict_get (py "timestamp") l'
       = (fun _ => PStr (msg_created_at_iso (Sample.message [])))
           <$> dict_get (py "timestamp") [(py "timestamp", PBool true)].
Proof.
  apply (dict_to_embed_timestamp Sample.handler (Sample.message []) 1 2
           [(py "timestamp", PBool true)]
           (Embed (PDict [(py "timestamp",
                           PStr (py "2022-01-01T00:00:00+00:00"));
                          (py "type", PStr (py "rich"))]))).
  reflexivity.
Defined.

(** X12: only a dictionary can be made an embed: on [None], a number, a
    truth value, a list or a text, [dict_to_embed] ends in [TypeError]. *)
Theorem dict_to_embed_not_a_dictionary
  (handler : Handler) (message : HMessage) (w k : Z) (data : pyobj) :
  (forall l, data ≠ PDict l) ->
  dict_to_embed handler message w k data = Raise TypeError.
Proof.
  intros Hdata. unfold dict_to_embed, substitute_if_present, substitute_item.
  destruct data as [| | |s|items|l]; try reflexivity;
    [| |by destruct (Hdata l)];
    cbn;
    repeat match goal with
           | |- context [occurs ?key ?s] => destruct (occurs key s); cbn
           | |- context [existsb ?f ?items] => destruct (existsb f items); cbn
           end;
    reflexivity.
Qed.

Lemma dict_to_embed_list_sample :
  dict_to_embed Sample.handler (Sample.message []) 1 2
    (PList [PStr (py "title")])
  = Raise TypeError.
Proof.
  apply dict_to_embed_not_a_dictionary. discriminate.
Defined.

Arguments substitute_if_present : simpl never.
Arguments substitute_item : simpl never.
Arguments substitute_icon_url : simpl never.

Section Icons.

Variable handler : Handler.
Variable message : HMessage.
Variables w k : Z.

(** A footer or an author whose icon is none of the placeholders keeps
    it through [substitute_icon_url]. *)
Lemma substitute_icon_url_foreign (fl : list (list N * pyobj)) (icon d' : pyobj) :
  dict_get (py "icon_url") fl = Some icon ->
  foreign_icon icon ->
  substitute_icon_url handler message w k (PDict fl) = Ok d' ->
  d' = PDict fl.
Proof.
  unfold substitute_icon_url, foreign_icon. cbn. intros -> Hicon. cbn.
  rewrite Hicon. by intros [= <-].
Qed.

Lemma footer_step_foreign_icon (l l2 fl : list (list N * pyobj)) (icon : pyobj) :
  dict_get (py "footer") l = Some (PDict fl) ->
  dict_get (py "icon_url") fl = Some icon ->
  foreign_icon icon ->
  footer_step handler message w k (PDict l) = Ok (PDict l2) ->
  exists fl', dict_get (py "footer") l2 = Some (PDict fl')
              /\ dict_get (py "icon_url") fl' = Some icon.
Proof.
  intros Hfooter Hicon Hforeign. unfold footer_step. cbn.
  rewrite Hfooter. cbn. unfold mbind, result_bind, rbind.
  destruct (substitute_if_present _ _ _ _ _ _) as [f1|] eqn:H1; [|discriminate].
  destruct (sets_only_keeps (py "icon_url") (py "text") _ ltac:(by_decision)
              (sets_only_substitute_if_present handler message w k (py "text"))
              _ _ H1) as (fl1 & -> & Hfl1).
  rewrite Hicon in Hfl1.
  destruct (substitute_icon_url _ _ _ _ _) as [f2|] eqn:H2; [|discriminate].
  apply (substitute_icon_url_foreign _ _ _ Hfl1 Hforeign) in H2 as ->.
  cbn. intros [= <-]. exists fl1. by rewrite dict_get_set.
Qed.

Lemma author_step_foreign_icon (l l2 fl : list (list N * pyobj)) (icon : pyobj) :
  dict_get (py "author") l = Some (PDict fl) ->
  dict_get (py "icon_url") fl = Some icon ->
  foreign_icon icon ->
  author_step handler message w k (PDict l) = Ok (PDict l2) ->
  exists fl', dict_get (py "author") l2 = Some (PDict fl')
              /\ dict_get (py "icon_url") fl' = Some icon.
Proof.
  intros Hauthor Hicon Hforeign. unfold author_step. cbn.
  rewrite Hauthor. cbn. unfold mbind, result_bind, rbind.
  destruct (substitute_item _ _ _ _ _ _) as [f1|] eqn:H1; [|discriminate].
  assert (Hname : sets_only (py "name")
                    (fun d => substitute_item handler message w k d (py "name"))).
  { intros l0 d0 H0. unfold substitute_item in H0. open_step H0.
    close_sets_only H0. }
  destruct (sets_only_keeps (py "icon_url") (py "name") _ ltac:(by_decision)
              Hname
              _ _ H1) as (fl1 & -> & Hfl1).
  rewrite Hicon in Hfl1.
  destruct (substitute_icon_url _ _ _ _ _) as [f2|] eqn:H2; [|discriminate].
  apply (substitute_icon_url_foreign _ _ _ Hfl1 Hforeign) in H2 as ->.
  cbn. intros [= <-]. exists fl1. by rewrite dict_get_set.
Qed.

End Icons.

(** X13: the [icon_url] of the footer and of the author is left alone
    unless it is exactly one of "$USERAVATAR", "$BOTAVATAR", "$GUILDICON":
    any other value, placeholders in it or not, is in the embed as it was
    in the dictionary. *)
Theorem dict_to_embed_foreign_icon
  (handler : Handler) (message : HMessage) (w k : Z)
  (l : list (list N * pyobj)) (p : payload) (part : pystr)
  (fl : list (list N * pyobj)) (icon : pyobj) :
  part = py "footer" \/ part = py "author" ->
  dict_get part l = Some (PDict fl) ->
  dict_get (py "icon_url") fl = Some icon ->
  foreign_icon icon ->
  dict_to_embed handler message w k (PDict l) = Ok p ->
  exists l' fl',
    p = Embed (PDict l')
    /\ dict_get part l' = Some (PDict fl')
    /\ dict_get (py "icon_url") fl' = Some icon.
Proof.
  intros [-> | ->] Hpart Hicon Hforeign H.
  - destruct (dict_to_embed_block 2 (footer_step handler message w k) handler
                message w k l p eq_refl H)
      as (l1 & l2 & l' & Hl1 & Hstep & -> & Hl').
    rewrite <- (Hl1 (py "footer")) in Hpart by by_decision.
    destruct (footer_step_foreign_icon _ _ _ _ _ _ _ _ Hpart Hicon Hforeign
                Hstep) as (fl' & Hfooter & Hfl').
    exists l', fl'. rewrite (Hl' (py "footer")) by by_decision. done.
  - destruct (dict_to_embed_block 3 (author_step handler message w k) handler
                message w k l p eq_refl H)
      as (l1 & l2 & l' & Hl1 & Hstep & -> & Hl').
    rewrite <- (Hl1 (py "author")) in Hpart by by_decision.
    destruct (author_step_foreign_icon _ _ _ _ _ _ _ _ Hpart Hicon Hforeign
                Hstep) as (fl' & Hauthor & Hfl').
    exists l', fl'. rewrite (Hl' (py "author")) by by_decision. done.
Qed.

Lemma dict_to_embed_foreign_icon_sample :
  exists l' fl',
    Embed (PDict [(py "footer",
                   PDict [(py "text", PStr (py "by Bot"));
                          (py "icon_url", PStr (py "https://x/$USERID.png"))]);
                  (py "type", PStr (py "rich"))])
    = Embed (PDict l')
    /\ dict_get (py "footer") l' = Some (PDict fl')
    /\ dict_get (py "icon_url") fl'
       = Some (PStr (py "https://x/$USERID.png")).
Proof.
  apply (dict_to_embed_foreign_icon Sample.handler (Sample.message []) 1 2
           [(py "footer",
             PDict [(py "text", PStr (py "by $BOTNAME"));
                    (py "icon_url", PStr (py "https://x/$USERID.png"))])]
           (Embed (PDict [(py "footer",
                           PDict [(py "text", PStr (py "by Bot"));
                                  (py "icon_url",
                                   PStr (py "https://x/$USERID.png"))]);
                          (py "type", PStr (py "rich"))]))
           (py "footer")
           [(py "text", PStr (py "by $BOTNAME"));
            (py "icon_url", PStr (py "https://x/$USERID.png"))]
           (PStr (py "https://x/$USERID.png"))).
  - by left.
  - reflexivity.
  - reflexivity.
  - reflexivity.
  - reflexivity.
Defined.

Section Fields.

Variable handler : Handler.
Variable message : HMessage.
Variables w k : Z.

Lemma substitute_field_rendered (field field' : pyobj) :
  substitute_field handler message w k field = Ok field' ->
  field_rendered field field'.
Proof.
  unfold substitute_field. unfold mbind, result_bind, rbind.
  destruct field as [| | | | |fl]; try discriminate. cbn.
  destruct (subscript (dict_get (py "name") fl)) as [name|]; [|discriminate].
  destruct (substitute_args _ name _ _ _) as [name'|]; [|discriminate].
  destruct (subscript (dict_get (py "value") fl)) as [value|]; [|discriminate].
  destruct (substitute_args _ value _ _ _) as [value'|]; [|discriminate].
  cbn.
  rewrite !dict_get_set_ne by by_decision.
  destruct (dict_get (py "inline") fl) as [inline|] eqn:Hinline; cbn;
    intros [= <-]; exists fl; eexists; (split; [done|split; [done|]]).
  - rewrite !dict_get_set_ne by by_decision. by rewrite Hinline.
  - rewrite Hinline. apply dict_get_set.
Qed.

Lemma substitute_fields_rendered (fields : list pyobj) :
  forall fields',
    substitute_fields handler message w k fields = Ok fields' ->
    Forall2 field_rendered fields fields'.
Proof.
  induction fields as [|field fields IH]; intros fields'; cbn.
  - intros [= <-]. constructor.
  - unfold mbind, result_bind, rbind.
    destruct (substitute_field _ _ _ _ field) as [field'|] eqn:Hfield;
      [|discriminate].
    destruct (substitute_fields _ _ _ _ fields) as [rest|]; [|discriminate].
    intros [= <-]. constructor; [by apply substitute_field_rendered|by apply IH].
Qed.

Lemma fields_step_rendered (l l2 : list (list N * pyobj)) (fields : list pyobj) :
  dict_get (py "fields") l = Some (PList fields) ->
  fields_step handler message w k (PDict l) = Ok (PDict l2) ->
  exists fields', dict_get (py "fields") l2 = Some (PList fields')
                  /\ Forall2 field_rendered fields fields'.
Proof.
  intros Hfields. unfold fields_step. cbn. rewrite Hfields. cbn.
  unfold mbind, result_bind, rbind.
  destruct (substitute_fields _ _ _ _ fields) as [fields'|] eqn:H1;
    [|discriminate].
  cbn. intros [= <-]. exists fields'.
  split; [apply dict_get_set|by apply substitute_fields_rendered].
Qed.

End Fields.

(** X14: the fields of the embed are the fields of the dictionary, as
    many and in their order, each a dictionary with an "inline": the one
    it had, or [True] when it had none. *)
Theorem dict_to_embed_inline_default
  (handler : Handler) (message : HMessage) (w k : Z)
  (l : list (list N * pyobj)) (p : payload) (fields : list pyobj) :
  dict_get (py "fields") l = Some (PList fields) ->
  dict_to_embed handler message w k (PDict l) = Ok p ->
  exists l' fields',
    p = Embed (PDict l')
    /\ dict_get (py "fields") l' = Some (PList fields')
    /\ Forall2 field_rendered fields fields'.
Proof.
  intros Hfields H.
  destruct (dict_to_embed_block 4 (fields_step handler message w k) handler
              message w k l p eq_refl H)
    as (l1 & l2 & l' & Hl1 & Hstep & -> & Hl').
  rewrite <- (Hl1 (py "fields")) in Hfields by by_decision.
  destruct (fields_step_rendered _ _ _ _ _ _ _ Hfields Hstep)
    as (fields' & Hfields' & Hrendered).
  exists l', fields'. rewrite (Hl' (py "fields")) by by_decision. done.
Qed.

Lemma dict_to_embed_inline_sample :
  exists l' fields',
    Embed (PDict [(py "fields",
                   PList [PDict [(py "name", PStr (py "Mocked Member"));
                                 (py "value", PStr (py "2"));
                                 (py "inline", PBool true)];
                          PDict [(py "name", PStr (py "n"));
                                 (py "value", PStr (py "v"));
                                 (py "inline", PBool false)]]);
                  (py "type", PStr (py "rich"))])
    = Embed (PDict l')
    /\ dict_get (py "fields") l' = Some (PList fields')
    /\ Forall2 field_rendered
         [PDict [(py "name", PStr (py "$USERNAME"));
                 (py "value", PStr (py "$KICKCOUNT"))];
          PDict [(py "name", PStr (py "n")); (py "value", PStr (py "v"));
                 (py "inline", PBool false)]]
         fields'.
Proof.
  apply (dict_to_embed_inline_default Sample.handler (Sample.message []) 1 2
           [(py "fields",
             PList [PDict [(py "name", PStr (py "$USERNAME"));
                           (py "value", PStr (py "$KICKCOUNT"))];
                    PDict [(py "name", PStr (py "n"));
                           (py "value", PStr (py "v"));
                           (py "inline", PBool false)]])]
           (Embed (PDict [(py "fields",
                           PList [PDict [(py "name", PStr (py "Mocked Member"));
                                         (py "value", PStr (py "2"));
                                         (py "inline", PBool true)];
                                  PDict [(py "name", PStr (py "n"));
                                         (py "value", PStr (py "v"));
                                         (py "inline", PBool false)]]);
                          (py "type", PStr (py "rich"))]))).
  - reflexivity.
  - reflexivity.
Defined.

(** ** The coroutines, beyond the claims *)

Section Emits.

Context {S : Type} (P : event -> Prop).

Lemma emits_ret {A} (a : A) : emits P (mret a : M S A).
Proof. intros st. exists []. by rewrite app_nil_r. Qed.

Lemma emits_raise {A} (e : exn) : emits P (raise e : M S A).
Proof. intros st. exists []. by rewrite app_nil_r. Qed.

Lemma emits_lift {A} (r : result A) : emits P (lift r : M S A).
Proof. intros st. exists []. by rewrite app_nil_r. Qed.

Lemma emits_get_store : emits P (get_store : M S S).
Proof. intros st. exists []. by rewrite app_nil_r. Qed.

Lemma emits_modify_store (f : S -> S) : emits P (modify_store f).
Proof. intros st. exists []. by rewrite app_nil_r. Qed.

Lemma emits_sleep (n : Z) : P (Sleep n) -> emits P (sleep n : M S unit).
Proof. intros Hn st. exists [Sleep n]. split; [done|by constructor]. Qed.

Lemma emits_set_member (m : Member.t) :
  P (SetMember m) -> emits P (cache_set_member m : M S unit).
Proof. intros Hm st. exists [SetMember m]. split; [done|by constructor]. Qed.

Lemma emits_await {A} (ask : list event -> remote A) (ev : remote A -> event) :
  (forall r, P (ev r)) -> emits P (await ask ev : M S A).
Proof.
  intros Hev st. exists [ev (ask (trace st))]. split; [done|].
  constructor; [apply Hev|constructor].
Qed.

Lemma emits_bind {A B} (c : M S A) (f : A -> M S B) :
  emits P c -> (forall a, emits P (f a)) -> emits P (c ≫= f).
Proof.
  intros Hc Hf st. unfold mbind, M_bind, bind.
  destruct (Hc st) as (new & Htrace & Hnew).
  destruct (c st) as [[a|e] st1]; cbn in *; [|by exists new].
  destruct (Hf a st1) as (new' & Htrace' & Hnew').
  exists (new ++ new'). rewrite Htrace', Htrace, app_assoc. split; [done|].
  by apply Forall_app.
Qed.

Lemma emits_try_except {A} (body handler : M S A) (handles : exn -> bool) :
  emits P body -> emits P handler -> emits P (try_except body handles handler).
Proof.
  intros Hbody Hhandler st. unfold try_except.
  destruct (Hbody st) as (new & Htrace & Hnew).
  destruct (body st) as [[a|e] st1]; cbn in *; [by exists new|].
  destruct (handles e); [|by exists new].
  destruct (Hhandler st1) as (new' & Htrace' & Hnew').
  exists (new ++ new'). rewrite Htrace', Htrace, app_assoc. split; [done|].
  by apply Forall_app.
Qed.

Lemma emits_try_except_else {A B} (body : M S A) (handler : M S B)
  (handles : exn -> bool) (orelse : A -> M S B) :
  emits P body -> emits P handler -> (forall a, emits P (orelse a)) ->
  emits P (try_except_else body handles handler orelse).
Proof.
  intros Hbody Hhandler Helse st. unfold try_except_else.
  destruct (Hbody st) as (new & Htrace & Hnew).
  destruct (body st) as [[a|e] st1]; cbn in *.
  - destruct (Helse a st1) as (new' & Htrace' & Hnew').
    exists (new ++ new'). rewrite Htrace', Htrace, app_assoc. split; [done|].
    by apply Forall_app.
  - destruct (handles e); [|by exists new].
    destruct (Hhandler st1) as (new' & Htrace' & Hnew').
    exists (new ++ new'). rewrite Htrace', Htrace, app_assoc. split; [done|].
    by apply Forall_app.
Qed.

End Emits.

(** Closes a goal [emits P c] along the structure of [c]; what is left is
    that single calls are of the kind [P]. *)
Ltac emits_steps :=
  repeat first
    [ apply emits_bind; [|intros ?]
    | apply emits_try_except
    | apply emits_try_except_else; [| |intros ?]
    | apply emits_await; intros ?
    | apply emits_ret | apply emits_raise | apply emits_lift
    | apply emits_get_store | apply emits_modify_store
    | apply emits_sleep | apply emits_set_member
    | match goal with
      | |- emits _ (if ?b then _ else _) => destruct b
      | |- emits _ (match ?x with _ => _ end) => destruct x
      end ].

Lemma emits_check_roles {S} handler (items : list (Z + list N)) :
  emits is_fetch (check_roles handler items : M S unit).
Proof.
  induction items as [|item items IH]; cbn; [apply emits_ret|].
  destruct (bool_decide _); [apply emits_raise|apply IH].
Qed.

(** X15: whatever the message, the options and the platform, and however
    it ends, [check_message_can_be_propagated] only reads: its calls are
    fetches of a channel or of roles; it sends, deletes, kicks, bans and
    stores nothing. *)
Theorem check_message_only_fetches
  (handler : Handler) (pf : Platform) (message : pyarg) (st : state unit) :
  exists new,
    trace (snd (check_message_can_be_propagated handler pf message st))
      = trace st ++ new
    /\ Forall is_fetch new.
Proof.
  assert (H : emits is_fetch
                (check_message_can_be_propagated handler pf message)).
  { unfold check_message_can_be_propagated, _get_perms.
    destruct message as [message|]; [|apply emits_raise].
    emits_steps; try exact I; apply emits_check_roles. }
  apply H.
Qed.

Lemma emits_send_guild_log {S} (P : event -> Prop) pf guild message
  delete_after channel :
  (forall c r, P (FetchChannel c r)) ->
  (forall c r, P (Send (ToChannel c) message r)) ->
  (forall n, P (Sleep n)) ->
  (forall m r, P (Delete m r)) ->
  emits P (send_guild_log pf guild message delete_after channel : M S unit).
Proof.
  intros Hfetch Hsend Hsleep Hdelete. unfold send_guild_log.
  emits_steps; auto.
Qed.

(** X16: whatever the platform answers and however it ends, a kick
    attempt never calls ban and a ban attempt never calls kick; the action
    and the private message go to the author of the message and to nobody
    else, and no message is fetched. *)
Theorem punish_member_calls
  (handler : Handler) (pf : Platform) (msg : HMessage) (internal_guild : Guild.t)
  (user_message guild_message : payload) (is_kick : bool)
  (user_delete_after channel_delete_after : option Z)
  (st : state punish_frame) :
  exists new,
    trace (snd (punish_member handler pf msg internal_guild user_message
                  guild_message is_kick user_delete_after
                  channel_delete_after st))
      = trace st ++ new
    /\ Forall (punish_event is_kick (user_id (msg_author msg))) new.
Proof.
  assert (Hlog : forall message channel,
            emits (punish_event is_kick (user_id (msg_author msg)))
              (send_guild_log pf internal_guild message channel_delete_after
                 channel : M punish_frame unit)).
  { intros message channel. by apply emits_send_guild_log. }
  assert (H : emits (punish_event is_kick (user_id (msg_author msg)))
                (punish_member handler pf msg internal_guild user_message
                   guild_message is_kick user_delete_after
                   channel_delete_after)).
  { unfold punish_member, _get_perms, deny.
    apply emits_bind; [emits_steps; exact I|intros channel].
    apply emits_bind; [emits_steps|intros guild].
    apply emits_bind; [emits_steps; exact I|intros perms].
    apply emits_bind; [emits_steps|intros f].
    repeat match goal with
           | |- emits _ (if ?b then _ else _) =>
               destruct b eqn:?; [emits_steps|]
           end.
    apply emits_bind; [emits_steps|intros _].
    apply emits_bind.
    { apply emits_try_except; [|apply Hlog].
      emits_steps; try exact I; reflexivity. }
    intros _.
    apply emits_bind; [|intros _; emits_steps; exact I].
    apply emits_try_except_else.
    - destruct is_kick; emits_steps; by split.
    - apply emits_bind; [emits_steps|intros _].
      apply emits_bind; [emits_steps|intros _].
      apply emits_bind; [emits_steps|intros f'].
      apply emits_bind; [apply Hlog|intros _].
      destruct (sent_message f'); [|emits_steps].
      apply emits_bind; [emits_steps|intros rendered].
      apply emits_bind; [apply Hlog|intros _].
      emits_steps. exact I.
    - intros _. apply Hlog. }
  apply H.
Qed.

Lemma lor_roles_testbit (roles : list Role) (n : Z) :
  forall acc,
    Z.testbit
      (foldl (fun perms role => Permissions.or perms (permissions role))
         acc roles) n
    = Z.testbit acc n || existsb (fun role => Z.testbit (permissions role) n) roles.
Proof.
  induction roles as [|role roles IH]; intros acc; cbn.
  - by rewrite orb_false_r.
  - rewrite IH. unfold Permissions.or. rewrite Z.lor_spec.
    by rewrite orb_assoc.
Qed.

(** X17: the permissions [_get_perms] returns are the union of the
    permissions of the roles fetched: a bit is set exactly when some role
    sets it, and no role gives no permission.  One call is made, the fetch
    of the roles. *)
Theorem get_perms_union
  (pf : Platform) (member : HMember) (roles : list Role) (st : state unit) :
  member_fetch_roles pf (trace st) (user_id (member_user member)) = Done roles ->
  exists perms,
    _get_perms pf (Some member) st
    = (Ok perms,
       mkstate tt
         (trace st ++ [FetchRoles (user_id (member_user member)) (Done roles)]))
    /\ (forall n, Z.testbit perms n
                  = existsb (fun role => Z.testbit (permissions role) n) roles)
    /\ (roles = [] -> perms = Permissions.NONE).
Proof.
  intros Hroles. unfold _get_perms. unfold_monad. cbn. rewrite Hroles. cbn.
  eexists. split; [by destruct st as [[] ?]|]. split.
  - intros n. by rewrite lor_roles_testbit, Z.testbit_0_l.
  - by intros ->.
Qed.

Lemma get_perms_sample :
  exists perms,
    _get_perms (Sample.platform 6 (Done 900) (Done tt) (Done tt) (fun _ => true))
      (Some Sample.bot_member) (mkstate tt [])
    = (Ok perms,
       mkstate tt
         ([] ++ [FetchRoles 98987
                   (Done [{| role_name := py "test role 2";
                             permissions := 6 |}])]))
    /\ (forall n, Z.testbit perms n
                  = existsb (fun role => Z.testbit (permissions role) n)
                      [{| role_name := py "test role 2"; permissions := 6 |}])
    /\ ([{| role_name := py "test role 2"; permissions := 6 |}] = [] ->
        perms = Permissions.NONE).
Proof.
  apply (get_perms_union
           (Sample.platform 6 (Done 900) (Done tt) (Done tt) (fun _ => true))
           Sample.bot_member
           [{| role_name := py "test role 2"; permissions := 6 |}]
           (mkstate tt [])).
  reflexivity.
Defined.

(** The loop over the roles stops at the first ignored entry. *)
Lemma check_roles_find {S} handler (items : list (Z + list N)) (st : state S) :
  check_roles handler items st
  = match list_find (fun item => item ∈ ignored_roles (options handler)) items with
    | Some (_, item) => (Raise (PropagateFailure (status_role item)), st)
    | None => (Ok tt, st)
    end.
Proof.
  induction items as [|item items IH]; cbn; [done|].
  unfold bool_decide. destruct (decide_rel _ _ _) as [Hin|Hout]; cbn; [done|].
  rewrite IH. by destruct (list_find _ items) as [[? ?]|].
Qed.

Section Eligibility.

Variable handler : Handler.
Variable pf : Platform.
Variable message : HMessage.
Variables (me : User) (guild : HGuild) (member : HMember).
Variable st : state unit.

Hypothesis reaches : reaches_channel_check handler message me guild member.

(** Up to the fetch of the channel. *)
Lemma check_message_to_channel :
  check_message_can_be_propagated handler pf (AMessage message) st
  = (channel ←
       await (fun h => rest_fetch_channel pf h (msg_channel_id message))
         (FetchChannel (msg_channel_id message));
     if bool_decide (inl (msg_channel_id message)
                       ∈ ignored_channels (options handler))
        || bool_decide (inr (chan_name channel)
                          ∈ ignored_channels (options handler))
     then raise (PropagateFailure (status_channel (msg_channel_id message)))
     else
       _ ← try_except
             (roles ←
                await (fun h => member_fetch_roles pf h
                                  (user_id (member_user member)))
                  (FetchRoles (user_id (member_user member)));
              check_roles handler (user_roles member roles))
             is_AttributeError
             (mret tt);
       if guild_ignored handler (msg_guild_id message)
       then raise (PropagateFailure (status_guild (msg_guild_id message)))
       else
         perms ← _get_perms pf (get_my_member guild);
         mret (PropagateData.mk (msg_guild_id message)
                 (username (msg_author message))
                 (user_id (msg_author message))
                 (py_and (Permissions.getattr_KICK_MEMBERS perms)
                    (Permissions.getattr_BAN_MEMBERS perms)))) st.
Proof.
  destruct reaches as (Hguild_id & Hme & Hnot_me & Hguild & Hmember & Hbots
                       & Hignored).
  unfold check_message_can_be_propagated. rewrite Hguild_id. cbn [negb].
  unfold mbind at 1, M_bind at 1, bind at 1, lift at 1. rewrite Hme. cbn [deref].
  rewrite (bool_decide_eq_false_2 _ Hnot_me).
  unfold mbind at 1, M_bind at 1, bind at 1, lift at 1.
  rewrite Hguild. cbn [deref].
  rewrite Hmember, Hbots, (bool_decide_eq_false_2 _ Hignored).
  reflexivity.
Qed.

End Eligibility.

Ltac reaches_sample :=
  repeat split; try reflexivity; try discriminate; try by_decision.

(** X18: a guild message that passes every check is accepted: the call
    returns the guild id, the author's name and id, and the flag
    [BAN_MEMBERS] as the permission field, after exactly three calls, in
    this order: the fetch of the channel, of the author's roles and of the
    bot's roles. *)
Theorem check_message_accepts
  (handler : Handler) (pf : Platform) (message : HMessage) (st : state unit)
  (me : User) (guild : HGuild) (member bot : HMember)
  (channel : Channel) (roles bot_roles : list Role) :
  let fetched := FetchChannel (msg_channel_id message) (Done channel) in
  let author_roles := FetchRoles (user_id (member_user member)) (Done roles) in
  reaches_channel_check handler message me guild member ->
  rest_fetch_channel pf (trace st) (msg_channel_id message) = Done channel ->
  ~ channel_ignored handler (msg_channel_id message) channel ->
  member_fetch_roles pf (trace st ++ [fetched]) (user_id (member_user member))
    = Done roles ->
  Forall (fun item => item ∉ ignored_roles (options handler))
    (user_roles member roles) ->
  guild_ignored handler (msg_guild_id message) = false ->
  get_my_member guild = Some bot ->
  member_fetch_roles pf (trace st ++ [fetched; author_roles])
    (user_id (member_user bot)) = Done bot_roles ->
  check_message_can_be_propagated handler pf (AMessage message) st
  = (Ok (PropagateData.mk (msg_guild_id message)
           (username (msg_author message)) (user_id (msg_author message))
           Permissions.BAN_MEMBERS),
     mkstate tt
       (trace st
          ++ [fetched; author_roles;
              FetchRoles (user_id (member_user bot)) (Done bot_roles)])).
Proof.
  intros fetched author_roles reaches Hchannel Hkept Hroles Hnone Hguild Hbot
    Hbot_roles.
  rewrite (check_message_to_channel _ _ _ _ _ _ _ reaches).
  unfold channel_ignored in Hkept.
  assert (Hid : bool_decide (inl (msg_channel_id message)
                               ∈ ignored_channels (options handler)) = false).
  { apply bool_decide_eq_false_2. tauto. }
  assert (Hname : bool_decide (inr (chan_name channel)
                                 ∈ ignored_channels (options handler)) = false).
  { apply bool_decide_eq_false_2. tauto. }
  unfold mbind at 1, M_bind at 1, bind at 1, await at 1.
  rewrite Hchannel, Hid, Hname. cbn [orb].
  unfold mbind at 1, M_bind at 1, bind at 1, try_except at 1.
  unfold mbind at 1, M_bind at 1, bind at 1, await at 1.
  cbn [trace store]. fold fetched. rewrite Hroles, check_roles_find.
  assert (Hfind : list_find
                    (fun item => item ∈ ignored_roles (options handler))
                    (user_roles member roles) = None).
  { apply list_find_None. exact Hnone. }
  rewrite Hfind, Hguild, Hbot.
  unfold _get_perms. unfold_monad. cbn [deref trace store].
  rewrite <- app_assoc. cbn [app]. fold author_roles. rewrite Hbot_roles.
  cbn [trace store]. rewrite <- app_assoc. cbn [app].
  by destruct st as [[] ?].
Qed.

Lemma check_message_accepts_sample :
  check_message_can_be_propagated Sample.handler
    (Sample.platform 6 (Done 900) (Done tt) (Done tt) (fun _ => true))
    (AMessage (Sample.message (py "hello"))) (mkstate tt [])
  = (Ok (PropagateData.mk (Some 3) (py "Mocked Member") 12345
           Permissions.BAN_MEMBERS),
     mkstate tt
       ([] ++ [FetchChannel 2
                 (Done {| chan_id := 2; chan_name := py "general" |});
               FetchRoles 12345
                 (Done [{| role_name := py "test role 2"; permissions := 6 |}]);
               FetchRoles 98987
                 (Done [{| role_name := py "test role 2";
                           permissions := 6 |}])])).
Proof.
  apply (check_message_accepts Sample.handler
           (Sample.platform 6 (Done 900) (Done tt) (Done tt) (fun _ => true))
           (Sample.message (py "hello")) (mkstate tt [])
           Sample.bot (Sample.guild 777) Sample.author_member Sample.bot_member
           {| chan_id := 2; chan_name := py "general" |}
           [{| role_name := py "test role 2"; permissions := 6 |}]
           [{| role_name := py "test role 2"; permissions := 6 |}]).
  - reaches_sample.
  - reflexivity.
  - by_decision.
  - reflexivity.
  - by_decision.
  - reflexivity.
  - reflexivity.
  - reflexivity.
Defined.

(** X19: a message that reaches the channel check in a channel ignored by
    its id or by its name is rejected; the status names the id of the
    channel also when it is the name that is ignored, and the fetch of the
    channel is the only call made. *)
Theorem check_message_ignored_channel
  (handler : Handler) (pf : Platform) (message : HMessage) (st : state unit)
  (me : User) (guild : HGuild) (member : HMember) (channel : Channel) :
  reaches_channel_check handler message me guild member ->
  rest_fetch_channel pf (trace st) (msg_channel_id message) = Done channel ->
  channel_ignored handler (msg_channel_id message) channel ->
  check_message_can_be_propagated handler pf (AMessage message) st
  = (Raise (PropagateFailure (status_channel (msg_channel_id message))),
     mkstate tt
       (trace st ++ [FetchChannel (msg_channel_id message) (Done channel)])).
Proof.
  intros reaches Hchannel Hignored.
  rewrite (check_message_to_channel _ _ _ _ _ _ _ reaches).
  unfold mbind at 1, M_bind at 1, bind at 1, await at 1.
  rewrite Hchannel.
  assert (Htest : bool_decide (inl (msg_channel_id message)
                                 ∈ ignored_channels (options handler))
                  || bool_decide (inr (chan_name channel)
                                    ∈ ignored_channels (options handler))
                  = true).
  { destruct Hignored as [Hid|Hname].
    - by rewrite (bool_decide_eq_true_2 _ Hid).
    - by rewrite (bool_decide_eq_true_2 _ Hname), orb_true_r. }
  rewrite Htest. by destruct st as [[] ?].
Qed.

Lemma check_message_ignored_channel_name_sample :
  check_message_can_be_propagated
    (Sample.handler_with (Sample.opts ∅ {[inr (py "general")]}) 777)
    (Sample.platform 6 (Done 900) (Done tt) (Done tt) (fun _ => true))
    (AMessage (Sample.message (py "hello"))) (mkstate tt [])
  = (Raise (PropagateFailure (status_channel 2)),
     mkstate tt
       ([] ++ [FetchChannel 2
                 (Done {| chan_id := 2; chan_name := py "general" |})])).
Proof.
  apply (check_message_ignored_channel
           (Sample.handler_with (Sample.opts ∅ {[inr (py "general")]}) 777)
           (Sample.platform 6 (Done 900) (Done tt) (Done tt) (fun _ => true))
           (Sample.message (py "hello")) (mkstate tt [])
           Sample.bot (Sample.guild 777) Sample.author_member
           {| chan_id := 2; chan_name := py "general" |}).
  - reaches_sample.
  - reflexivity.
  - right. by_decision.
Defined.

(** X20: a message that passes the channel check and whose author has an
    ignored role is rejected for the first ignored entry of the author's
    role ids followed by the names of the roles fetched: an ignored id
    comes before any ignored name.  The guild is not looked at and the
    bot's roles are not fetched. *)
Theorem check_message_ignored_role
  (handler : Handler) (pf : Platform) (message : HMessage) (st : state unit)
  (me : User) (guild : HGuild) (member : HMember)
  (channel : Channel) (roles : list Role) (i : nat) (item : Z + list N) :
  let fetched := FetchChannel (msg_channel_id message) (Done channel) in
  reaches_channel_check handler message me guild member ->
  rest_fetch_channel pf (trace st) (msg_channel_id message) = Done channel ->
  ~ channel_ignored handler (msg_channel_id message) channel ->
  member_fetch_roles pf (trace st ++ [fetched]) (user_id (member_user member))
    = Done roles ->
  list_find (fun item => item ∈ ignored_roles (options handler))
    (user_roles member roles) = Some (i, item) ->
  check_message_can_be_propagated handler pf (AMessage message) st
  = (Raise (PropagateFailure (status_role item)),
     mkstate tt
       (trace st
          ++ [fetched;
              FetchRoles (user_id (member_user member)) (Done roles)])).
Proof.
  intros fetched reaches Hchannel Hkept Hroles Hfind.
  rewrite (check_message_to_channel _ _ _ _ _ _ _ reaches).
  unfold channel_ignored in Hkept.
  assert (Hid : bool_decide (inl (msg_channel_id message)
                               ∈ ignored_channels (options handler)) = false).
  { apply bool_decide_eq_false_2. tauto. }
  assert (Hname : bool_decide (inr (chan_name channel)
                                 ∈ ignored_channels (options handler)) = false).
  { apply bool_decide_eq_false_2. tauto. }
  unfold mbind at 1, M_bind at 1, bind at 1, await at 1.
  rewrite Hchannel, Hid, Hname. cbn [orb].
  unfold mbind at 1, M_bind at 1, bind at 1, try_except at 1.
  unfold mbind at 1, M_bind at 1, bind at 1, await at 1.
  cbn [trace store]. fold fetched. rewrite Hroles, check_roles_find, Hfind.
  cbn [is_AttributeError]. rewrite <- app_assoc. cbn [app].
  by destruct st as [[] ?].
Qed.

Lemma check_message_ignored_role_sample :
  check_message_can_be_propagated
    (Sample.handler_with
       (Scenario.opts_roles {[inr (py "test role 2"); inl 252525]}) 777)
    (Sample.platform 6 (Done 900) (Done tt) (Done tt) (fun _ => true))
    (AMessage (Sample.message (py "hello"))) (mkstate tt [])
  = (Raise (PropagateFailure (status_role (inl 252525))),
     mkstate tt
       ([] ++ [FetchChannel 2
                 (Done {| chan_id := 2; chan_name := py "general" |});
               FetchRoles 12345
                 (Done [{| role_name := py "test role 2";
                           permissions := 6 |}])])).
Proof.
  apply (check_message_ignored_role
           (Sample.handler_with
              (Scenario.opts_roles {[inr (py "test role 2"); inl 252525]}) 777)
           (Sample.platform 6 (Done 900) (Done tt) (Done tt) (fun _ => true))
           (Sample.message (py "hello")) (mkstate tt [])
           Sample.bot (Sample.guild 777) Sample.author_member
           {| chan_id := 2; chan_name := py "general" |}
           [{| role_name := py "test role 2"; permissions := 6 |}]
           0%nat (inl 252525)).
  - reaches_sample.
  - reflexivity.
  - by_decision.
  - reflexivity.
  - reflexivity.
Defined.

(** X21: only [AttributeError] is tolerated while the roles are read: when
    the fetch of the author's roles fails with an HTTP error, that error
    leaves [check_message_can_be_propagated]; the message is neither
    accepted nor rejected with a status. *)
Theorem check_message_role_fetch_fails
  (handler : Handler) (pf : Platform) (message : HMessage) (st : state unit)
  (me : User) (guild : HGuild) (member : HMember)
  (channel : Channel) (e : http_error) :
  let fetched := FetchChannel (msg_channel_id message) (Done channel) in
  reaches_channel_check handler message me guild member ->
  rest_fetch_channel pf (trace st) (msg_channel_id message) = Done channel ->
  ~ channel_ignored handler (msg_channel_id message) channel ->
  member_fetch_roles pf (trace st ++ [fetched]) (user_id (member_user member))
    = Failed e ->
  check_message_can_be_propagated handler pf (AMessage message) st
  = (Raise (HTTP e),
     mkstate tt
       (trace st
          ++ [fetched; FetchRoles (user_id (member_user member)) (Failed e)])).
Proof.
  intros fetched reaches Hchannel Hkept Hroles.
  rewrite (check_message_to_channel _ _ _ _ _ _ _ reaches).
  unfold channel_ignored in Hkept.
  assert (Hid : bool_decide (inl (msg_channel_id message)
                               ∈ ignored_channels (options handler)) = false).
  { apply bool_decide_eq_false_2. tauto. }
  assert (Hname : bool_decide (inr (chan_name channel)
                                 ∈ ignored_channels (options handler)) = false).
  { apply bool_decide_eq_false_2. tauto. }
  unfold mbind at 1, M_bind at 1, bind at 1, await at 1.
  rewrite Hchannel, Hid, Hname. cbn [orb].
  unfold mbind at 1, M_bind at 1, bind at 1, try_except at 1.
  unfold mbind at 1, M_bind at 1, bind at 1, await at 1.
  cbn [trace store]. fold fetched. rewrite Hroles.
  cbn [is_AttributeError]. rewrite <- app_assoc. cbn [app].
  by destruct st as [[] ?].
Qed.

Lemma check_message_role_fetch_fails_sample :
  check_message_can_be_propagated Sample.handler
    (Scenario.platform_roles 6 (Failed ForbiddenError))
    (AMessage (Sample.message (py "hello"))) (mkstate tt [])
  = (Raise (HTTP ForbiddenError),
     mkstate tt
       ([] ++ [FetchChannel 2
                 (Done {| chan_id := 2; chan_name := py "general" |});
               FetchRoles 12345 (Failed ForbiddenError)])).
Proof.
  apply (check_message_role_fetch_fails Sample.handler
           (Scenario.platform_roles 6 (Failed ForbiddenError))
           (Sample.message (py "hello")) (mkstate tt [])
           Sample.bot (Sample.guild 777) Sample.author_member
           {| chan_id := 2; chan_name := py "general" |} ForbiddenError).
  - reaches_sample.
  - reflexivity.
  - by_decision.
  - reflexivity.
Defined.

(** *** The guild log *)

(** X22: for a guild without a log channel ([None], or the id 0, which is
    as false), [send_guild_log] does to the original channel what
    [send_message_to_] does, without fetching anything, and returns where
    [send_message_to_] would raise. *)
Theorem send_guild_log_falls_back {S}
  (pf : Platform) (guild : Guild.t) (message : payload)
  (delete_after_time : option Z) (original_channel : Channel) (st : state S) :
  truthy (Guild.log_channel_id guild) = false ->
  send_guild_log pf guild message delete_after_time original_channel st
  = (Ok tt,
     snd (send_message_to_ pf (ToChannel (chan_id original_channel)) message
            delete_after_time st)).
Proof.
  intros Hlog. unfold send_guild_log, send_message_to_. rewrite Hlog.
  unfold_monad. cbn.
  destruct (target_send _ _ _ _); cbn; [|reflexivity].
  destruct (truthy delete_after_time); cbn; [|reflexivity].
  by destruct (message_delete _ _ _) as [[]|].
Qed.

Lemma send_guild_log_falls_back_sample :
  send_guild_log
    (Sample.platform 6 (Done 900) (Done tt) (Failed ForbiddenError)
       (fun _ => true))
    (Guild.mk 3 (Some 0)) (Text (py "notice")) (Some 5)
    {| chan_id := 2; chan_name := py "general" |} (mkstate tt [])
  = (Ok tt,
     snd (send_message_to_
            (Sample.platform 6 (Done 900) (Done tt) (Failed ForbiddenError)
               (fun _ => true))
            (ToChannel 2) (Text (py "notice")) (Some 5) (mkstate tt []))).
Proof.
  apply (send_guild_log_falls_back
           (Sample.platform 6 (Done 900) (Done tt) (Failed ForbiddenError)
              (fun _ => true))
           (Guild.mk 3 (Some 0)) (Text (py "notice")) (Some 5)
           {| chan_id := 2; chan_name := py "general" |} (mkstate tt [])).
  reflexivity.
Defined.

(** X23: for a guild with a log channel, [send_guild_log] fetches that
    channel first.  When the fetch fails nothing is sent, the original
    channel is no fallback, and the call returns; when it succeeds the
    message goes to the channel fetched as [send_message_to_] sends it, and
    the call returns also where [send_message_to_] would raise. *)
Theorem send_guild_log_to_log_channel {S}
  (pf : Platform) (guild : Guild.t) (message : payload)
  (delete_after_time : option Z) (original_channel : Channel) (st : state S)
  (log_channel : Z) :
  Guild.log_channel_id guild = Some log_channel ->
  log_channel ≠ 0 ->
  let answer := rest_fetch_channel pf (trace st) log_channel in
  let fetched :=
    mkstate (store st) (trace st ++ [FetchChannel log_channel answer]) in
  send_guild_log pf guild message delete_after_time original_channel st
  = (Ok tt,
     match answer with
     | Done channel =>
         snd (send_message_to_ pf (ToChannel (chan_id channel)) message
                delete_after_time fetched)
     | Failed _ => fetched
     end).
Proof.
  intros Hlog Hset answer fetched. subst answer fetched.
  unfold send_guild_log, send_message_to_. rewrite Hlog.
  cbn [truthy negb default]. rewrite (proj2 (Z.eqb_neq _ _) Hset).
  unfold_monad. cbn.
  destruct (rest_fetch_channel _ _ _); cbn; [|reflexivity].
  destruct (target_send _ _ _ _); cbn; [|reflexivity].
  destruct (truthy delete_after_time); cbn; [|reflexivity].
  by destruct (message_delete _ _ _) as [[]|].
Qed.

Lemma send_guild_log_lost_channel_sample :
  send_guild_log (Scenario.platform_channels (fun c => c =? 77))
    (Guild.mk 3 (Some 77)) (Text (py "notice")) None
    {| chan_id := 2; chan_name := py "general" |} (mkstate tt [])
  = (Ok tt, mkstate tt ([] ++ [FetchChannel 77 (Failed NotFoundError)])).
Proof.
  apply (send_guild_log_to_log_channel
           (Scenario.platform_channels (fun c => c =? 77))
           (Guild.mk 3 (Some 77)) (Text (py "notice")) None
           {| chan_id := 2; chan_name := py "general" |} (mkstate tt []) 77).
  - reflexivity.
  - discriminate.
Defined.

(** *** The ways through a punishment *)

(** X24: when the attempt is authorized, the private notification is
    delivered and the kick or ban succeeds, [punish_member] dispatches the
    guild message to the guild log, stores the member with [_in_guild] true
    and [kick_count] as it was, once and last, and returns. *)
Theorem punishment_carried_out
  (handler : Handler) (pf : Platform) (msg : HMessage) (internal_guild : Guild.t)
  (user_message guild_message : payload) (is_kick : bool)
  (user_delete_after channel_delete_after : option Z)
  (st : state punish_frame) (channel : Channel) (guild : HGuild) (me : HMember)
  (roles : list Role) (sent : Z) :
  let author := user_id (msg_author msg) in
  let m := member (store st) in
  let fetched :=
    trace st ++ [FetchChannel (msg_channel_id msg) (Done channel)] in
  let authorized :=
    fetched ++ [FetchRoles (user_id (member_user me)) (Done roles)] in
  let told :=
    authorized ++ notified author user_message sent user_delete_after in
  let done :=
    told ++ [action_event is_kick (hguild_id guild) author (Done tt)] in
  let logged :=
    snd (send_guild_log pf internal_guild guild_message channel_delete_after
           channel (mkstate (mkframe m (Some sent)) done)) in
  rest_fetch_channel pf (trace st) (msg_channel_id msg) = Done channel ->
  get_guild handler (msg_guild_id msg) = Some guild ->
  get_my_member guild = Some me ->
  member_fetch_roles pf fetched (user_id (member_user me)) = Done roles ->
  owner_id guild ≠ Member.id m ->
  target_send pf authorized (ToUser author) user_message = Done sent ->
  (truthy user_delete_after = true ->
   message_delete pf
     (authorized ++ [Send (ToUser author) user_message (Done sent);
                     Sleep (default 0 user_delete_after)]) sent = Done tt) ->
  (if is_kick then guild_kick pf told (hguild_id guild) author
   else guild_ban pf told (hguild_id guild) author) = Done tt ->
  punish_member handler pf msg internal_guild user_message guild_message
    is_kick user_delete_after channel_delete_after st
  = (Ok tt,
     mkstate (mkframe (kept_in_guild m) (Some sent))
       (trace logged ++ [SetMember (kept_in_guild m)])).
Proof.
  intros author m fetched authorized told done logged
    Hchannel Hguild Hme Hroles Howner Hsend Hdelayed Haction.
  subst author m fetched authorized told done logged.
  unfold punish_member, _get_perms, deny, notified, action_event in *.
  unfold_monad. cbn.
  rewrite Hchannel, Hguild. cbn. rewrite Hme. cbn. rewrite Hroles. cbn.
  rewrite getattr_KICK_MEMBERS_true, getattr_BAN_MEMBERS_true.
  rewrite (bool_decide_eq_false_2 _ Howner). cbn. rewrite Hsend. cbn.
  destruct (truthy user_delete_after) eqn:Hdelay; cbn;
    rewrite <- ?app_assoc in *; cbn [app] in *;
    [rewrite (Hdelayed eq_refl); cbn; rewrite <- ?app_assoc; cbn [app]|];
    clear Hdelayed;
    (destruct is_kick; cbn; rewrite Haction; cbn;
     change (set_sent_message (Some sent) (set_sent_message None (store st)))
       with (mkframe (member (store st)) (Some sent));
     rewrite <- ?app_assoc; cbn [app];
     resolve_guild_log; reflexivity).
Qed.

Lemma kick_carried_out_sample :
  punish_member Sample.handler
    (Sample.platform 6 (Done 900) (Done tt) (Done tt) (fun _ => true))
    (Sample.message (py "spam")) Sample.internal_guild (Text (py "bye"))
    (Text (py "kicked")) true (Some 5) None (punish_start (Sample.member []))
  = (Ok tt,
     mkstate (mkframe (Member.mk 12345 3 2 true []) (Some 900))
       ([ FetchChannel 2 (Done {| chan_id := 2; chan_name := py "general" |});
          FetchRoles 98987
            (Done [{| role_name := py "test role 2"; permissions := 6 |}]);
          Send (ToUser 12345) (Text (py "bye")) (Done 900);
          Sleep 5;
          Delete 900 (Done tt);
          Kick 3 12345 (Done tt);
          Send (ToChannel 2) (Text (py "kicked")) (Done 901) ]
        ++ [SetMember (Member.mk 12345 3 2 true [])])).
Proof.
  apply (punishment_carried_out Sample.handler
           (Sample.platform 6 (Done 900) (Done tt) (Done tt) (fun _ => true))
           (Sample.message (py "spam")) Sample.internal_guild
           (Text (py "bye")) (Text (py "kicked")) true (Some 5) None
           (punish_start (Sample.member []))
           {| chan_id := 2; chan_name := py "general" |}
           (Sample.guild 777) Sample.bot_member
           [{| role_name := py "test role 2"; permissions := 6 |}]
           900).
  - reflexivity.
  - reflexivity.
  - reflexivity.
  - reflexivity.
  - discriminate.
  - reflexivity.
  - reflexivity.
  - reflexivity.
Defined.

(** X25: a private notification that fails with the internal server
    error does not stop the punishment: [punish_member] dispatches the
    notice of the failed notification to the guild log and then still calls
    kick or ban; when that succeeds it dispatches the guild message, stores
    the member and returns.  No notification is on record. *)
Theorem punished_without_notification
  (handler : Handler) (pf : Platform) (msg : HMessage) (internal_guild : Guild.t)
  (user_message guild_message : payload) (is_kick : bool)
  (user_delete_after channel_delete_after : option Z)
  (st : state punish_frame) (channel : Channel) (guild : HGuild) (me : HMember)
  (roles : list Role) :
  let author := user_id (msg_author msg) in
  let m := member (store st) in
  let fetched :=
    trace st ++ [FetchChannel (msg_channel_id msg) (Done channel)] in
  let authorized :=
    fetched ++ [FetchRoles (user_id (member_user me)) (Done roles)] in
  let untold :=
    authorized ++ [Send (ToUser author) user_message
                     (Failed InternalServerError)] in
  let noticed :=
    snd (send_guild_log pf internal_guild
           (Text (notification_failed_notice (msg_author msg) is_kick))
           channel_delete_after channel
           (mkstate (mkframe m None) untold)) in
  let done :=
    trace noticed
      ++ [action_event is_kick (hguild_id guild) author (Done tt)] in
  let logged :=
    snd (send_guild_log pf internal_guild guild_message channel_delete_after
           channel (mkstate (mkframe m None) done)) in
  rest_fetch_channel pf (trace st) (msg_channel_id msg) = Done channel ->
  get_guild handler (msg_guild_id msg) = Some guild ->
  get_my_member guild = Some me ->
  member_fetch_roles pf fetched (user_id (member_user me)) = Done roles ->
  owner_id guild ≠ Member.id m ->
  target_send pf authorized (ToUser author) user_message
    = Failed InternalServerError ->
  (if is_kick then guild_kick pf (trace noticed) (hguild_id guild) author
   else guild_ban pf (trace noticed) (hguild_id guild) author) = Done tt ->
  punish_member handler pf msg internal_guild user_message guild_message
    is_kick user_delete_after channel_delete_after st
  = (Ok tt,
     mkstate (mkframe (kept_in_guild m) None)
       (trace logged ++ [SetMember (kept_in_guild m)])).
Proof.
  intros author m fetched authorized untold noticed done logged
    Hchannel Hguild Hme Hroles Howner Hsend Haction.
  subst author m fetched authorized untold noticed done logged.
  unfold punish_member, _get_perms, deny, action_event in *.
  unfold_monad. cbn.
  rewrite Hchannel, Hguild. cbn. rewrite Hme. cbn. rewrite Hroles. cbn.
  rewrite getattr_KICK_MEMBERS_true, getattr_BAN_MEMBERS_true.
  rewrite (bool_decide_eq_false_2 _ Howner). cbn. rewrite Hsend. cbn.
  change (set_sent_message None (store st))
    with (mkframe (member (store st)) None) in *.
  rewrite <- ?app_assoc in *. cbn [app] in *.
  resolve_guild_log. cbn [snd trace] in Haction.
  destruct is_kick; cbn; rewrite Haction; cbn;
    resolve_guild_log; reflexivity.
Qed.

Lemma banned_without_notification_sample :
  punish_member Sample.handler
    (Sample.platform 6 (Failed InternalServerError) (Done tt) (Done tt)
       (fun _ => true))
    (Sample.message (py "spam")) Sample.internal_guild (Text (py "bye"))
    (Text (py "banned")) false None None (punish_start (Sample.member []))
  = (Ok tt,
     mkstate (mkframe (Member.mk 12345 3 2 true []) None)
       ([ FetchChannel 2 (Done {| chan_id := 2; chan_name := py "general" |});
          FetchRoles 98987
            (Done [{| role_name := py "test role 2"; permissions := 6 |}]);
          Send (ToUser 12345) (Text (py "bye")) (Failed InternalServerError);
          Send (ToChannel 2)
            (Text (py "Sending a message to <@12345> about their ban failed."))
            (Done 901);
          Ban 3 12345 (Done tt);
          Send (ToChannel 2) (Text (py "banned")) (Done 901) ]
        ++ [SetMember (Member.mk 12345 3 2 true [])])).
Proof.
  apply (punished_without_notification Sample.handler
           (Sample.platform 6 (Failed InternalServerError) (Done tt) (Done tt)
              (fun _ => true))
           (Sample.message (py "spam")) Sample.internal_guild
           (Text (py "bye")) (Text (py "banned")) false None None
           (punish_start (Sample.member []))
           {| chan_id := 2; chan_name := py "general" |}
           (Sample.guild 777) Sample.bot_member
           [{| role_name := py "test role 2"; permissions := 6 |}]).
  - reflexivity.
  - reflexivity.
  - reflexivity.
  - reflexivity.
  - discriminate.
  - reflexivity.
  - reflexivity.
Defined.

(** X26: when both the private notification and the kick or ban fail with
    the internal server error, [punish_member] reverts the member,
    dispatches the two notices to the guild log, and, no notification
    being on record, renders no failure message and deletes nothing; it
    stores the reverted member and returns. *)
Theorem both_failures_are_reverted
  (handler : Handler) (pf : Platform) (msg : HMessage) (internal_guild : Guild.t)
  (user_message guild_message : payload) (is_kick : bool)
  (user_delete_after channel_delete_after : option Z)
  (st : state punish_frame) (channel : Channel) (guild : HGuild) (me : HMember)
  (roles : list Role) :
  let author := user_id (msg_author msg) in
  let m := member (store st) in
  let fetched :=
    trace st ++ [FetchChannel (msg_channel_id msg) (Done channel)] in
  let authorized :=
    fetched ++ [FetchRoles (user_id (member_user me)) (Done roles)] in
  let untold :=
    authorized ++ [Send (ToUser author) user_message
                     (Failed InternalServerError)] in
  let noticed :=
    snd (send_guild_log pf internal_guild
           (Text (notification_failed_notice (msg_author msg) is_kick))
           channel_delete_after channel
           (mkstate (mkframe m None) untold)) in
  let failed :=
    trace noticed
      ++ [action_event is_kick (hguild_id guild) author
            (Failed InternalServerError)] in
  let logged :=
    snd (send_guild_log pf internal_guild
           (Text (action_failed_notice is_kick (Member.id m)))
           channel_delete_after channel
           (mkstate (mkframe (reverted m) None) failed)) in
  rest_fetch_channel pf (trace st) (msg_channel_id msg) = Done channel ->
  get_guild handler (msg_guild_id msg) = Some guild ->
  get_my_member guild = Some me ->
  member_fetch_roles pf fetched (user_id (member_user me)) = Done roles ->
  owner_id guild ≠ Member.id m ->
  target_send pf authorized (ToUser author) user_message
    = Failed InternalServerError ->
  (if is_kick then guild_kick pf (trace noticed) (hguild_id guild) author
   else guild_ban pf (trace noticed) (hguild_id guild) author)
    = Failed InternalServerError ->
  punish_member handler pf msg internal_guild user_message guild_message
    is_kick user_delete_after channel_delete_after st
  = (Ok tt,
     mkstate (mkframe (reverted m) None)
       (trace logged ++ [SetMember (reverted m)])).
Proof.
  intros author m fetched authorized untold noticed failed logged
    Hchannel Hguild Hme Hroles Howner Hsend Haction.
  subst author m fetched authorized untold noticed failed logged.
  unfold punish_member, _get_perms, deny, action_event in *.
  unfold_monad. cbn.
  rewrite Hchannel, Hguild. cbn. rewrite Hme. cbn. rewrite Hroles. cbn.
  rewrite getattr_KICK_MEMBERS_true, getattr_BAN_MEMBERS_true.
  rewrite (bool_decide_eq_false_2 _ Howner). cbn. rewrite Hsend. cbn.
  change (set_sent_message None (store st))
    with (mkframe (member (store st)) None) in *.
  rewrite <- ?app_assoc in *. cbn [app] in *.
  resolve_guild_log. cbn [snd trace] in Haction.
  destruct is_kick; cbn; rewrite Haction; cbn;
    change (decrement_kick_count (set_in_guild (mkframe (member (store st)) None)))
      with (mkframe (reverted (member (store st))) None);
    resolve_guild_log; reflexivity.
Qed.

Lemma both_failures_sample :
  punish_member Sample.handler
    (Sample.platform 6 (Failed InternalServerError)
       (Failed InternalServerError) (Done tt) (fun _ => true))
    (Sample.message (py "spam")) Sample.internal_guild (Text (py "bye"))
    (Text (py "kicked")) true None None (punish_start (Sample.member []))
  = (Ok tt,
     mkstate (mkframe (Member.mk 12345 3 1 true []) None)
       ([ FetchChannel 2 (Done {| chan_id := 2; chan_name := py "general" |});
          FetchRoles 98987
            (Done [{| role_name := py "test role 2"; permissions := 6 |}]);
          Send (ToUser 12345) (Text (py "bye")) (Failed InternalServerError);
          Send (ToChannel 2)
            (Text (py "Sending a message to <@12345> about their kick failed."))
            (Done 901);
          Kick 3 12345 (Failed InternalServerError);
          Send (ToChannel 2)
            (Text (py "An error occurred trying to kick: <@12345>"))
            (Done 901) ]
        ++ [SetMember (Member.mk 12345 3 1 true [])])).
Proof.
  apply (both_failures_are_reverted Sample.handler
           (Sample.platform 6 (Failed InternalServerError)
              (Failed InternalServerError) (Done tt) (fun _ => true))
           (Sample.message (py "spam")) Sample.internal_guild
           (Text (py "bye")) (Text (py "kicked")) true None None
           (punish_start (Sample.member []))
           {| chan_id := 2; chan_name := py "general" |}
           (Sample.guild 777) Sample.bot_member
           [{| role_name := py "test role 2"; permissions := 6 |}]).
  - reflexivity.
  - reflexivity.
  - reflexivity.
  - reflexivity.
  - discriminate.
  - reflexivity.
  - reflexivity.
Defined.



(** *** The sweep on any platform *)

(** A sweep that ends at the current message. *)
Ltac sweep_ends Hcached :=
  eexists _, _; cbn;
  split_and!;
  [ rewrite <- ?app_assoc; reflexivity
  | first [apply prefix_nil | apply prefix_cons, prefix_nil]
  | reflexivity
  | discriminate
  | intros ? [= <-]; by eexists
  | first [apply NoDup_nil_2 | apply NoDup_singleton]
  | intros c Hc;
    first [ by apply elem_of_nil in Hc
          | apply list_elem_of_singleton in Hc; by subst ]
  | intros c Hc;
    first [ by apply elem_of_nil in Hc
          | apply list_elem_of_singleton in Hc; subst;
            apply elem_of_cons; by left ] ].

(** A sweep that goes on with the messages left, by induction. *)
Ltac sweep_goes_on IH Hcached :=
  match goal with
  | |- context [delete_messages ?pf ?rest ?s] =>
      destruct (IH s)
        as (new & channels & Hsnd & Hprefix & Hdel & Hok & Hraise
            & Hnodup & Hfresh & Hasked);
      cbn [trace store] in *;
      eexists _, channels;
      split_and!;
      [ rewrite Hsnd, <- !app_assoc; reflexivity
      | unfold fetch_requests; rewrite ?omap_app; cbn; by apply prefix_cons
      | unfold delete_requests, found in *; rewrite ?omap_app; cbn;
        by rewrite Hdel
      | intros Hrun; unfold fetch_requests in *; rewrite ?omap_app; cbn;
        by rewrite (Hok Hrun)
      | exact Hraise
      | unfold channel_fetches in *; rewrite ?omap_app; cbn;
        first
          [ exact Hnodup
          | apply NoDup_cons; split; [|exact Hnodup];
            intros Hin; apply Hfresh in Hin;
            by rewrite lookup_insert_eq in Hin ]
      | unfold channel_fetches in *; rewrite ?omap_app; cbn;
        first
          [ exact Hfresh
          | intros c Hc; apply elem_of_cons in Hc as [->|Hc];
            [ exact Hcached
            | apply Hfresh in Hc;
              by apply lookup_insert_None in Hc as [? _] ] ]
      | unfold channel_fetches in *; rewrite ?omap_app; cbn;
        intros c Hc; apply elem_of_cons;
        first
          [ right; by apply Hasked
          | apply elem_of_cons in Hc as [->|Hc];
            [by left|right; by apply Hasked] ] ]
  end.

Lemma delete_messages_general (pf : Platform) (messages : list Message.t) :
  forall st : state (gmap Z Channel),
  exists new channels,
    snd (delete_messages pf messages st) = mkstate channels (trace st ++ new)
    /\ fetch_requests new
         `prefix_of` map Message.id (List.filter Message.is_duplicate messages)
    /\ delete_requests new = found new
    /\ (fst (delete_messages pf messages st) = Ok tt ->
        fetch_requests new
        = map Message.id (List.filter Message.is_duplicate messages))
    /\ (forall e, fst (delete_messages pf messages st) = Raise e ->
                  exists h, e = HTTP h)
    /\ NoDup (channel_fetches new)
    /\ (forall c, c ∈ channel_fetches new -> store st !! c = None)
    /\ channel_fetches new
         ⊆ map Message.channel_id (List.filter Message.is_duplicate messages).
Proof.
  induction messages as [|message rest IH]; intros st.
  - exists [], (store st). rewrite app_nil_r. destruct st. cbn.
    split_and!; try done.
    + constructor.
    + intros c Hc. by apply elem_of_nil in Hc.
  - cbn [delete_messages List.filter]. unfold_monad.
    destruct (Message.is_duplicate message); cbn; [|apply IH].
    destruct (store st !! Message.channel_id message) as [channel|] eqn:Hcached;
      [|destruct (rest_fetch_channel pf (trace st) (Message.channel_id message))
          as [channel|e0] eqn:Hchannel];
      cbn.
    3: sweep_ends Hcached.
    all: match goal with
         | |- context [channel_fetch_message ?p ?h ?c ?i] =>
             destruct (channel_fetch_message p h c i) as [actual|e] eqn:Hfetch
         end;
      cbn; unfold delete_message; unfold_monad; cbn;
      try match goal with
          | |- context [message_delete ?p ?h ?m] =>
              destruct (message_delete p h m) as [[]|e'] eqn:Hdelete
          end;
      cbn; try destruct e; try destruct e'; cbn;
      first [sweep_goes_on IH Hcached | sweep_ends Hcached].
Qed.

(** X28: on any platform and however it ends, the sweep asks for flagged
    messages only, in their order and without leaving one out before it
    stops; it calls [delete] on every message it found and on nothing
    else; when it returns it has asked for all of them, and when it raises
    the exception is an error of the platform. *)
Theorem sweep_on_any_platform
  (pf : Platform) (member : Member.t) (st : state (gmap Z Channel)) :
  exists new channels,
    snd (delete_member_messages pf member st)
      = mkstate channels (trace st ++ new)
    /\ fetch_requests new `prefix_of` duplicate_ids member
    /\ delete_requests new = found new
    /\ (fst (delete_member_messages pf member st) = Ok tt ->
        fetch_requests new = duplicate_ids member)
    /\ (forall e, fst (delete_member_messages pf member st) = Raise e ->
                  exists h, e = HTTP h).
Proof.
  unfold delete_member_messages. unfold_monad. cbn.
  destruct (delete_messages_general pf (Member.messages member)
              (mkstate ∅ (trace st)))
    as (new & channels & Hsnd & Hprefix & Hdel & Hok & Hraise & _).
  exists new, channels. split_and!; try done.
Qed.

(** X29: the dictionary of channels works as a cache: whatever the store
    held before and however the sweep ends, no channel is fetched twice,
    and a channel is fetched only if a flagged message is in it. *)
Theorem sweep_fetches_each_channel_once
  (pf : Platform) (member : Member.t) (st : state (gmap Z Channel)) :
  exists new,
    trace (snd (delete_member_messages pf member st)) = trace st ++ new
    /\ NoDup (channel_fetches new)
    /\ channel_fetches new
         ⊆ map Message.channel_id
             (List.filter Message.is_duplicate (Member.messages member)).
Proof.
  unfold delete_member_messages. unfold_monad. cbn.
  destruct (delete_messages_general pf (Member.messages member)
              (mkstate ∅ (trace st)))
    as (new & channels & Hsnd & _ & _ & _ & _ & Hnodup & _ & Hasked).
  exists new. by rewrite Hsnd.
Qed.
